(** * Provider fallback, caching and circuit breaking in the research extension

    A shallow embedding of [llm-processor.js] and [api-clients.js]:
    the LLM gateway ([LLMProcessor]), the stock client
    ([StockDataClient] with its three provider classes) and the news
    client ([NewsDataClient], [NewsAPIClient], [CurrentNewsAPIClient]).

    JavaScript values are a small inductive type, numbers are IEEE-754
    binary64 floats (the kernel's primitive floats), millisecond time
    stamps are integers, [Map] objects are insertion-ordered association
    lists, and [async] methods are functions in a state-and-exception
    monad over the receiver object and the outside world (clock, network
    oracle, log of requests sent). *)

From Stdlib Require Import ZArith Floats Uint63 Ascii String Sorting.Sorted.
From stdpp Require Import base list strings gmap pretty.

Local Open Scope string_scope.
Local Open Scope Z_scope.

Set Warnings "-inexact-float,-register-all".

(* ===================================================================== *)
(** ** JavaScript values *)
(* ===================================================================== *)

(** A value that can come out of [JSON.parse], be built by an object or
    array literal of the source, or be [undefined].  [VObj] lists the own
    enumerable properties in property order. *)
Inductive JSValue : Type :=
| VUndef
| VNull
| VBool (b : bool)
| VNum (x : float)
| VStr (s : string)
| VArr (elems : list JSValue)
| VObj (props : list (string * JSValue)).

(** Exceptions: [new Error(msg)] of the source, and the engine's
    [TypeError], [SyntaxError] and [RangeError]. *)
Inductive Exn : Type :=
| Error (message : string)
| TypeError (message : string)
| SyntaxError (message : string)
| RangeError (message : string).

Definition message_of (e : Exn) : string :=
  match e with
  | Error m => m
  | TypeError m => m
  | SyntaxError m => m
  | RangeError m => m
  end.

(** The outcome of evaluating an expression or running a method. *)
Inductive Outcome (A : Type) : Type :=
| Ok (a : A)
| Throw (e : Exn).
Arguments Ok {A} a.
Arguments Throw {A} e.

(** Built-ins of the host whose full definition lies outside the
    repository.  Every function of the development takes them as given;
    nothing is assumed about them. *)
Class Host : Type := {
  (** [JSON.parse(s)]; [None] when it raises [SyntaxError]. *)
  JSON_parse : string -> option JSValue;
  (** [JSON.stringify(v)]. *)
  JSON_stringify : JSValue -> string;
  (** [String(x)] for a number [x]. *)
  Number_toString : float -> string;
  (** [Number(s)] for a string [s]. *)
  String_toNumber : string -> float;
  (** [parseFloat(s)] and [parseInt(s)] for a string [s]. *)
  parseFloat_string : string -> float;
  parseInt_string : string -> float;
  (** Time value of [new Date(s)] for a string [s]; [None] is an invalid date. *)
  Date_parse : string -> option Z;
  (** [new Date(t).toISOString()]. *)
  Date_toISOString : Z -> string;
  (** [s.toLowerCase()]. *)
  String_toLowerCase : string -> string;
  (** [encodeURIComponent(s)]. *)
  encodeURIComponent : string -> string;
  (** [[...s.matchAll(re)]] for a global regular expression given by its
      source text and flags: for each match, the whole match followed by
      its capture groups. *)
  RegExp_matchAll : string -> string -> string -> list (list JSValue);
  (** [l.sort(cmp)] on a copy of [l], the comparison function given by
      what [SortCompare] makes of its results (a NaN counts as [0]).  The
      order of the result is the engine's: the standard fixes it only
      for a consistent comparison function. *)
  Array_sort : forall A : Type, (A -> A -> Z) -> list A -> list A;
}.
Arguments Array_sort {_} {A} cmp l.

Module JS.

Definition is_nan (x : float) : bool := negb (PrimFloat.eqb x x).

(** [Date.now()] and other integers as numbers: exact below 2^53. *)
Definition num_of_Z (z : Z) : float :=
  if z <? 0 then PrimFloat.opp (PrimFloat.of_uint63 (Uint63.of_Z (- z)))
  else PrimFloat.of_uint63 (Uint63.of_Z z).

(** Truncation of a number towards zero; [None] for NaN and infinities. *)
Definition trunc (x : float) : option Z :=
  match Prim2SF x with
  | S754_zero _ => Some 0
  | S754_finite s m e =>
      let mag := match e with
                 | Z0 => Z.pos m
                 | Zpos p => Z.pos m * 2 ^ Z.pos p
                 | Zneg p => Z.pos m / 2 ^ Z.pos p
                 end in
      Some (if s then - mag else mag)
  | S754_infinity _ => None
  | S754_nan => None
  end.

(** Truthiness ([ToBoolean]). *)
Definition truthy (v : JSValue) : bool :=
  match v with
  | VUndef | VNull => false
  | VBool b => b
  | VNum x => negb (PrimFloat.eqb x 0 || is_nan x)
  | VStr s => negb (String.eqb s "")
  | VArr _ | VObj _ => true
  end.

Definition join (sep : string) (l : list string) : string :=
  match l with
  | [] => ""
  | s :: r => fold_left (fun acc t => acc +:+ sep +:+ t) r s
  end.

Section WithHost.
Context `{Host}.

(** [String(v)], as used by template literals and property keys. *)
Fixpoint ToString (v : JSValue) : string :=
  match v with
  | VUndef => "undefined"
  | VNull => "null"
  | VBool true => "true"
  | VBool false => "false"
  | VNum x => Number_toString x
  | VStr s => s
  | VArr l =>
      join "," (List.map (fun e => match e with
                                   | VUndef | VNull => ""
                                   | _ => ToString e
                                   end) l)
  | VObj _ => "[object Object]"
  end.

(** [Number(v)]. *)
Definition ToNumber (v : JSValue) : float :=
  match v with
  | VUndef => nan
  | VNull => 0%float
  | VBool b => if b then 1%float else 0%float
  | VNum x => x
  | VStr s => String_toNumber s
  | VArr _ => String_toNumber (ToString v)
  | VObj _ => nan
  end.

(** [a > b] on values. *)
Definition gt (a b : JSValue) : bool := PrimFloat.ltb (ToNumber b) (ToNumber a).

(** [a < b] on values of which one is a number. *)
Definition lt (a b : JSValue) : bool := PrimFloat.ltb (ToNumber a) (ToNumber b).

Definition parseFloat (v : JSValue) : float := parseFloat_string (ToString v).
Definition parseInt (v : JSValue) : float := parseInt_string (ToString v).

(** [new Date(v).getTime()]; [None] stands for NaN (an invalid date). *)
Definition Date_getTime (v : JSValue) : option Z :=
  let clip (x : float) :=
    match trunc x with
    | Some t => if Z.abs t <=? 8640000000000000 then Some t else None
    | None => None
    end in
  match v with
  | VUndef => None
  | VNull => Some 0
  | VBool b => Some (if b then 1 else 0)
  | VNum x => clip x
  | VStr s => Date_parse s
  | VArr _ | VObj _ => Date_parse (ToString v)
  end.

End WithHost.

(** Property lookup in an object's own properties. *)
Fixpoint lookup_prop (k : string) (props : list (string * JSValue)) : JSValue :=
  match props with
  | [] => VUndef
  | (k', v) :: r => if String.eqb k k' then v else lookup_prop k r
  end.

(** [v[k]] for a property name [k] that is neither an index, nor [length],
    nor a member of a built-in prototype (none of the names the source
    reads is). Reading a property of [null] or [undefined] raises. *)
Definition get (v : JSValue) (k : string) : Outcome JSValue :=
  match v with
  | VUndef => Throw (TypeError ("Cannot read properties of undefined (reading '" +:+ k +:+ "')"))
  | VNull => Throw (TypeError ("Cannot read properties of null (reading '" +:+ k +:+ "')"))
  | VObj props => Ok (lookup_prop k props)
  | _ => Ok VUndef
  end.

Fixpoint chars (s : string) : list string :=
  match s with
  | EmptyString => []
  | String c r => String c EmptyString :: chars r
  end.

(** [v[0]]. *)
Definition get0 (v : JSValue) : Outcome JSValue :=
  match v with
  | VUndef => Throw (TypeError "Cannot read properties of undefined (reading '0')")
  | VNull => Throw (TypeError "Cannot read properties of null (reading '0')")
  | VObj props => Ok (lookup_prop "0" props)
  | VArr l => Ok (List.nth 0 l VUndef)
  | VStr s => Ok (match chars s with c :: _ => VStr c | [] => VUndef end)
  | _ => Ok VUndef
  end.

(** Assignment [o[k] = v] on the property list of an object: an existing
    property keeps its place. *)
Fixpoint set_prop (k : string) (v : JSValue) (props : list (string * JSValue))
  : list (string * JSValue) :=
  match props with
  | [] => [(k, v)]
  | (k', v') :: r => if String.eqb k k' then (k, v) :: r else (k', v') :: set_prop k v r
  end.

(** [Object.entries(v)]. *)
Definition entries (v : JSValue) : Outcome (list (string * JSValue)) :=
  match v with
  | VUndef | VNull => Throw (TypeError "Cannot convert undefined or null to object")
  | VObj props => Ok props
  | VArr l => Ok (imap (fun i e => (pretty (Z.of_nat i), e)) l)
  | VStr s => Ok (imap (fun i c => (pretty (Z.of_nat i), VStr c)) (chars s))
  | VBool _ | VNum _ => Ok []
  end.

(** Own enumerable properties copied by an object spread [{...v}]. *)
Definition spread (v : JSValue) : list (string * JSValue) :=
  match entries v with
  | Ok ps => ps
  | Throw _ => []
  end.

(** [Math.min(a, b)]. *)
Definition Math_min (a b : float) : float :=
  if is_nan a || is_nan b then nan
  else if PrimFloat.ltb a b then a
  else if PrimFloat.ltb b a then b
  else if PrimFloat.is_zero a && PrimFloat.get_sign a then a
  else b.

(** [s.includes(t)]. *)
Fixpoint includes (t s : string) : bool :=
  String.prefix t s ||
  match s with
  | EmptyString => false
  | String _ r => includes t r
  end.

(** [s.trim()], for the ASCII white space the source's messages can hold. *)
Definition is_space (c : ascii) : bool :=
  match c with
  | " "%char | "009"%char | "010"%char | "011"%char | "012"%char | "013"%char => true
  | _ => false
  end.

Fixpoint trim_start (s : string) : string :=
  match s with
  | String c r => if is_space c then trim_start r else s
  | EmptyString => EmptyString
  end.

Definition trim (s : string) : string :=
  String.rev (trim_start (String.rev (trim_start s))).

(** [s.substring(0, n)]. *)
Definition substring0 (n : nat) (s : string) : string := String.substring 0 n s.

End JS.

(* ===================================================================== *)
(** ** [Map]: insertion-ordered maps with string keys *)
(* ===================================================================== *)

Module JSMap.

(** The entries in insertion order; keys are pairwise distinct. *)
Definition t (V : Type) : Type := list (string * V).

Definition empty {V : Type} : t V := [].

Fixpoint get {V : Type} (k : string) (m : t V) : option V :=
  match m with
  | [] => None
  | (k', v) :: r => if String.eqb k k' then Some v else get k r
  end.

Definition has {V : Type} (k : string) (m : t V) : bool :=
  match get k m with Some _ => true | None => false end.

(** [m.set(k, v)]: a present key keeps its place, a new key goes last. *)
Fixpoint set {V : Type} (k : string) (v : V) (m : t V) : t V :=
  match m with
  | [] => [(k, v)]
  | (k', v') :: r => if String.eqb k k' then (k, v) :: r else (k', v') :: set k v r
  end.

Fixpoint delete {V : Type} (k : string) (m : t V) : t V :=
  match m with
  | [] => []
  | (k', v') :: r => if String.eqb k k' then r else (k', v') :: delete k r
  end.

Definition size {V : Type} (m : t V) : Z := Z.of_nat (length m).

Definition keys {V : Type} (m : t V) : list string := List.map fst m.

(** [m.keys().next().value]: the first key in insertion order, if any. *)
Definition first_key {V : Type} (m : t V) : option string := head (keys m).

(** [m.delete(m.keys().next().value)]; deleting [undefined] changes nothing. *)
Definition delete_first {V : Type} (m : t V) : t V :=
  match first_key m with
  | Some k => delete k m
  | None => m
  end.

End JSMap.

(* ===================================================================== *)
(** ** The outside world and the monad of methods *)
(* ===================================================================== *)

(** What [fetch] is called with. *)
Inductive Request : Type :=
| GET (url : string)
(** [fetch(`${url}?${params}`)] with [params] a [URLSearchParams]. *)
| GET_query (url : string) (params : list (string * JSValue))
(** [fetch(url, {method: 'POST', headers, body: JSON.stringify(body)})]. *)
| POST (url : string) (headers : list (string * string)) (body : JSValue).

(** A response: status line, and the body when it is JSON ([None]: the
    body is not JSON and [response.json()] rejects). *)
Record Response : Type := {
  status : Z;
  statusText : string;
  body : option JSValue;
}.

(** [response.ok]. *)
Definition ok (r : Response) : bool := (200 <=? status r) && (status r <=? 299).

Inductive Reply : Type :=
| NetworkError (message : string)
| Respond (r : Response).

(** The world outside the objects: the clock read by [Date.now()], the
    network (the [n]-th request sent is answered by [net n], after a
    delay in milliseconds), the requests sent so far, the
    [agentic_settings] entry of [chrome.storage.local], and the global
    [CONFIG] ([VUndef] when no configuration script was loaded). *)
Record World : Type := {
  clock : Z;
  net : nat -> N * Reply;
  sent : list Request;
  storage : JSValue;
  CONFIG : JSValue;
}.

Definition M (S A : Type) : Type := S -> Outcome A * S.

Definition ret {S A : Type} (a : A) : M S A := fun s => (Ok a, s).

Definition bind {S A B : Type} (m : M S A) (k : A -> M S B) : M S B :=
  fun s => match m s with
           | (Ok a, s') => k a s'
           | (Throw e, s') => (Throw e, s')
           end.

Definition throw {S A : Type} (e : Exn) : M S A := fun s => (Throw e, s).

(** [try { m } catch (e) { h e }]: the state changes made by [m] before it
    raised stay. *)
Definition try_catch {S A : Type} (m : M S A) (h : Exn -> M S A) : M S A :=
  fun s => match m s with
           | (Ok a, s') => (Ok a, s')
           | (Throw e, s') => h e s'
           end.

Definition lift {S A : Type} (o : Outcome A) : M S A := fun s => (o, s).

Notation "'let*' x ':=' c 'in' k" := (bind c (fun x => k))
  (at level 10, x pattern, c at level 100, k at level 200).
Notation "c ';;' k" := (bind c (fun _ => k))
  (at level 100, k at level 200, right associativity).

Fixpoint mapM {S A B : Type} (f : A -> M S B) (l : list A) : M S (list B) :=
  match l with
  | [] => ret []
  | a :: r => let* b := f a in let* bs := mapM f r in ret (b :: bs)
  end.

Definition this {O : Type} : M (O * World) O := fun s => (Ok (fst s), s).

Definition set_this {O : Type} (o : O) : M (O * World) unit := fun s => (Ok tt, (o, snd s)).

Definition Date_now {O : Type} : M (O * World) Z := fun s => (Ok (clock (snd s)), s).

Definition advance (w : World) (d : N) (req : Request) : World :=
  {| clock := clock w + Z.of_N d; net := net w; sent := sent w ++ [req];
     storage := storage w; CONFIG := CONFIG w |}.

(** [await fetch(req)]: the request is logged, the clock moves by the
    delay of the answer, and a network failure rejects. *)
Definition fetch {O : Type} (req : Request) : M (O * World) Response :=
  fun s =>
    let w := snd s in
    let '(d, reply) := net w (length (sent w)) in
    let s' := (fst s, advance w d req) in
    match reply with
    | NetworkError msg => (Throw (TypeError msg), s')
    | Respond r => (Ok r, s')
    end.

(** [await response.json()]. *)
Definition json {O : Type} (r : Response) : M (O * World) JSValue :=
  match body r with
  | Some v => ret v
  | None => throw (SyntaxError "Unexpected token in JSON")
  end.

(** Running a method of a member object [proj o] of [o]. *)
Definition zoom {O P A : Type} (proj : O -> P) (upd : P -> O -> O)
  (m : M (P * World) A) : M (O * World) A :=
  fun s =>
    let '(r, (p', w')) := m (proj (fst s), snd s) in
    (r, (upd p' (fst s), w')).

Definition modify {O : Type} (f : O -> O) : M (O * World) unit :=
  fun s => (Ok tt, (f (fst s), snd s)).

Definition when {S : Type} (b : bool) (m : M S unit) : M S unit :=
  if b then m else ret tt.

(** [a || b] on values. *)
Definition js_or (a b : JSValue) : JSValue := if JS.truthy a then a else b.

(** The double-quote character. *)
Definition dquote : string := String (Ascii.ascii_of_nat 34) EmptyString.

(* ===================================================================== *)
(** ** [LLMProcessor] (llm-processor.js) *)
(* ===================================================================== *)

Module LLM.

(** The prompt types the public methods pass to [makeLLMCall]. *)
Inductive PromptType : Type :=
| task_understanding
| condition_analysis
| data_interpretation
| decision_making
| notification_content.

(** The fields of an [LLMProcessor]; [instructionPrompts] is constant and
    given by the function of that name below. *)
Record LLMProcessor : Type := {
  apiKey : JSValue;
  baseUrl : JSValue;
  model : JSValue;
  cache : JSMap.t JSValue;
  maxCacheSize : Z;
  failureCount : Z;
  remoteDisabled : bool;
}.

Definition set_apiKey (v : JSValue) (p : LLMProcessor) : LLMProcessor :=
  {| apiKey := v; baseUrl := baseUrl p; model := model p; cache := cache p;
     maxCacheSize := maxCacheSize p; failureCount := failureCount p;
     remoteDisabled := remoteDisabled p |}.

Definition set_baseUrl (v : JSValue) (p : LLMProcessor) : LLMProcessor :=
  {| apiKey := apiKey p; baseUrl := v; model := model p; cache := cache p;
     maxCacheSize := maxCacheSize p; failureCount := failureCount p;
     remoteDisabled := remoteDisabled p |}.

Definition set_model (v : JSValue) (p : LLMProcessor) : LLMProcessor :=
  {| apiKey := apiKey p; baseUrl := baseUrl p; model := v; cache := cache p;
     maxCacheSize := maxCacheSize p; failureCount := failureCount p;
     remoteDisabled := remoteDisabled p |}.

Definition set_cache (c : JSMap.t JSValue) (p : LLMProcessor) : LLMProcessor :=
  {| apiKey := apiKey p; baseUrl := baseUrl p; model := model p; cache := c;
     maxCacheSize := maxCacheSize p; failureCount := failureCount p;
     remoteDisabled := remoteDisabled p |}.

Definition set_failureCount (n : Z) (p : LLMProcessor) : LLMProcessor :=
  {| apiKey := apiKey p; baseUrl := baseUrl p; model := model p; cache := cache p;
     maxCacheSize := maxCacheSize p; failureCount := n;
     remoteDisabled := remoteDisabled p |}.

Definition set_remoteDisabled (b : bool) (p : LLMProcessor) : LLMProcessor :=
  {| apiKey := apiKey p; baseUrl := baseUrl p; model := model p; cache := cache p;
     maxCacheSize := maxCacheSize p; failureCount := failureCount p;
     remoteDisabled := b |}.

(** [new LLMProcessor()]. *)
Definition constructor : LLMProcessor :=
  {| apiKey := VNull;
     baseUrl := VStr "https://api.openai.com/v1/chat/completions";
     model := VStr "gpt-3.5-turbo";
     cache := JSMap.empty;
     maxCacheSize := 100;
     failureCount := 0;
     remoteDisabled := false |}.

Definition getTaskUnderstandingPrompt : string :=
"You are an AI assistant specialized in financial monitoring and task automation.
        
Analyze user input to extract key parameters for automated monitoring systems.
Focus on clarity, accuracy, and practical implementation.
Be specific about thresholds, conditions, and notification requirements.

Always return structured, JSON-parseable responses when possible.".

Definition getConditionAnalysisPrompt : string :=
"You are a financial monitoring analyst. Analyze condition check results with precision.
        
Consider:
- Market volatility and normal fluctuations
- Risk thresholds and alert appropriateness  
- False positives vs false negatives
- Data quality and reliability

Provide actionable insights for automated trading/financial alerts.".

Definition getDataInterpretationPrompt : string :=
"You are a financial data analyst specializing in real-time market interpretation.
        
Focus on:
- Price action significance
- Volume analysis
- News sentiment correlation
- Market trend identification
- Risk assessment

Provide clear, actionable market insights.".

Definition getDecisionMakingPrompt : string :=
"You are an automated trading system AI making control decisions.
        
Consider:
- System reliability and uptime
- Risk management
- Resource optimization
- Error handling
- Continuous improvement

Make practical, conservative decisions with safety as priority.".

Definition getNotificationContentPrompt : string :=
"You are a financial notification specialist writing user alerts.
        
Guidelines:
- Clear and concise communication
- Avoid technical jargon when possible
- Provide actionable information
- Maintain professional tone
- Include relevant context

Create notifications that users can easily understand and act upon.".

(** [this.instructionPrompts[promptType]]. *)
Definition instructionPrompts (t : PromptType) : string :=
  match t with
  | task_understanding => getTaskUnderstandingPrompt
  | condition_analysis => getConditionAnalysisPrompt
  | data_interpretation => getDataInterpretationPrompt
  | decision_making => getDecisionMakingPrompt
  | notification_content => getNotificationContentPrompt
  end.

Definition buildTaskAnalysisPrompt (userInput : string) : string :=
"Analyze the following user input to extract monitoring parameters:

User Input: " +:+ dquote +:+ userInput +:+ dquote +:+ "

Please extract:
1. Task type (stock_monitor, news_monitor, general_alert)
2. Assets/symbols to monitor
3. Conditions to check (price thresholds, news keywords, etc.)
4. Notification preferences
5. Time constraints or frequencies

Return as JSON with the extracted information.".

Section WithHost.
Context `{Host}.

(** The rule-based routines used instead of the remote model. *)
Definition fallbackTaskUnderstanding (prompt : string) : JSValue :=
  let stockSymbolRegex := "\b[A-Z]{2,5}\b" in
  let thresholdRegex := "(over|above|below|under|>|<)\s*\$?(\d+(?:\.\d{2})?)" in
  let symbols :=
    take 3 (List.map (fun m => List.nth 0 m VUndef)
                     (RegExp_matchAll stockSymbolRegex "g" prompt)) in
  let thresholds :=
    List.map (fun m => VObj [("operator", List.nth 1 m VUndef);
                             ("value", VNum (JS.parseFloat (List.nth 2 m VUndef)))])
             (RegExp_matchAll thresholdRegex "gi" prompt) in
  VObj [("taskType", VStr (if (0 <? Z.of_nat (length symbols))
                           then "stock_monitor" else "general_alert"));
        ("symbols", VArr symbols);
        ("thresholds", VArr thresholds);
        ("extracted", VBool true);
        ("fallback", VBool true)].

Definition fallbackConditionAnalysis (prompt : string) : JSValue :=
  VObj [("conditionsMet", VBool true);
        ("actionRequired", VBool true);
        ("confidence", VNum 0.8);
        ("recommendations", VArr [VStr "Monitor trends closely"; VStr "Set up additional alerts"]);
        ("fallback", VBool true)].

Definition fallbackDataInterpretation (prompt : string) : JSValue :=
  VObj [("sentiment", VStr "neutral");
        ("trend", VStr "stable");
        ("riskLevel", VStr "medium");
        ("recommendations", VArr [VStr "Continue monitoring"]);
        ("fallback", VBool true)].

Definition fallbackDecisionMaking (prompt : string) : JSValue :=
  VObj [("action", VStr "continue_monitoring");
        ("confidence", VNum 0.7);
        ("reasoning", VStr "Fallback decision made");
        ("fallback", VBool true)].

Definition fallbackProcessing (promptType : PromptType) (prompt : string) : JSValue :=
  match promptType with
  | task_understanding => fallbackTaskUnderstanding prompt
  | condition_analysis => fallbackConditionAnalysis prompt
  | data_interpretation => fallbackDataInterpretation prompt
  | decision_making => fallbackDecisionMaking prompt
  | notification_content =>
      VObj [("text", VStr "Processing unavailable"); ("parsed", VBool false)]
  end.

(** [response.choices[0].message.content]. *)
Definition reply_content (response : JSValue) : Outcome JSValue :=
  match JS.get response "choices" with
  | Throw e => Throw e
  | Ok choices =>
      match JS.get0 choices with
      | Throw e => Throw e
      | Ok first =>
          match JS.get first "message" with
          | Throw e => Throw e
          | Ok message => JS.get message "content"
          end
      end
  end.

(** [parseLLMResponse(response)], with [now] the value of [Date.now()]. *)
Definition parseLLMResponse (now : Z) (response : JSValue) : JSValue :=
  match reply_content response with
  | Ok content =>
      match JSON_parse (JS.ToString content) with
      | Some v => v
      | None =>
          VObj [("text", content);
                ("parsed", VBool true);
                ("timestamp", VNum (JS.num_of_Z now))]
      end
  | Throw _ =>
      VObj [("text", VStr "Unable to process LLM response");
            ("parsed", VBool false)]
  end.

(** The request [makeLLMCall] sends. *)
Definition completion_request (self : LLMProcessor) (prompt : string)
  (promptType : PromptType) : Request :=
  let messages :=
    VArr [VObj [("role", VStr "system"); ("content", VStr (instructionPrompts promptType))];
          VObj [("role", VStr "user"); ("content", VStr prompt)]] in
  POST (JS.ToString (baseUrl self))
       [("Authorization", "Bearer " +:+ JS.ToString (apiKey self));
        ("Content-Type", "application/json")]
       (VObj [("model", model self);
              ("messages", messages);
              ("temperature", VNum 0.3);
              ("max_tokens", VNum 1000)]).

Definition makeLLMCall (prompt : string) (promptType : PromptType)
  : M (LLMProcessor * World) JSValue :=
  let* self := this in
  if negb (JS.truthy (apiKey self)) || remoteDisabled self then
    ret (fallbackProcessing promptType prompt)
  else
    try_catch
      (let* response := fetch (completion_request self prompt promptType) in
       if negb (ok response) then
         when ((status response =? 400) || (status response =? 401))
              (modify (fun p => set_apiKey VNull (set_remoteDisabled true p))) ;;
         throw (Error (JS.trim ("LLM API error: " +:+ pretty (status response)
                                +:+ " " +:+ statusText response)))
       else
         let* result := json response in
         let* now := Date_now in
         ret (parseLLMResponse now result))
      (fun error =>
         modify (fun p => set_failureCount (failureCount p + 1) p) ;;
         let* self' := this in
         when (1 <=? failureCount self')
              (modify (fun p => set_remoteDisabled true (set_apiKey VNull p))) ;;
         ret (fallbackProcessing promptType prompt)).

(** [calculateConfidenceScore(data)], with [now] the value of [Date.now()]. *)
Definition calculateConfidenceScore (now : Z) (data : JSValue) : Outcome float :=
  if negb (JS.truthy data) then Ok 0.1%float
  else
    match JS.get data "price", JS.get data "volume",
          JS.get data "source", JS.get data "timestamp" with
    | Ok price, Ok volume, Ok source, Ok timestamp =>
        let score := 0.5%float in
        let score := if JS.gt price (VNum 0) then (score + 0.2)%float else score in
        let score := if JS.gt volume (VNum 1000) then (score + 0.1)%float else score in
        let score := if JS.truthy source then (score + 0.1)%float else score in
        let fresh :=
          JS.truthy timestamp &&
          match JS.Date_getTime timestamp with
          | Some t => now - t <? 300000
          | None => false
          end in
        let score := if fresh then (score + 0.1)%float else score in
        Ok (JS.Math_min score 1)
    | Throw e, _, _, _ | _, Throw e, _, _ | _, _, Throw e, _ | _, _, _, Throw e => Throw e
    end.

Definition storeInCache (key : string) (value : JSValue) : M (LLMProcessor * World) unit :=
  let* self := this in
  when (maxCacheSize self <=? JSMap.size (cache self))
       (modify (fun p => set_cache (JSMap.delete_first (cache p)) p)) ;;
  let* now := Date_now in
  modify (fun p =>
    set_cache (JSMap.set key
                 (VObj (JS.set_prop "cacheTimestamp" (VNum (JS.num_of_Z now)) (JS.spread value)))
                 (cache p)) p).

Definition processTaskInput (userInput : string) : M (LLMProcessor * World) JSValue :=
  let cacheKey := "task_input_" +:+ userInput in
  let* self := this in
  match JSMap.get cacheKey (cache self) with
  | Some cached => ret cached
  | None =>
      let prompt := buildTaskAnalysisPrompt userInput in
      let* result := makeLLMCall prompt task_understanding in
      when (JS.truthy result) (storeInCache cacheKey result) ;;
      ret result
  end.

(** One line of the news summary of [buildMarketDataPrompt]:
    [`${article.title}: ${article.description.substring(0, 100)}...`]. *)
Definition news_line (article : JSValue) : Outcome string :=
  match JS.get article "title" with
  | Throw e => Throw e
  | Ok title =>
      match JS.get article "description" with
      | Throw e => Throw e
      | Ok (VStr d) => Ok (JS.ToString title +:+ ": " +:+ JS.substring0 100 d +:+ "...")
      | Ok VUndef =>
          Throw (TypeError "Cannot read properties of undefined (reading 'substring')")
      | Ok VNull =>
          Throw (TypeError "Cannot read properties of null (reading 'substring')")
      | Ok _ => Throw (TypeError "article.description.substring is not a function")
      end
  end.

Fixpoint news_lines (articles : list JSValue) : Outcome (list string) :=
  match articles with
  | [] => Ok []
  | a :: r =>
      match news_line a with
      | Throw e => Throw e
      | Ok line =>
          match news_lines r with
          | Throw e => Throw e
          | Ok lines => Ok (line :: lines)
          end
      end
  end.

(** [buildMarketDataPrompt(symbol, data, newsContext)]. *)
Definition buildMarketDataPrompt (symbol data newsContext : JSValue) : Outcome string :=
  let summary :=
    match newsContext with
    | VArr l => news_lines (take 5 l)
    | VUndef =>
        Throw (TypeError "Cannot read properties of undefined (reading 'slice')")
    | VNull => Throw (TypeError "Cannot read properties of null (reading 'slice')")
    | VStr _ => Throw (TypeError "newsContext.slice(...).map is not a function")
    | _ => Throw (TypeError "newsContext.slice is not a function")
    end in
  match summary with
  | Throw e => Throw e
  | Ok lines =>
      match JS.get data "price", JS.get data "change",
            JS.get data "changePercent", JS.get data "volume" with
      | Ok price, Ok change, Ok changePercent, Ok volume =>
          Ok ("Analyze market data for " +:+ JS.ToString symbol +:+ ":
        
Current Price: $" +:+ JS.ToString price +:+ "
Change: " +:+ JS.ToString change +:+ " (" +:+ JS.ToString changePercent +:+ "%)
Volume: " +:+ JS.ToString volume +:+ "
Recent News Context:
" +:+ JS.join "
" lines +:+ "

Provide analysis of:
1. Current market sentiment
2. Recent performance trends
3. News impact assessment
4. Risk indicators
5. Recommended monitoring thresholds

Format as market analysis.")
      | Throw e, _, _, _ | _, Throw e, _, _ | _, _, Throw e, _ | _, _, _, Throw e => Throw e
      end
  end.

(** [getDefaultMarketAnalysis(data)]. *)
Definition getDefaultMarketAnalysis (data : JSValue) : Outcome JSValue :=
  match JS.get data "change", JS.get data "changePercent" with
  | Ok c, Ok cp =>
      let change := js_or c (VNum 0) in
      let changePercent := js_or cp (VNum 0) in
      let sentiment :=
        if JS.gt change (VNum 0) then "bullish"
        else if JS.lt change (VNum (-0.02)) then "bearish"
        else "neutral" in
      let trend :=
        if JS.gt changePercent (VNum 2) then "strong_upward"
        else if JS.lt changePercent (VNum (-2)) then "strong_downward"
        else "stable" in
      Ok (VObj [("sentiment", VStr sentiment);
                ("trend", VStr trend);
                ("recommendation", VStr "Monitor closely");
                ("confidence", VNum 0.6)])
  | Throw e, _ | _, Throw e => Throw e
  end.

(** [interpretMarketData(symbol, data, newsContext = [])]. *)
Definition interpretMarketData (symbol data newsContext : JSValue)
  : M (LLMProcessor * World) JSValue :=
  let newsContext := match newsContext with VUndef => VArr [] | v => v end in
  let* prompt := lift (buildMarketDataPrompt symbol data newsContext) in
  let* analysis := makeLLMCall prompt data_interpretation in
  let* analysis' :=
    if JS.truthy analysis then ret analysis else lift (getDefaultMarketAnalysis data) in
  let* now := Date_now in
  let* confidence := lift (calculateConfidenceScore now data) in
  ret (VObj [("symbol", symbol);
             ("analysis", analysis');
             ("timestamp", VNum (JS.num_of_Z now));
             ("confidence", VNum confidence)]).



(** [healthCheck()]. *)
Definition healthCheck : M (LLMProcessor * World) JSValue :=
  let* self := this in
  if negb (JS.truthy (apiKey self)) then
    ret (VObj [("status", VStr "no_key"); ("message", VStr "No API key configured")])
  else
    try_catch
      (let* result := makeLLMCall "Test connection" task_understanding in
       let* now := Date_now in
       ret (VObj [("status", VStr "healthy"); ("responseTime", VNum (JS.num_of_Z now))]))
      (fun error =>
         ret (VObj [("status", VStr "error"); ("message", VStr (message_of error))])).

(** [chrome.storage.local.set({agentic_settings: v})]. *)
Definition storage_set {O : Type} (v : JSValue) : M (O * World) unit :=
  fun s =>
    let w := snd s in
    (Ok tt, (fst s, {| clock := clock w; net := net w; sent := sent w;
                       storage := v; CONFIG := CONFIG w |})).

(** [updateConfig(apiKey, baseUrl = null, model = null)]. *)
Definition updateConfig (newKey newBaseUrl newModel : JSValue) : M (LLMProcessor * World) unit :=
  modify (set_apiKey newKey) ;;
  when (JS.truthy newBaseUrl) (modify (set_baseUrl newBaseUrl)) ;;
  when (JS.truthy newModel) (modify (set_model newModel)) ;;
  let* self := this in
  storage_set (VObj [("apiKey", apiKey self);
                     ("llmBaseUrl", baseUrl self);
                     ("llmModel", model self)]).

(** [initialize()]: from the hard-coded [CONFIG] when there is one, from
    the stored settings otherwise. *)
Definition initialize : M (LLMProcessor * World) unit :=
  try_catch
    (let* w := (fun s => (Ok (snd s), s)) in
     let config := CONFIG w in
     let* hard :=
       match config with
       | VUndef => ret VUndef
       | _ =>
           let* flag := lift (JS.get config "USE_HARDCODED_CONFIG") in
           if JS.truthy flag then lift (JS.get config "LLM") else ret flag
       end in
     if JS.truthy hard then
       let* k := lift (JS.get hard "apiKey") in
       modify (fun p => set_apiKey (js_or k (apiKey p)) p) ;;
       let* u := lift (JS.get hard "baseUrl") in
       modify (fun p => set_baseUrl (js_or u (baseUrl p)) p) ;;
       let* m := lift (JS.get hard "model") in
       modify (fun p => set_model (js_or m (model p)) p)
     else
       let saved := storage w in
       let* k := if JS.truthy saved then lift (JS.get saved "apiKey") else ret saved in
       when (JS.truthy k) (modify (set_apiKey k)) ;;
       let* u := if JS.truthy saved then lift (JS.get saved "llmBaseUrl") else ret saved in
       when (JS.truthy u) (modify (set_baseUrl u)) ;;
       let* m := if JS.truthy saved then lift (JS.get saved "llmModel") else ret saved in
       when (JS.truthy m) (modify (set_model m)))
    (fun _ => ret tt).

End WithHost.

(** *** Sessions: what a caller can do with a gateway *)

Inductive Op : Type :=
| Call (prompt : string) (t : PromptType)
| UpdateConfig (newKey newBaseUrl newModel : JSValue)
| Initialize
| ProcessTaskInput (userInput : string).

(** Does the answer to a completion request make [makeLLMCall] fail:
    the network fails, the status is not in 200..299, or the body is not
    JSON. *)
Definition reply_fails (r : Reply) : bool :=
  match r with
  | NetworkError _ => true
  | Respond resp => negb (ok resp) || match body resp with Some _ => false | None => true end
  end.

(** Is the answer an HTTP 400 or 401. *)
Definition reply_rejects_client (r : Reply) : bool :=
  match r with
  | NetworkError _ => false
  | Respond resp => (status resp =? 400) || (status resp =? 401)
  end.

Section Session.
Context `{Host}.

Definition step (op : Op) : M (LLMProcessor * World) JSValue :=
  match op with
  | Call prompt t => makeLLMCall prompt t
  | UpdateConfig k u m => updateConfig k u m ;; ret VUndef
  | Initialize => initialize ;; ret VUndef
  | ProcessTaskInput s => processTaskInput s
  end.

(** The operations of a session, one after the other, with their results. *)
Definition run (ops : list Op) : M (LLMProcessor * World) (list JSValue) :=
  mapM step ops.

End Session.

End LLM.

(* ===================================================================== *)
(** ** The configuration script (config.js) *)
(* ===================================================================== *)

(** The object the script assigns to the global [CONFIG]. *)
Definition shipped_CONFIG : JSValue :=
  VObj [("USE_HARDCODED_CONFIG", VBool true);
        ("COUNTRY", VStr "IN");
        ("LLM", VObj [("baseUrl", VStr "https://api.x.ai/v1/chat/completions");
                      ("model", VStr "grok-beta");
                      ("apiKey", VStr "")]);
        ("STOCK", VObj [("alphaVantageKey", VStr "demo"); ("finnhubKey", VStr "")]);
        ("NEWS", VObj [("newsApiKey", VStr ""); ("currentsApiKey", VStr "")]);
        ("TELEGRAM", VObj [("botToken", VStr ""); ("chatId", VStr "")])].

(* ===================================================================== *)
(** ** Provider keys taken from [CONFIG] *)
(* ===================================================================== *)

(** [(typeof CONFIG !== 'undefined' && CONFIG.USE_HARDCODED_CONFIG &&
    CONFIG.<group>?.<key>) ? CONFIG.<group>.<key> : 'demo']. *)
Definition configured_key (config : JSValue) (group key : string) : Outcome JSValue :=
  match config with
  | VUndef => Ok (VStr "demo")
  | _ =>
      match JS.get config "USE_HARDCODED_CONFIG" with
      | Throw e => Throw e
      | Ok flag =>
          if JS.truthy flag then
            match JS.get config group with
            | Throw e => Throw e
            | Ok g =>
                let k := match g with
                         | VObj props => JS.lookup_prop key props
                         | _ => VUndef
                         end in
                Ok (if JS.truthy k then k else VStr "demo")
            end
          else Ok (VStr "demo")
      end
  end.

(* ===================================================================== *)
(** ** [StockDataClient] and its providers (api-clients.js) *)
(* ===================================================================== *)

Module Stock.

(** The normalized quote every provider builds. *)
Record Quote : Type := {
  symbol : JSValue;
  price : JSValue;
  open : JSValue;
  high : JSValue;
  low : JSValue;
  volume : JSValue;
  change : JSValue;
  changePercent : JSValue;
  timestamp : JSValue;
  source : JSValue;
}.

(** One bar of a price history. *)
Record Bar : Type := {
  date : string;
  bar_open : float;
  bar_high : float;
  bar_low : float;
  bar_close : float;
  bar_volume : float;
}.

(** A provider object: its base URL and, where it has one, its key. *)
Record Provider : Type := {
  baseUrl : string;
  apiKey : JSValue;
}.

Record Clients : Type := {
  alphaVantage : Provider;
  yahooFinance : Provider;
  finhub : Provider;
}.

Record StockDataClient : Type := {
  clients : Clients;
  cache : JSMap.t Quote;
  lastFetchTime : JSMap.t Z;
  CACHE_DURATION : Z;
}.

Definition new_AlphaVantageAPI (config : JSValue) : Outcome Provider :=
  match configured_key config "STOCK" "alphaVantageKey" with
  | Ok k => Ok {| baseUrl := "https://www.alphavantage.co/query"; apiKey := k |}
  | Throw e => Throw e
  end.

Definition new_YahooFinanceAPI : Provider :=
  {| baseUrl := "https://query1.finance.yahoo.com/v8/finance/chart"; apiKey := VUndef |}.

Definition new_FinnhubAPI (config : JSValue) : Outcome Provider :=
  match configured_key config "STOCK" "finnhubKey" with
  | Ok k => Ok {| baseUrl := "https://finnhub.io/api/v1"; apiKey := k |}
  | Throw e => Throw e
  end.

(** [new StockDataClient()], with [config] the global [CONFIG]. *)
Definition constructor (config : JSValue) : Outcome StockDataClient :=
  match new_AlphaVantageAPI config, new_FinnhubAPI config with
  | Ok av, Ok fh =>
      Ok {| clients := {| alphaVantage := av; yahooFinance := new_YahooFinanceAPI; finhub := fh |};
            cache := JSMap.empty;
            lastFetchTime := JSMap.empty;
            CACHE_DURATION := 60000 |}
  | Throw e, _ | _, Throw e => Throw e
  end.

(** [this.cache.set(cacheKey, data); this.lastFetchTime.set(cacheKey, now)]. *)
Definition remember (cacheKey : string) (data : Quote) (now : Z)
  (c : StockDataClient) : StockDataClient :=
  {| clients := clients c;
     cache := JSMap.set cacheKey data (cache c);
     lastFetchTime := JSMap.set cacheKey now (lastFetchTime c);
     CACHE_DURATION := CACHE_DURATION c |}.

Section WithHost.
Context `{Host}.

Definition js_sub (a b : JSValue) : JSValue := VNum (JS.ToNumber a - JS.ToNumber b)%float.
Definition js_div (a b : JSValue) : JSValue := VNum (JS.ToNumber a / JS.ToNumber b)%float.
Definition js_mul (a b : JSValue) : JSValue := VNum (JS.ToNumber a * JS.ToNumber b)%float.

(** [new Date().toISOString()]. *)
Definition iso_now {O : Type} : M (O * World) JSValue :=
  let* now := Date_now in ret (VStr (Date_toISOString now)).

(** [AlphaVantageAPI.getStockData]. *)
Definition AlphaVantage_getStockData {O : Type} (api : Provider) (sym : string)
  : M (O * World) Quote :=
  let url := baseUrl api +:+ "?function=GLOBAL_QUOTE&symbol=" +:+ sym
             +:+ "&apikey=" +:+ JS.ToString (apiKey api) in
  try_catch
    (let* response := fetch (GET url) in
     let* data := json response in
     let* note := lift (JS.get data "Note") in
     if JS.truthy note then throw (Error "API rate limit exceeded")
     else
       let* quote := lift (JS.get data "Global Quote") in
       if negb (JS.truthy quote) then throw (Error "No data found for symbol")
       else
         let* p := lift (JS.get quote "05. price") in
         let* o := lift (JS.get quote "02. open") in
         let* h := lift (JS.get quote "03. high") in
         let* l := lift (JS.get quote "04. low") in
         let* v := lift (JS.get quote "06. volume") in
         let* c := lift (JS.get quote "09. change") in
         let* cp := lift (JS.get quote "10. change percent") in
         let* ts := iso_now in
         ret {| symbol := VStr sym;
                price := VNum (JS.parseFloat p);
                open := VNum (JS.parseFloat o);
                high := VNum (JS.parseFloat h);
                low := VNum (JS.parseFloat l);
                volume := VNum (JS.parseInt v);
                change := VNum (JS.parseFloat c);
                changePercent := cp;
                timestamp := ts;
                source := VStr "alpha_vantage" |})
    (fun error => throw (Error ("Alpha Vantage API error: " +:+ message_of error))).

(** [YahooFinanceAPI.getStockData]. *)
Definition YahooFinance_getStockData {O : Type} (api : Provider) (sym : string)
  : M (O * World) Quote :=
  let url := baseUrl api +:+ "/" +:+ sym in
  try_catch
    (let* response := fetch (GET url) in
     let* data := json response in
     let* chart := lift (JS.get data "chart") in
     let* results := if JS.truthy chart then lift (JS.get chart "result") else ret chart in
     let* first := if JS.truthy results then lift (JS.get0 results) else ret results in
     if negb (JS.truthy first) then throw (Error "Invalid symbol or no data")
     else
       let* meta := lift (JS.get first "meta") in
       let* s := lift (JS.get meta "symbol") in
       let* p := lift (JS.get meta "regularMarketPrice") in
       let* o := lift (JS.get meta "regularMarketOpen") in
       let* h := lift (JS.get meta "regularMarketDayHigh") in
       let* l := lift (JS.get meta "regularMarketDayLow") in
       let* v := lift (JS.get meta "regularMarketVolume") in
       let* pc := lift (JS.get meta "previousClose") in
       let* ts := iso_now in
       ret {| symbol := s;
              price := p;
              open := o;
              high := h;
              low := l;
              volume := v;
              change := js_sub p pc;
              changePercent := js_mul (js_div (js_sub p pc) pc) (VNum 100);
              timestamp := ts;
              source := VStr "yahoo_finance" |})
    (fun error => throw (Error ("Yahoo Finance API error: " +:+ message_of error))).

(** [FinnhubAPI.getStockData]; the quote it builds has no [volume]. *)
Definition Finnhub_getStockData {O : Type} (api : Provider) (sym : string)
  : M (O * World) Quote :=
  let url := baseUrl api +:+ "/quote?symbol=" +:+ sym
             +:+ "&token=" +:+ JS.ToString (apiKey api) in
  try_catch
    (let* response := fetch (GET url) in
     let* data := json response in
     let* err := lift (JS.get data "error") in
     if JS.truthy err then throw (Error (JS.ToString err))
     else
       let* c := lift (JS.get data "c") in
       let* o := lift (JS.get data "o") in
       let* h := lift (JS.get data "h") in
       let* l := lift (JS.get data "l") in
       let* d := lift (JS.get data "d") in
       let* dp := lift (JS.get data "dp") in
       let* ts := iso_now in
       ret {| symbol := VStr sym;
              price := c;
              open := o;
              high := h;
              low := l;
              volume := VUndef;
              change := d;
              changePercent := dp;
              timestamp := ts;
              source := VStr "finnhub" |})
    (fun error => throw (Error ("Finnhub API error: " +:+ message_of error))).

(** The cached quote [getStockPrice] returns without any request, if any. *)
Definition cached_quote (c : StockDataClient) (cacheKey : string) (now : Z) : option Quote :=
  match JSMap.get cacheKey (cache c), JSMap.get cacheKey (lastFetchTime c) with
  | Some cachedData, Some lastFetch =>
      if now - lastFetch <? CACHE_DURATION c then Some cachedData else None
  | _, _ => None
  end.

(** [StockDataClient.getStockPrice]. *)
Definition getStockPrice (sym : string) : M (StockDataClient * World) Quote :=
  let cacheKey := "stock_" +:+ sym in
  let* now := Date_now in
  let* self := this in
  match cached_quote self cacheKey now with
  | Some cachedData => ret cachedData
  | None =>
      try_catch
        (let* data := AlphaVantage_getStockData (alphaVantage (clients self)) sym in
         modify (remember cacheKey data now) ;;
         ret data)
        (fun error =>
           try_catch
             (let* data := YahooFinance_getStockData (yahooFinance (clients self)) sym in
              modify (remember cacheKey data now) ;;
              ret data)
             (fun error2 => throw (Error ("Unable to fetch data for " +:+ sym))))
  end.

(** What [getMultipleStockPrices] collects for one symbol: the quote, or
    the marker [{symbol, error: error.message}] built by its [catch]. *)
Inductive Entry : Type :=
| EQuote (q : Quote)
| EError (sym : string) (error : string).

Definition entry_symbol (e : Entry) : JSValue :=
  match e with
  | EQuote q => symbol q
  | EError s _ => VStr s
  end.

(** [data[key] = value] on an object literal: the name [__proto__] is the
    prototype accessor and creates no own property. *)
Definition assign (key : string) (value : Entry) (data : gmap string Entry)
  : gmap string Entry :=
  if String.eqb key "__proto__" then data else <[key := value]> data.

(** The result of one [getStockPrice(symbol).catch(...)] of the batch.
    All calls of the batch start at the same instant on the same client
    state, before any answer arrives; the call at position [i] has its
    requests answered by [nets i]. *)
Definition settle (self : StockDataClient) (w : World) (nets : nat -> nat -> N * Reply)
  (i : nat) (sym : string) : Entry :=
  let w_i := {| clock := clock w; net := nets i; sent := [];
                storage := storage w; CONFIG := CONFIG w |} in
  match fst (getStockPrice sym (self, w_i)) with
  | Ok q => EQuote q
  | Throw e => EError sym (message_of e)
  end.

(** [StockDataClient.getMultipleStockPrices]: the object it returns. *)
Definition getMultipleStockPrices (symbols : list string) (self : StockDataClient)
  (w : World) (nets : nat -> nat -> N * Reply) : gmap string Entry :=
  let results := imap (settle self w nets) symbols in
  fold_left
    (fun data result =>
       match result with
       | EError s e =>
           if negb (String.eqb e "")
           then assign s (EError s e) data
           else assign s result data
       | EQuote q => assign (JS.ToString (symbol q)) result data
       end)
    results ∅.

(** [functionMap] and [timeKeyMap] of [getHistoricalData]. *)
Definition functionMap : list (string * JSValue) :=
  [("1day", VStr "TIME_SERIES_DAILY");
   ("1week", VStr "TIME_SERIES_WEEKLY");
   ("1month", VStr "TIME_SERIES_MONTHLY")].

Definition timeKeyMap : list (string * JSValue) :=
  [("TIME_SERIES_DAILY", VStr "Time Series (Daily)");
   ("TIME_SERIES_WEEKLY", VStr "Weekly Time Series");
   ("TIME_SERIES_MONTHLY", VStr "Monthly Time Series")].

(** The bar built from one entry [[date, values]] of the time series. *)
Definition bar_of_entry (e : string * JSValue) : Outcome Bar :=
  let '(d, values) := e in
  match JS.get values "1. open", JS.get values "2. high", JS.get values "3. low",
        JS.get values "4. close", JS.get values "5. volume" with
  | Ok o, Ok h, Ok l, Ok c, Ok v =>
      Ok {| date := d;
            bar_open := JS.parseFloat o;
            bar_high := JS.parseFloat h;
            bar_low := JS.parseFloat l;
            bar_close := JS.parseFloat c;
            bar_volume := JS.parseInt v |}
  | Throw e, _, _, _, _ | _, Throw e, _, _, _ | _, _, Throw e, _, _
  | _, _, _, Throw e, _ | _, _, _, _, Throw e => Throw e
  end.

(** [AlphaVantageAPI.getHistoricalData], for a time frame that is not the
    name of a member of [Object.prototype]. *)
Definition AlphaVantage_getHistoricalData {O : Type} (api : Provider)
  (sym : string) (timeframe : string) : M (O * World) (list Bar) :=
  let fn := JS.lookup_prop timeframe functionMap in
  let url := baseUrl api +:+ "?function=" +:+ JS.ToString fn +:+ "&symbol=" +:+ sym
             +:+ "&apikey=" +:+ JS.ToString (apiKey api) +:+ "&outputsize=compact" in
  try_catch
    (let* response := fetch (GET url) in
     let* data := json response in
     let* note := lift (JS.get data "Note") in
     if JS.truthy note then throw (Error "API rate limit exceeded")
     else
       let timeKey := JS.lookup_prop (JS.ToString fn) timeKeyMap in
       let* timeSeries := lift (JS.get data (JS.ToString timeKey)) in
       let* series := lift (JS.entries timeSeries) in
       mapM (fun e => lift (bar_of_entry e)) (take 10 series))
    (fun error => throw (Error ("Historical data error: " +:+ message_of error))).

(** [StockDataClient.getStockHistory]; [None] is [null]. *)
Definition getStockHistory (sym : string) (timeframe : string)
  : M (StockDataClient * World) (option (list Bar)) :=
  let* self := this in
  try_catch
    (let* bars := AlphaVantage_getHistoricalData (alphaVantage (clients self)) sym timeframe in
     ret (Some bars))
    (fun error => ret None).

End WithHost.

End Stock.

(* ===================================================================== *)
(** ** [NewsDataClient] and its providers (api-clients.js) *)
(* ===================================================================== *)

Module News.

(** The normalized article every provider builds. *)
Record Article : Type := {
  title : JSValue;
  description : JSValue;
  url : JSValue;
  urlToImage : JSValue;
  publishedAt : JSValue;
  source : JSValue;
  content : JSValue;
}.

Record NewsAPIClient : Type := {
  baseUrl : string;
  apiKey : JSValue;
  _rateLimitedUntil : Z;
  _lastWarnAt : Z;
}.

Record CurrentNewsAPIClient : Type := {
  currents_baseUrl : string;
  currents_apiKey : JSValue;
}.

(** A cache entry [{data, timestamp}]. *)
Record Cached : Type := {
  data : list Article;
  cached_at : Z;
}.

Record NewsDataClient : Type := {
  newsApi : NewsAPIClient;
  currentApi : CurrentNewsAPIClient;
  cache : JSMap.t Cached;
  warned_at : Z;
}.

Definition set_rateLimitedUntil (t : Z) (c : NewsAPIClient) : NewsAPIClient :=
  {| baseUrl := baseUrl c; apiKey := apiKey c;
     _rateLimitedUntil := t; _lastWarnAt := _lastWarnAt c |}.

Definition set_lastWarnAt (t : Z) (c : NewsAPIClient) : NewsAPIClient :=
  {| baseUrl := baseUrl c; apiKey := apiKey c;
     _rateLimitedUntil := _rateLimitedUntil c; _lastWarnAt := t |}.

Definition set_newsApi (a : NewsAPIClient) (c : NewsDataClient) : NewsDataClient :=
  {| newsApi := a; currentApi := currentApi c; cache := cache c; warned_at := warned_at c |}.

Definition set_currentApi (a : CurrentNewsAPIClient) (c : NewsDataClient) : NewsDataClient :=
  {| newsApi := newsApi c; currentApi := a; cache := cache c; warned_at := warned_at c |}.

Definition set_cache (m : JSMap.t Cached) (c : NewsDataClient) : NewsDataClient :=
  {| newsApi := newsApi c; currentApi := currentApi c; cache := m; warned_at := warned_at c |}.

Definition set_warned_at (t : Z) (c : NewsDataClient) : NewsDataClient :=
  {| newsApi := newsApi c; currentApi := currentApi c; cache := cache c; warned_at := t |}.

Definition new_NewsAPIClient (config : JSValue) : Outcome NewsAPIClient :=
  match configured_key config "NEWS" "newsApiKey" with
  | Ok k => Ok {| baseUrl := "https://newsapi.org/v2"; apiKey := k;
                  _rateLimitedUntil := 0; _lastWarnAt := 0 |}
  | Throw e => Throw e
  end.

Definition new_CurrentNewsAPIClient (config : JSValue) : Outcome CurrentNewsAPIClient :=
  match configured_key config "NEWS" "currentsApiKey" with
  | Ok k => Ok {| currents_baseUrl := "https://api.currentsapi.services/v1";
                  currents_apiKey := k |}
  | Throw e => Throw e
  end.

(** [new NewsDataClient()], with [config] the global [CONFIG]. *)
Definition constructor (config : JSValue) : Outcome NewsDataClient :=
  match new_NewsAPIClient config, new_CurrentNewsAPIClient config with
  | Ok a, Ok c => Ok {| newsApi := a; currentApi := c; cache := JSMap.empty; warned_at := 0 |}
  | Throw e, _ | _, Throw e => Throw e
  end.

(** [v === 'ok']. *)
Definition is_ok (v : JSValue) : bool :=
  match v with
  | VStr s => String.eqb s "ok"
  | _ => false
  end.

(** [x?.k]. *)
Definition get_opt (v : JSValue) (k : string) : JSValue :=
  match v with
  | VObj props => JS.lookup_prop k props
  | _ => VUndef
  end.

(** The members of a [Set] are compared by SameValueZero; two distinct
    objects are never the same value, and no article object occurs twice
    in the list [searchForStockNews] collects. *)
Definition same_value_zero (a b : JSValue) : bool :=
  match a, b with
  | VUndef, VUndef => true
  | VNull, VNull => true
  | VBool x, VBool y => Bool.eqb x y
  | VNum x, VNum y => PrimFloat.eqb x y || (JS.is_nan x && JS.is_nan y)
  | VStr x, VStr y => String.eqb x y
  | _, _ => false
  end.

(** The loop over the sorted articles: an article is kept when its title
    is not among the titles [seen] so far. *)
Fixpoint unique_titles (seen : list JSValue) (l : list Article) : list Article :=
  match l with
  | [] => []
  | a :: r =>
      if existsb (same_value_zero (title a)) seen then unique_titles seen r
      else a :: unique_titles (title a :: seen) r
  end.


Section WithHost.
Context `{Host}.

(** [l.slice(0, n)] for a value [n]. *)
Definition slice0 {A : Type} (l : list A) (n : JSValue) : list A :=
  let x := JS.ToNumber n in
  match JS.trunc x with
  | Some k =>
      if k <? 0 then take (Z.to_nat (Z.of_nat (length l) + k)) l
      else take (Z.to_nat k) l
  | None => if PrimFloat.ltb 0 x then l else []
  end.

(** The article [NewsAPIClient.getNews] builds from one element of
    [data.articles]. *)
Definition NewsAPI_article (article : JSValue) : Outcome Article :=
  match JS.get article "title" with
  | Throw e => Throw e
  | Ok t =>
      Ok {| title := t;
            description := get_opt article "description";
            url := get_opt article "url";
            urlToImage := get_opt article "urlToImage";
            publishedAt := get_opt article "publishedAt";
            source := js_or (get_opt (get_opt article "source") "name") (VStr "Unknown");
            content := get_opt article "content" |}
  end.

(** Does the message of a response that is not ok tell of throttling? *)
Definition signals_throttling (message : JSValue) : bool :=
  let msg := JS.ToString (js_or message (VStr "")) in
  let lower := String_toLowerCase msg in
  JS.includes "too many requests" lower || JS.includes "rate" lower
  || JS.includes "limit" lower.

(** The request [NewsAPIClient.getNews] sends. *)
Definition NewsAPI_request (self : NewsAPIClient) (query : string)
  (sortBy pageSize language : JSValue) : Request :=
  GET_query (baseUrl self +:+ "/everything")
    [("q", VStr query);
     ("apiKey", apiKey self);
     ("sortBy", js_or sortBy (VStr "publishedAt"));
     ("pageSize", js_or pageSize (VNum 10));
     ("language", js_or language (VStr "en"))].

(** [NewsAPIClient.getNews]. *)
Definition NewsAPI_getNews (query : string) (options : JSValue)
  : M (NewsAPIClient * World) (list Article) :=
  let* now := Date_now in
  let* self := this in
  if now <? _rateLimitedUntil self then ret []
  else
    let* sortBy := lift (JS.get options "sortBy") in
    let* pageSize := lift (JS.get options "pageSize") in
    let* language := lift (JS.get options "language") in
    try_catch
      (let* response := fetch (NewsAPI_request self query sortBy pageSize language) in
       let* body := json response in
       let* st := lift (JS.get body "status") in
       if negb (is_ok st) then
         let* message := lift (JS.get body "message") in
         if signals_throttling message then
           let* t := Date_now in
           modify (set_rateLimitedUntil (t + 6 * 60 * 60 * 1000)) ;;
           let* self' := this in
           when (5 * 60 * 1000 <? now - _lastWarnAt self') (modify (set_lastWarnAt now)) ;;
           ret []
         else
           let* self' := this in
           when (5 * 60 * 1000 <? now - _lastWarnAt self') (modify (set_lastWarnAt now)) ;;
           ret []
       else
         let* articles := lift (JS.get body "articles") in
         match articles with
         | VArr l => mapM (fun a => lift (NewsAPI_article a)) l
         | _ => throw (TypeError "data.articles.map is not a function")
         end)
      (fun error =>
         let* t := Date_now in
         let* self' := this in
         when (5 * 60 * 1000 <? t - _lastWarnAt self') (modify (set_lastWarnAt t)) ;;
         ret []).

(** [NewsAPIClient.isRateLimited]. *)
Definition isRateLimited : M (NewsAPIClient * World) bool :=
  let* now := Date_now in
  let* self := this in
  ret (now <? _rateLimitedUntil self).

(** The article [CurrentNewsAPIClient.getNews] builds from one element of
    [data.news]. *)
Definition Currents_article (article : JSValue) : Outcome Article :=
  match JS.get article "title" with
  | Throw e => Throw e
  | Ok t =>
      Ok {| title := t;
            description := get_opt article "description";
            url := get_opt article "url";
            urlToImage := get_opt article "image";
            publishedAt := get_opt article "published";
            source := js_or (get_opt article "author") (VStr "Unknown");
            content := get_opt article "description" |}
  end.

(** [CurrentNewsAPIClient.getNews]. *)
Definition Currents_getNews {O : Type} (api : CurrentNewsAPIClient) (query : string)
  (options : JSValue) : M (O * World) (list Article) :=
  let* pageSize := lift (JS.get options "pageSize") in
  let req := GET_query (currents_baseUrl api +:+ "/search")
               [("keywords", VStr query);
                ("apiKey", currents_apiKey api);
                ("language", VStr "en");
                ("number", js_or pageSize (VNum 10))] in
  try_catch
    (let* response := fetch req in
     let* body := json response in
     let* st := lift (JS.get body "status") in
     if negb (is_ok st) then ret []
     else
       let* news := lift (JS.get body "news") in
       match news with
       | VArr l => mapM (fun a => lift (Currents_article a)) l
       | _ => throw (TypeError "data.news.map is not a function")
       end)
    (fun error => ret []).

(** The article [getNewsFromGoogleRss] builds from one element of
    [data.items]; [new Date(it.pubDate).toISOString()] raises on an
    invalid date.  (For an item that is a string, [it.link] is a method
    of the string prototype; the article has the title [''] and is
    dropped by the filter either way.) *)
Definition Rss_article (feed_title : JSValue) (it : JSValue) : Outcome Article :=
  match JS.get it "title" with
  | Throw e => Throw e
  | Ok t =>
      let pubDate := get_opt it "pubDate" in
      let published :=
        if JS.truthy pubDate then
          match JS.Date_getTime pubDate with
          | Some ms => Ok (VStr (Date_toISOString ms))
          | None => Throw (RangeError "Invalid time value")
          end
        else Ok VUndef in
      match published with
      | Throw e => Throw e
      | Ok p =>
          Ok {| title := js_or t (VStr "");
                description := js_or (get_opt it "description") (VStr "");
                url := js_or (get_opt it "link") (js_or (get_opt it "url") (VStr ""));
                urlToImage := VUndef;
                publishedAt := p;
                source := js_or feed_title (VStr "Google News");
                content := js_or (get_opt it "content") (VStr "") |}
      end
  end.

(** [NewsDataClient.getNewsFromGoogleRss]. *)
Definition getNewsFromGoogleRss {O : Type} (query : string) (options : JSValue)
  : M (O * World) (list Article) :=
  let* hl := lift (JS.get options "hl") in
  let* gl := lift (JS.get options "gl") in
  let* ceid := lift (JS.get options "ceid") in
  let enc (v : JSValue) := encodeURIComponent (JS.ToString v) in
  let rssUrl := "https://news.google.com/rss/search?q=" +:+ encodeURIComponent query
                +:+ "&hl=" +:+ enc (js_or hl (VStr "en-IN"))
                +:+ "&gl=" +:+ enc (js_or gl (VStr "IN"))
                +:+ "&ceid=" +:+ enc (js_or ceid (VStr "IN:en")) in
  let api := "https://api.rss2json.com/v1/api.json?rss_url=" +:+ encodeURIComponent rssUrl in
  try_catch
    (let* res := fetch (GET api) in
     if negb (ok res) then ret []
     else
       let* body := json res in
       let items := match get_opt body "items" with VArr l => l | _ => [] end in
       let feed_title := get_opt (get_opt body "feed") "title" in
       let* mapped := mapM (fun it => lift (Rss_article feed_title it)) items in
       let kept := List.filter (fun a => JS.truthy (title a) && JS.truthy (url a)) mapped in
       let* pageSize := lift (JS.get options "pageSize") in
       ret (slice0 kept (js_or pageSize (VNum 10))))
    (fun _ => ret []).

(** The secondary provider, then the feed: the two tiers behind the
    primary provider. *)
Definition fallback_tiers (cacheKey query : string) (options : JSValue)
  : M (NewsDataClient * World) (list Article) :=
  let* self := this in
  let* alt := try_catch (Currents_getNews (currentApi self) query options)
                        (fun _ => ret []) in
  if negb (Z.of_nat (length alt) =? 0) then
    let* t := Date_now in
    modify (fun c => set_cache (JSMap.set cacheKey {| data := alt; cached_at := t |} (cache c)) c) ;;
    ret alt
  else
    let* rss := try_catch (getNewsFromGoogleRss query options) (fun _ => ret []) in
    let* t := Date_now in
    modify (fun c => set_cache (JSMap.set cacheKey {| data := rss; cached_at := t |} (cache c)) c) ;;
    ret rss.

(** [NewsDataClient.getNews]. *)
Definition getNews (query : string) (options : JSValue)
  : M (NewsDataClient * World) (list Article) :=
  let cacheKey := "news_" +:+ query +:+ "_" +:+ JSON_stringify options in
  let* self := this in
  let* t0 := Date_now in
  let fresh := match JSMap.get cacheKey (cache self) with
               | Some cachedData =>
                   if t0 - cached_at cachedData <? 300000 then Some (data cachedData) else None
               | None => None
               end in
  match fresh with
  | Some articles => ret articles
  | None =>
      try_catch
        (let* found := zoom newsApi set_newsApi (NewsAPI_getNews query options) in
         let* limited :=
           if Z.of_nat (length found) =? 0
           then zoom newsApi set_newsApi isRateLimited
           else ret false in
         if limited then fallback_tiers cacheKey query options
         else
           let* t := Date_now in
           modify (fun c => set_cache
                     (JSMap.set cacheKey {| data := found; cached_at := t |} (cache c)) c) ;;
           ret found)
        (fun error =>
           let* now := Date_now in
           let* self' := this in
           when (5 * 60 * 1000 <? now - warned_at self') (modify (set_warned_at now)) ;;
           fallback_tiers cacheKey query options)
  end.

(** The comparison function [(a, b) => new Date(b.publishedAt) - new
    Date(a.publishedAt)]; [None] is NaN. *)
Definition compare_published (a b : Article) : option Z :=
  match JS.Date_getTime (publishedAt b), JS.Date_getTime (publishedAt a) with
  | Some tb, Some ta => Some (tb - ta)
  | _, _ => None
  end.

Definition sort_compare (a b : Article) : Z :=
  match compare_published a b with
  | Some d => d
  | None => 0
  end.

(** The five queries of [searchForStockNews]. *)
Definition queries (sym : string) : list string :=
  [sym; sym +:+ " stock"; sym +:+ " price"; sym +:+ " market"; sym +:+ " trading"].

Definition search_options : JSValue :=
  VObj [("sortBy", VStr "publishedAt"); ("pageSize", VNum 10)].

(** The loop of [searchForStockNews]: the results of the queries, one
    after the other, appended to [allResults]. *)
Fixpoint collect (qs : list string) (allResults : list Article)
  : M (NewsDataClient * World) (list Article) :=
  match qs with
  | [] => ret allResults
  | query :: rest =>
      let* allResults' :=
        try_catch
          (let* results := getNews query search_options in
           ret (allResults ++ results)%list)
          (fun error => ret allResults) in
      collect rest allResults'
  end.

(** Sorting (by the engine), removal of repeated titles and truncation. *)
Definition most_recent_unique (allResults : list Article) : list Article :=
  take 20 (unique_titles [] (Array_sort sort_compare allResults)).

(** [NewsDataClient.searchForStockNews]. *)
Definition searchForStockNews (sym : string) : M (NewsDataClient * World) (list Article) :=
  let* allResults := collect (queries sym) [] in
  ret (most_recent_unique allResults).

End WithHost.

End News.

(* ===================================================================== *)
(** ** [SidebarController] (sidebar.js) *)
(* ===================================================================== *)

Module Sidebar.

Section WithLocale.
Context `{Host}.
(** [d.toLocaleDateString()] and [d.toLocaleTimeString()] for a date
    given by its time value ([None]: an invalid date). *)
Variable toLocaleDateString : option Z -> string.
Variable toLocaleTimeString : option Z -> string.

(** [SidebarController.formatTimestamp(timestamp)], with [now] the time
    value of [new Date()]. *)
Definition formatTimestamp (now : Z) (timestamp : JSValue) : string :=
  let date := JS.Date_getTime timestamp in
  let diffMinutes :=
    match date with
    | Some t => Some ((now - t) / 60000)
    | None => None
    end in
  match diffMinutes with
  | Some m =>
      if m <? 1 then "Just now"
      else if m <? 60 then pretty m +:+ "m ago"
      else if m <? 1440 then pretty (m / 60) +:+ "h ago"
      else toLocaleDateString date +:+ " " +:+ toLocaleTimeString date
  | None => toLocaleDateString date +:+ " " +:+ toLocaleTimeString date
  end.

End WithLocale.
End Sidebar.

(* ===================================================================== *)
(** ** A host and worlds for running examples *)
(* ===================================================================== *)

(** [Example.host] answers as the JavaScript built-ins do on the inputs
    the examples of this file give them: numbers that are integers,
    strings of decimal digits or without any numeric reading, texts that
    are JSON literals or no JSON at all, ASCII letters, the two dates
    listed, strings without reserved URL characters, and prompts in which
    the patterns of the fallback routine match nothing. *)
Module Example.

Fixpoint digits (s : string) (acc : Z) : option Z :=
  match s with
  | EmptyString => Some acc
  | String c r =>
      let n := Z.of_nat (nat_of_ascii c) - 48 in
      if (0 <=? n) && (n <=? 9) then digits r (10 * acc + n) else None
  end.

Definition natural (s : string) : float :=
  match s with
  | EmptyString => nan
  | _ => match digits s 0 with Some z => JS.num_of_Z z | None => nan end
  end.

Definition lower_ascii (c : ascii) : ascii :=
  let n := nat_of_ascii c in
  if (65 <=? n)%nat && (n <=? 90)%nat then ascii_of_nat (n + 32) else c.

Fixpoint lower (s : string) : string :=
  match s with
  | EmptyString => EmptyString
  | String c r => String (lower_ascii c) (lower r)
  end.

Definition print_number (x : float) : string :=
  match JS.trunc x with
  | Some z => if PrimFloat.eqb (JS.num_of_Z z) x then pretty z else "NaN"
  | None => "NaN"
  end.

Fixpoint stringify (v : JSValue) : string :=
  match v with
  | VUndef => "undefined"
  | VNull => "null"
  | VBool true => "true"
  | VBool false => "false"
  | VNum x => print_number x
  | VStr s => dquote +:+ s +:+ dquote
  | VArr l => "[" +:+ JS.join "," (List.map stringify l) +:+ "]"
  | VObj props =>
      "{" +:+ JS.join ","
                (List.map (fun kv => dquote +:+ fst kv +:+ dquote +:+ ":" +:+ stringify (snd kv))
                          props) +:+ "}"
  end.

Definition parse_literal (s : string) : option JSValue :=
  if String.eqb s "null" then Some VNull
  else if String.eqb s "true" then Some (VBool true)
  else if String.eqb s "false" then Some (VBool false)
  else None.

Definition parse_date (s : string) : option Z :=
  if String.eqb s "2024-01-01T00:00:00.000Z" then Some 1704067200000
  else if String.eqb s "2024-01-02T00:00:00.000Z" then Some 1704153600000
  else None.

Definition print_date (t : Z) : string :=
  if t =? 1704153600000 then "2024-01-02T00:00:00.000Z"
  else "2024-01-01T00:00:00.000Z".

(** The engine of the examples sorts by insertion, which is stable. *)
Fixpoint sort_insert {A : Type} (cmp : A -> A -> Z) (x : A) (l : list A) : list A :=
  match l with
  | [] => [x]
  | y :: r => if cmp x y <=? 0 then x :: y :: r else y :: sort_insert cmp x r
  end.

Definition insertion_sort {A : Type} (cmp : A -> A -> Z) (l : list A) : list A :=
  fold_right (sort_insert cmp) [] l.

Definition host : Host :=
  {| JSON_parse := parse_literal;
     JSON_stringify := stringify;
     Number_toString := print_number;
     String_toNumber := fun s => if String.eqb s "" then 0%float else natural s;
     parseFloat_string := natural;
     parseInt_string := natural;
     Date_parse := parse_date;
     Date_toISOString := print_date;
     String_toLowerCase := lower;
     encodeURIComponent := fun s => s;
     RegExp_matchAll := fun _ _ _ => [];
     Array_sort := @insertion_sort |}.

(** 2024-01-01T00:00:00.000Z. *)
Definition new_year : Z := 1704067200000.

(** A world whose network answers the requests in turn with [replies]
    (each at once), and fails once they are used up. *)
Definition scripted (replies : list Reply) : World :=
  {| clock := new_year;
     net := fun n => (0%N, List.nth n replies (NetworkError "Failed to fetch"));
     sent := [];
     storage := VUndef;
     CONFIG := VUndef |}.

(** A world in which every request fails at the network. *)
Definition offline : World := scripted [].

Definition json_reply (v : JSValue) : Reply :=
  Respond {| status := 200; statusText := "OK"; body := Some v |}.

Definition status_reply (code : Z) (text : string) : Reply :=
  Respond {| status := code; statusText := text; body := None |}.

End Example.

(** [encodeURIComponent] on a string of bytes: every byte that is not an
    unreserved character becomes [%XX]. *)
Definition unreserved (c : ascii) : bool :=
  let n := nat_of_ascii c in
  ((65 <=? n)%nat && (n <=? 90)%nat) || ((97 <=? n)%nat && (n <=? 122)%nat)
  || ((48 <=? n)%nat && (n <=? 57)%nat)
  || existsb (Ascii.eqb c) (list_ascii_of_string "-_.!~*'()").

Definition hex_digit (n : nat) : ascii :=
  List.nth n (list_ascii_of_string "0123456789ABCDEF") "0"%char.

Fixpoint percent_encode (s : string) : string :=
  match s with
  | EmptyString => EmptyString
  | String c r =>
      if unreserved c then String c (percent_encode r)
      else
        let n := nat_of_ascii c in
        String "%"%char (String (hex_digit (n / 16)) (String (hex_digit (n mod 16))
                                                       (percent_encode r)))
  end.

(** A host that answers as [Example.host], encodes URL components, and
    finds the word [JSON] where the pattern of ticker symbols is matched
    against a text that holds it between spaces and no other word of 2
    to 5 capitals. *)
Definition thorough_host : Host :=
  {| JSON_parse := Example.parse_literal;
     JSON_stringify := Example.stringify;
     Number_toString := Example.print_number;
     String_toNumber := fun s => if String.eqb s "" then 0%float else Example.natural s;
     parseFloat_string := Example.natural;
     parseInt_string := Example.natural;
     Date_parse := Example.parse_date;
     Date_toISOString := Example.print_date;
     String_toLowerCase := Example.lower;
     encodeURIComponent := percent_encode;
     RegExp_matchAll := fun re _ s =>
       if String.eqb re "\b[A-Z]{2,5}\b" && JS.includes " JSON " s
       then [[VStr "JSON"]] else [];
     Array_sort := @Example.insertion_sort |}.

(* ===================================================================== *)
(** ** Reasoning about methods *)
(* ===================================================================== *)

Section Stable.
Context {S : Type} (R : S -> S -> Prop) `{!Reflexive R} `{!Transitive R}.

(** [m] moves every state to an [R]-related one. *)
Definition stable {A : Type} (m : M S A) : Prop := forall s, R s (snd (m s)).

Lemma stable_ret {A} (a : A) : stable (ret a).
Proof. intros s. reflexivity. Qed.

Lemma stable_throw {A} e : stable (@throw S A e).
Proof. intros s. reflexivity. Qed.

Lemma stable_lift {A} (o : Outcome A) : stable (lift o).
Proof. intros s. reflexivity. Qed.

Lemma stable_bind {A B} (m : M S A) (k : A -> M S B) :
  stable m -> (forall a, stable (k a)) -> stable (bind m k).
Proof.
  intros Hm Hk s. unfold bind. specialize (Hm s).
  destruct (m s) as [[a|e] s']; simpl in *; [|assumption].
  etransitivity; [eassumption|apply Hk].
Qed.

Lemma stable_try_catch {A} (m : M S A) (h : Exn -> M S A) :
  stable m -> (forall e, stable (h e)) -> stable (try_catch m h).
Proof.
  intros Hm Hh s. unfold try_catch. specialize (Hm s).
  destruct (m s) as [[a|e] s']; simpl in *; [assumption|].
  etransitivity; [eassumption|apply Hh].
Qed.

Lemma stable_when (b : bool) (m : M S unit) : stable m -> stable (when b m).
Proof. intros Hm. destruct b; [assumption|apply stable_ret]. Qed.

Lemma stable_if {A} (b : bool) (m1 m2 : M S A) :
  stable m1 -> stable m2 -> stable (if b then m1 else m2).
Proof. destruct b; auto. Qed.

Lemma stable_mapM {A B} (f : A -> M S B) (l : list A) :
  (forall a, stable (f a)) -> stable (mapM f l).
Proof.
  intros Hf. induction l as [|a l IH]; cbn [mapM]; [apply stable_ret|].
  apply stable_bind; [apply Hf|intros b].
  apply stable_bind; [apply IH|intros bs; apply stable_ret].
Qed.

End Stable.

Section StableWorld.
Context {O : Type} (R : O * World -> O * World -> Prop) `{!Reflexive R}.

Lemma stable_this : stable R (@this O).
Proof. intros s. reflexivity. Qed.

Lemma stable_Date_now : stable R (@Date_now O).
Proof. intros s. reflexivity. Qed.

Lemma stable_modify (f : O -> O) : (forall o w, R (o, w) (f o, w)) -> stable R (modify f).
Proof. intros Hf [o w]. apply Hf. Qed.

End StableWorld.

Section Succeeds.
Context {S : Type}.

(** [m] never raises. *)
Definition succeeds {A : Type} (m : M S A) : Prop := forall s, exists a, fst (m s) = Ok a.

Lemma succeeds_ret {A} (a : A) : succeeds (@ret S A a).
Proof. intros s. eexists. reflexivity. Qed.

Lemma succeeds_bind {A B} (m : M S A) (k : A -> M S B) :
  succeeds m -> (forall a, succeeds (k a)) -> succeeds (bind m k).
Proof.
  intros Hm Hk s. unfold bind. destruct (Hm s) as [a Ha].
  destruct (m s) as [[a'|e] s']; simpl in Ha; [|discriminate].
  apply Hk.
Qed.

Lemma succeeds_try_catch {A} (m : M S A) (h : Exn -> M S A) :
  (forall e, succeeds (h e)) -> succeeds (try_catch m h).
Proof.
  intros Hh s. unfold try_catch.
  destruct (m s) as [[a|e] s']; [eexists; reflexivity|apply Hh].
Qed.

Lemma succeeds_when (b : bool) (m : M S unit) : succeeds m -> succeeds (when b m).
Proof. intros Hm. destruct b; [assumption|apply succeeds_ret]. Qed.

Lemma succeeds_if {A} (b : bool) (m1 m2 : M S A) :
  succeeds m1 -> succeeds m2 -> succeeds (if b then m1 else m2).
Proof. destruct b; auto. Qed.

End Succeeds.

Section SucceedsWorld.
Context {O : Type}.

Lemma succeeds_this : succeeds (@this O).
Proof. intros s. eexists. reflexivity. Qed.

Lemma succeeds_Date_now : succeeds (@Date_now O).
Proof. intros s. eexists. reflexivity. Qed.

Lemma succeeds_modify (f : O -> O) : succeeds (modify f).
Proof. intros s. eexists. reflexivity. Qed.

End SucceedsWorld.

(** One step of a method: the combinators are unfolded and the
    projections of known pairs and records computed. *)
Ltac mstep_with tac :=
  repeat progress
    (unfold bind, ret, throw, try_catch, lift, this, set_this, Date_now, modify, when, json;
     tac).

Ltac stable_step :=
  first
    [ match goal with
      | |- Reflexive _ => exact _
      | |- Transitive _ => exact _
      end
    | apply stable_ret | apply stable_throw | apply stable_lift
    | apply stable_this | apply stable_Date_now
    | apply stable_when
    | apply stable_if
    | apply stable_bind; [| |intros]
    | apply stable_try_catch; [| |intros] ].

Ltac succeeds_step :=
  first
    [ apply succeeds_ret | apply succeeds_this | apply succeeds_Date_now
    | apply succeeds_modify | apply succeeds_when | apply succeeds_if
    | apply succeeds_bind; [|intros] ].

(* ===================================================================== *)
(** ** The circuit breaker of the LLM gateway *)
(* ===================================================================== *)

Import LLM.

Ltac msimpl :=
  mstep_with
    ltac:(cbn beta iota zeta delta
            [fst snd negb orb andb
             failureCount remoteDisabled apiKey baseUrl model cache maxCacheSize
             set_failureCount set_remoteDisabled set_apiKey set_baseUrl set_model set_cache]).

(** The breaker, the failure counter and the log of requests are as before. *)
Definition quiet (s s' : LLMProcessor * World) : Prop :=
  remoteDisabled (fst s') = remoteDisabled (fst s) /\
  failureCount (fst s') = failureCount (fst s) /\
  maxCacheSize (fst s') = maxCacheSize (fst s) /\
  sent (snd s') = sent (snd s) /\
  clock (snd s') = clock (snd s) /\
  net (snd s') = net (snd s).

#[local] Instance quiet_refl : Reflexive quiet.
Proof. intros s. unfold quiet. tauto. Qed.

#[local] Instance quiet_trans : Transitive quiet.
Proof. intros a b c. unfold quiet. intuition congruence. Qed.

Ltac quiet_step :=
  first [ stable_step | apply stable_modify; intros; unfold quiet; cbn; tauto ].

Section Breaker.
Context `{Host}.

Lemma storage_set_quiet v : stable quiet (storage_set (O := LLMProcessor) v).
Proof. intros s. unfold quiet, storage_set. cbn. tauto. Qed.

Lemma updateConfig_quiet k u m : stable quiet (updateConfig k u m).
Proof. unfold updateConfig. repeat quiet_step. apply storage_set_quiet. Qed.

Lemma initialize_quiet : stable quiet initialize.
Proof.
  unfold initialize.
  apply stable_try_catch; [exact _| |intros; repeat quiet_step].
  apply stable_bind; [exact _|intros s; reflexivity|intros w].
  apply stable_bind; [exact _| |].
  { destruct (CONFIG w); repeat quiet_step. }
  intros hard. repeat quiet_step.
Qed.

Lemma storeInCache_quiet key value : stable quiet (storeInCache key value).
Proof. unfold storeInCache. repeat quiet_step. Qed.

Lemma storeInCache_succeeds key value : succeeds (storeInCache key value).
Proof. unfold storeInCache. repeat succeeds_step. Qed.

Lemma updateConfig_succeeds k u m : succeeds (updateConfig k u m).
Proof.
  unfold updateConfig. repeat succeeds_step.
Qed.

Lemma initialize_succeeds : succeeds initialize.
Proof. unfold initialize. apply succeeds_try_catch. intros e. apply succeeds_ret. Qed.

Lemma makeLLMCall_disabled p w prompt t :
  remoteDisabled p = true ->
  makeLLMCall prompt t (p, w) = (Ok (fallbackProcessing t prompt), (p, w)).
Proof.
  intros Hd. unfold makeLLMCall. msimpl.
  rewrite Hd, orb_true_r. reflexivity.
Qed.

Lemma makeLLMCall_no_key p w prompt t :
  JS.truthy (apiKey p) = false ->
  makeLLMCall prompt t (p, w) = (Ok (fallbackProcessing t prompt), (p, w)).
Proof.
  intros Hd. unfold makeLLMCall. msimpl.
  rewrite Hd. reflexivity.
Qed.

Lemma rejects_not_ok resp :
  (status resp =? 400) || (status resp =? 401) = true -> ok resp = false.
Proof.
  unfold ok. intros Hs.
  destruct (orb_prop _ _ Hs) as [E|E]; apply Z.eqb_eq in E; rewrite E; reflexivity.
Qed.

(** A remote attempt that fails: the fallback answers, one request was
    sent, and the gateway is left disabled and without key. *)
Lemma makeLLMCall_failure p w prompt t :
  JS.truthy (apiKey p) = true -> remoteDisabled p = false ->
  (reply_rejects_client (net w (length (sent w))).2 = true \/
   (reply_fails (net w (length (sent w))).2 = true /\ 0 <= failureCount p)) ->
  exists p1,
    makeLLMCall prompt t (p, w)
    = (Ok (fallbackProcessing t prompt),
       (p1, advance w (net w (length (sent w))).1 (completion_request p prompt t)))
    /\ remoteDisabled p1 = true /\ apiKey p1 = VNull
    /\ failureCount p1 = failureCount p + 1.
Proof.
  intros Hk Hd Hr.
  unfold makeLLMCall. msimpl. rewrite Hk, Hd. unfold fetch. msimpl.
  destruct (net w (length (sent w))) as [d reply]. msimpl. cbn [fst snd] in Hr.
  destruct reply as [msg|resp]; msimpl.
  - destruct Hr as [Hr|[_ Hf]]; [discriminate|].
    assert ((1 <=? failureCount p + 1) = true) as -> by (apply Z.leb_le; lia).
    msimpl. eexists. split; [reflexivity|]. cbn. auto.
  - cbn [reply_rejects_client reply_fails] in Hr.
    destruct (ok resp) eqn:Hok; msimpl.
    + destruct Hr as [Hr|[Hr Hf]]; [rewrite (rejects_not_ok _ Hr) in Hok; discriminate|].
      cbn [negb orb] in Hr. destruct (body resp); [discriminate|]. msimpl.
      assert ((1 <=? failureCount p + 1) = true) as -> by (apply Z.leb_le; lia).
      msimpl. eexists. split; [reflexivity|]. cbn. auto.
    + destruct ((status resp =? 400) || (status resp =? 401)) eqn:Hs; msimpl.
      * destruct (1 <=? failureCount p + 1); msimpl; eexists; (split; [reflexivity|]); cbn; auto.
      * destruct Hr as [Hr|[_ Hf]]; [discriminate|].
        assert ((1 <=? failureCount p + 1) = true) as -> by (apply Z.leb_le; lia).
        msimpl. eexists. split; [reflexivity|]. cbn. auto.
Qed.

(** A computation that is quiet and never raises, run from a disabled state. *)
Lemma quiet_run {A} (m : M (LLMProcessor * World) A) p w :
  stable quiet m -> succeeds m -> remoteDisabled p = true ->
  exists a p' w', m (p, w) = (Ok a, (p', w')) /\ remoteDisabled p' = true /\ sent w' = sent w.
Proof.
  intros Hq Hs Hd. specialize (Hq (p, w)). destruct (Hs (p, w)) as [a Ha].
  destruct (m (p, w)) as [r [p' w']]. cbn [fst snd] in *. subst r.
  exists a, p', w'. destruct Hq as (Hq1 & _ & _ & Hq2 & _). cbn [fst snd] in *.
  split; [reflexivity|]. split; congruence.
Qed.

Lemma step_disabled op p w :
  remoteDisabled p = true ->
  exists out p' w',
    step op (p, w) = (Ok out, (p', w')) /\ remoteDisabled p' = true /\ sent w' = sent w /\
    forall prompt t, op = Call prompt t -> out = fallbackProcessing t prompt.
Proof.
  intros Hd. destruct op as [prompt t|k u m| |text]; cbn [step].
  - rewrite (makeLLMCall_disabled _ _ _ _ Hd). exists (fallbackProcessing t prompt), p, w.
    repeat split; auto. intros ? ? [= -> ->]. reflexivity.
  - destruct (quiet_run (updateConfig k u m) p w (updateConfig_quiet _ _ _)
                (updateConfig_succeeds _ _ _) Hd) as (a & p' & w' & E & Hd' & Hs).
    unfold bind. rewrite E. exists VUndef, p', w'. repeat split; auto. discriminate.
  - destruct (quiet_run initialize p w initialize_quiet initialize_succeeds Hd)
      as (a & p' & w' & E & Hd' & Hs).
    unfold bind. rewrite E. exists VUndef, p', w'. repeat split; auto. discriminate.
  - unfold processTaskInput. unfold bind at 1. unfold this at 1. cbn [fst snd].
    destruct (JSMap.get _ (cache p)) as [cached|].
    + exists cached, p, w. repeat split; auto. discriminate.
    + unfold bind at 1. rewrite (makeLLMCall_disabled _ _ _ _ Hd).
      set (result := fallbackProcessing _ _).
      destruct (quiet_run (when (JS.truthy result) (storeInCache ("task_input_" +:+ text) result))
                  p w) as (a & p' & w' & E & Hd' & Hs); auto.
      { apply stable_when; [exact _|apply storeInCache_quiet]. }
      { apply succeeds_when, storeInCache_succeeds. }
      unfold bind. rewrite E. exists result, p', w'. repeat split; auto. discriminate.
Qed.

Lemma run_disabled ops : forall p w,
  remoteDisabled p = true ->
  exists outs p' w',
    run ops (p, w) = (Ok outs, (p', w')) /\ remoteDisabled p' = true /\ sent w' = sent w /\
    length outs = length ops /\
    forall i prompt t, ops !! i = Some (Call prompt t) ->
                       outs !! i = Some (fallbackProcessing t prompt).
Proof.
  induction ops as [|op ops IH]; intros p w Hd.
  - exists [], p, w. repeat split; auto. intros i ? ? Hi. destruct i; discriminate.
  - destruct (step_disabled op p w Hd) as (out & p1 & w1 & E1 & Hd1 & Hs1 & Hout).
    destruct (IH p1 w1 Hd1) as (outs & p2 & w2 & E2 & Hd2 & Hs2 & Hl & Houts).
    exists (out :: outs), p2, w2.
    unfold run in *. cbn [mapM]. unfold bind at 1. rewrite E1.
    unfold bind at 1. rewrite E2. unfold ret.
    repeat split; auto; [congruence|cbn; congruence|].
    intros [|i] prompt t Hi; cbn in *.
    + injection Hi as ->. f_equal. eauto.
    + eauto.
Qed.

(** C1. Once a remote attempt of [makeLLMCall] has failed -- an HTTP 400
    or 401, or any failure at all when the failure counter is not
    negative (it starts at 0 and only grows) -- the gateway is disabled
    for good: whatever the caller does next (calls, [updateConfig] with
    any key, [initialize], [processTaskInput]), the flag [remoteDisabled]
    stays [true], no request is sent any more, and every [makeLLMCall]
    returns the result of the fallback routine. *)
Theorem circuit_breaker_is_permanent (p : LLMProcessor) (w : World)
    (prompt : string) (t : PromptType) :
  JS.truthy (apiKey p) = true ->
  remoteDisabled p = false ->
  (reply_rejects_client (net w (length (sent w))).2 = true \/
   (reply_fails (net w (length (sent w))).2 = true /\ 0 <= failureCount p)) ->
  exists p1 w1,
    makeLLMCall prompt t (p, w) = (Ok (fallbackProcessing t prompt), (p1, w1)) /\
    remoteDisabled p1 = true /\
    forall ops, exists outs p2 w2,
      run ops (p1, w1) = (Ok outs, (p2, w2)) /\
      remoteDisabled p2 = true /\
      sent w2 = sent w1 /\
      length outs = length ops /\
      forall i prompt' t', ops !! i = Some (Call prompt' t') ->
                           outs !! i = Some (fallbackProcessing t' prompt').
Proof.
  intros Hk Hd Hr.
  destruct (makeLLMCall_failure p w prompt t Hk Hd Hr) as (p1 & E & Hd1 & _).
  eexists p1, _. split; [exact E|]. split; [exact Hd1|].
  intros ops. apply run_disabled. exact Hd1.
Qed.

End Breaker.

(** The gateway of the examples: a fresh one that was given a key. *)
Definition keyed_gateway : LLMProcessor := set_apiKey (VStr "sk-test") constructor.

Lemma circuit_breaker_is_permanent_witness :
  exists p1 w1,
    makeLLMCall (H := Example.host) "ping" condition_analysis (keyed_gateway, Example.offline)
    = (Ok (fallbackProcessing (H := Example.host) condition_analysis "ping"), (p1, w1)) /\
    remoteDisabled p1 = true /\
    forall ops, exists outs p2 w2,
      run (H := Example.host) ops (p1, w1) = (Ok outs, (p2, w2)) /\
      remoteDisabled p2 = true /\
      sent w2 = sent w1 /\
      length outs = length ops /\
      forall i prompt' t', ops !! i = Some (Call prompt' t') ->
                           outs !! i = Some (fallbackProcessing (H := Example.host) t' prompt').
Proof.
  apply (circuit_breaker_is_permanent (H := Example.host) keyed_gateway Example.offline
           "ping" condition_analysis).
  - reflexivity.
  - reflexivity.
  - right. split; [reflexivity|]. cbn. lia.
Defined.

(* ===================================================================== *)
(** ** [updateConfig] and the breaker *)
(* ===================================================================== *)

Section Reconfigure.
Context `{Host}.

(** A call from an enabled gateway with a key sends exactly one request. *)
Lemma makeLLMCall_enabled_sends p w prompt t :
  JS.truthy (apiKey p) = true -> remoteDisabled p = false ->
  sent (makeLLMCall prompt t (p, w)).2.2 = (sent w ++ [completion_request p prompt t])%list.
Proof.
  intros Hk Hd.
  unfold makeLLMCall. msimpl. rewrite Hk, Hd. unfold fetch. msimpl.
  destruct (net w (length (sent w))) as [d reply]. msimpl.
  destruct reply as [msg|resp]; msimpl.
  - destruct (1 <=? failureCount p + 1); msimpl; reflexivity.
  - destruct (ok resp); msimpl.
    + destruct (body resp); msimpl; [reflexivity|].
      destruct (1 <=? failureCount p + 1); msimpl; reflexivity.
    + destruct ((status resp =? 400) || (status resp =? 401)); msimpl;
      destruct (1 <=? failureCount p + 1); msimpl; reflexivity.
Qed.

(** C2, as the code has it. [updateConfig] stores the key it is given,
    and the base URL and the model when they are truthy (otherwise the
    gateway keeps its own), and saves the three settings of the gateway
    under [agentic_settings]; it leaves [remoteDisabled], [failureCount]
    and the cache as they were and sends nothing.  So a gateway that was
    disabled stays disabled: the next [makeLLMCall] still answers by the
    fallback routine without a request.  Only a gateway that was not
    disabled attempts the remote endpoint (one request) with the new,
    non-empty key. *)
Theorem updateConfig_keeps_breaker (p : LLMProcessor) (w : World) (k u m : JSValue) :
  exists p' w',
    updateConfig k u m (p, w) = (Ok tt, (p', w')) /\
    apiKey p' = k /\
    baseUrl p' = (if JS.truthy u then u else baseUrl p) /\
    model p' = (if JS.truthy m then m else model p) /\
    storage w' = VObj [("apiKey", k); ("llmBaseUrl", baseUrl p'); ("llmModel", model p')] /\
    remoteDisabled p' = remoteDisabled p /\
    failureCount p' = failureCount p /\
    cache p' = cache p /\ maxCacheSize p' = maxCacheSize p /\
    sent w' = sent w /\ clock w' = clock w /\ net w' = net w /\ CONFIG w' = CONFIG w /\
    (forall prompt t,
        remoteDisabled p = true \/ JS.truthy k = false ->
        makeLLMCall prompt t (p', w') = (Ok (fallbackProcessing t prompt), (p', w'))) /\
    (forall prompt t,
        remoteDisabled p = false -> JS.truthy k = true ->
        sent (makeLLMCall prompt t (p', w')).2.2
        = (sent w ++ [completion_request p' prompt t])%list).
Proof.
  destruct (updateConfig k u m (p, w)) as [r [p' w']] eqn:E.
  assert (r = Ok tt /\ apiKey p' = k /\
          baseUrl p' = (if JS.truthy u then u else baseUrl p) /\
          model p' = (if JS.truthy m then m else model p) /\
          storage w' = VObj [("apiKey", k); ("llmBaseUrl", baseUrl p');
                             ("llmModel", model p')] /\
          remoteDisabled p' = remoteDisabled p /\
          failureCount p' = failureCount p /\
          cache p' = cache p /\ maxCacheSize p' = maxCacheSize p /\
          sent w' = sent w /\ clock w' = clock w /\ net w' = net w /\ CONFIG w' = CONFIG w)
    as (-> & Hk & Hu & Hm & Hst & Hd & Hf & Hc & Hmax & Hs & Hcl & Hn & Hcfg).
  { revert E. unfold updateConfig, storage_set. msimpl.
    destruct (JS.truthy u), (JS.truthy m); msimpl; intros [= <- <- <-]; cbn; auto 20. }
  exists p', w'. repeat split; auto.
  - intros prompt t [Hd'|Hk'].
    + apply makeLLMCall_disabled. congruence.
    + apply makeLLMCall_no_key. congruence.
  - intros prompt t Hd' Hk'. rewrite <- Hs.
    apply makeLLMCall_enabled_sends; congruence.
Qed.

End Reconfigure.

(** C2 as stated fails: after one failed call, [updateConfig] with a
    fresh key leaves the flag set and the counter at 1, and the next call
    sends no request. *)
Lemma updateConfig_does_not_reenable :
  let s1 := (makeLLMCall (H := Example.host) "ping" condition_analysis
               (keyed_gateway, Example.offline)).2 in
  let s2 := (updateConfig (VStr "sk-fresh") VNull VNull s1).2 in
  let r3 := makeLLMCall (H := Example.host) "ping again" condition_analysis s2 in
  remoteDisabled s1.1 = true /\ failureCount s1.1 = 1 /\
  apiKey s2.1 = VStr "sk-fresh" /\
  remoteDisabled s2.1 = true /\ failureCount s2.1 = 1 /\
  r3.1 = Ok (fallbackProcessing (H := Example.host) condition_analysis "ping again") /\
  sent r3.2.2 = sent s2.2 /\ length (sent r3.2.2) = 1%nat.
Proof. vm_compute. repeat split; reflexivity. Qed.

(* ===================================================================== *)
(** ** Parsing the reply of the model *)
(* ===================================================================== *)

(** A chat completion whose only choice carries [content]. *)
Definition completion (content : JSValue) : JSValue :=
  VObj [("choices",
         VArr [VObj [("message", VObj [("role", VStr "assistant"); ("content", content)])]])].

(** A world whose first answer is a completion that is plain text. *)
Definition chatty : World :=
  Example.scripted [Example.json_reply (completion (VStr "plain text"))].

Section Parsing.
Context `{Host}.

(** A 2xx answer with a JSON body: the call returns what
    [parseLLMResponse] makes of the body and leaves the gateway as it was. *)
Lemma makeLLMCall_success p w prompt t resp v :
  JS.truthy (apiKey p) = true -> remoteDisabled p = false ->
  (net w (length (sent w))).2 = Respond resp -> ok resp = true -> body resp = Some v ->
  makeLLMCall prompt t (p, w)
  = (Ok (parseLLMResponse (clock w + Z.of_N (net w (length (sent w))).1) v),
     (p, advance w (net w (length (sent w))).1 (completion_request p prompt t))).
Proof.
  intros Hk Hd Hr Hok Hb.
  unfold makeLLMCall. msimpl. rewrite Hk, Hd. unfold fetch. msimpl.
  destruct (net w (length (sent w))) as [d reply]. cbn [fst snd] in *. subst reply.
  msimpl. rewrite Hok. msimpl. rewrite Hb. msimpl. reflexivity.
Qed.

(** C6, as the code has it. For a reply the endpoint answered with a
    2xx status and a JSON body, [makeLLMCall] returns what
    [parseLLMResponse] makes of it and the gateway stays as it was (not
    disabled, counter unchanged).  [parseLLMResponse] first tries
    [JSON.parse] on the message content and returns the decoded value;
    when that fails it returns [{text: content, parsed: true,
    timestamp}] -- the flag is [true], not [false].  Only when reading
    [choices[0].message.content] itself raises (the reply or its
    [choices] is [null] or absent, there is no first choice, or the
    choice has no message) does it return [{text: 'Unable to process LLM
    response', parsed: false}], without a time stamp.  A message that
    merely lacks [content] is read as [undefined] and goes the first
    two ways.  It never raises. *)
Theorem parse_failure_is_not_fatal (p : LLMProcessor) (w : World) (prompt : string)
    (t : PromptType) (resp : Response) (v : JSValue) :
  JS.truthy (apiKey p) = true ->
  remoteDisabled p = false ->
  (net w (length (sent w))).2 = Respond resp ->
  ok resp = true ->
  body resp = Some v ->
  let now := clock w + Z.of_N (net w (length (sent w))).1 in
  makeLLMCall prompt t (p, w)
  = (Ok (parseLLMResponse now v),
     (p, advance w (net w (length (sent w))).1 (completion_request p prompt t))) /\
  (forall content value,
      reply_content v = Ok content -> JSON_parse (JS.ToString content) = Some value ->
      parseLLMResponse now v = value) /\
  (forall content,
      reply_content v = Ok content -> JSON_parse (JS.ToString content) = None ->
      parseLLMResponse now v
      = VObj [("text", content); ("parsed", VBool true);
              ("timestamp", VNum (JS.num_of_Z now))]) /\
  (forall e,
      reply_content v = Throw e ->
      parseLLMResponse now v
      = VObj [("text", VStr "Unable to process LLM response"); ("parsed", VBool false)]) /\
  (forall reply choice more message,
      v = VObj reply ->
      JS.lookup_prop "choices" reply = VArr (VObj choice :: more) ->
      JS.lookup_prop "message" choice = VObj message ->
      reply_content v = Ok (JS.lookup_prop "content" message)) /\
  ((v = VNull \/ v = VUndef \/
    (exists reply, v = VObj reply /\
       (JS.lookup_prop "choices" reply = VUndef \/ JS.lookup_prop "choices" reply = VNull \/
        JS.lookup_prop "choices" reply = VArr [] \/
        exists choice more,
          JS.lookup_prop "choices" reply = VArr (VObj choice :: more) /\
          (JS.lookup_prop "message" choice = VUndef \/
           JS.lookup_prop "message" choice = VNull)))) ->
   exists e, reply_content v = Throw e).
Proof.
  intros Hk Hd Hr Hok Hb now.
  split; [apply (makeLLMCall_success _ _ _ _ resp); assumption|].
  unfold parseLLMResponse.
  split; [|split; [|split; [|split]]].
  - intros content value -> ->. reflexivity.
  - intros content -> ->. reflexivity.
  - intros e ->. reflexivity.
  - intros reply choice more message -> Hc Hm. unfold reply_content.
    cbn [JS.get]. rewrite Hc. cbn [JS.get0 List.nth JS.get]. rewrite Hm. reflexivity.
  - intros [Hv|[Hv|(reply & Hv & Hc)]]; subst v;
      [eexists; reflexivity|eexists; reflexivity|].
    unfold reply_content. cbn [JS.get].
    destruct Hc as [Hc|[Hc|[Hc|(choice & more & Hc & Hm)]]]; rewrite Hc;
      try (eexists; reflexivity).
    cbn [JS.get0 List.nth JS.get]. destruct Hm as [Hm|Hm]; rewrite Hm; eexists; reflexivity.
Qed.

End Parsing.

Lemma parse_failure_is_not_fatal_witness :
  let now := Example.new_year in
  makeLLMCall (H := Example.host) "ping" condition_analysis (keyed_gateway, chatty)
  = (Ok (parseLLMResponse (H := Example.host) now (completion (VStr "plain text"))),
     (keyed_gateway,
      advance chatty 0
        (completion_request (H := Example.host) keyed_gateway "ping" condition_analysis))) /\
  parseLLMResponse (H := Example.host) now (completion (VStr "plain text"))
  = VObj [("text", VStr "plain text"); ("parsed", VBool true);
          ("timestamp", VNum (JS.num_of_Z now))].
Proof.
  pose proof (parse_failure_is_not_fatal (H := Example.host) keyed_gateway chatty "ping"
                condition_analysis
                {| status := 200; statusText := "OK";
                   body := Some (completion (VStr "plain text")) |}
                (completion (VStr "plain text"))
                eq_refl eq_refl eq_refl eq_refl eq_refl) as (Hcall & _ & Hraw & _).
  split; [exact Hcall|].
  apply (Hraw (VStr "plain text")); reflexivity.
Defined.

(** A message without [content], and one whose content is [null]. *)
Example reply_without_content :
  parseLLMResponse (H := Example.host) Example.new_year
    (VObj [("choices", VArr [VObj [("message", VObj [("role", VStr "assistant")])]])])
  = VObj [("text", VUndef); ("parsed", VBool true);
          ("timestamp", VNum (JS.num_of_Z Example.new_year))] /\
  parseLLMResponse (H := Example.host) Example.new_year (completion VNull) = VNull /\
  parseLLMResponse (H := Example.host) Example.new_year (VObj [("choices", VArr [])])
  = VObj [("text", VStr "Unable to process LLM response"); ("parsed", VBool false)].
Proof. repeat split; reflexivity. Qed.

(** C6 as stated fails: the wrapper of a text that is not JSON carries
    [parsed: true]. *)
Lemma raw_text_is_flagged_parsed :
  parseLLMResponse (H := Example.host) Example.new_year (completion (VStr "plain text"))
  = VObj [("text", VStr "plain text"); ("parsed", VBool true);
          ("timestamp", VNum (JS.num_of_Z Example.new_year))] /\
  parseLLMResponse (H := Example.host) Example.new_year (completion (VStr "plain text"))
  <> VObj [("text", VStr "plain text"); ("parsed", VBool false);
           ("timestamp", VNum (JS.num_of_Z Example.new_year))].
Proof. split; [reflexivity|]. vm_compute. discriminate. Qed.

(* ===================================================================== *)
(** ** The confidence score *)
(* ===================================================================== *)

(** The sums the code forms, as doubles: 0.5 (0.7 with a positive price)
    plus 0.1 for each of the [n] other conditions met. *)
Definition score_table (p : bool) (n : nat) : float :=
  match p, n with
  | false, O => 0.5
  | false, 1%nat => 0.6
  | false, 2%nat => 0.7
  | false, _ => 0.7999999999999999
  | true, O => 0.7
  | true, 1%nat => 0.7999999999999999
  | true, 2%nat => 0.8999999999999999
  | true, _ => 0.9999999999999999
  end%float.

Definition bonus (b : bool) : nat := if b then 1%nat else 0%nat.

(** A quote with a price, a volume, a source and a time stamp of now. *)
Definition full_quote : JSValue :=
  VObj [("price", VNum 100); ("volume", VNum 5000); ("source", VStr "x");
        ("timestamp", VNum (JS.num_of_Z Example.new_year))].

Section Confidence.
Context `{Host}.

(** The four conditions, read on the data object. *)
Definition price_positive (data : JSValue) : bool :=
  JS.gt (News.get_opt data "price") (VNum 0).

Definition volume_large (data : JSValue) : bool :=
  JS.gt (News.get_opt data "volume") (VNum 1000).

Definition source_present (data : JSValue) : bool :=
  JS.truthy (News.get_opt data "source").

Definition timestamp_fresh (now : Z) (data : JSValue) : bool :=
  let ts := News.get_opt data "timestamp" in
  JS.truthy ts && match JS.Date_getTime ts with Some t => now - t <? 300000 | None => false end.

Lemma get_truthy data k : JS.truthy data = true -> JS.get data k = Ok (News.get_opt data k).
Proof. destruct data; try discriminate; reflexivity. Qed.

(** C7, as the code has it. [calculateConfidenceScore] never raises and
    its value is a function of the data and of the time: 0.1 for falsy
    data; otherwise the sum, in double precision, of 0.5, of 0.2 when
    the price is positive, and of 0.1 for each of: volume above 1000, a
    truthy source, a truthy time stamp less than five minutes older than
    now.  With all four the sum is 0.9999999999999999, so the score is
    always below 1 and the clamp never applies. *)
Theorem confidence_score_values (now : Z) (data : JSValue) :
  exists s,
    calculateConfidenceScore now data = Ok s /\
    s = (if JS.truthy data
         then score_table (price_positive data)
                (bonus (volume_large data) + bonus (source_present data)
                 + bonus (timestamp_fresh now data))
         else 0.1%float) /\
    PrimFloat.ltb s 1 = true.
Proof.
  unfold calculateConfidenceScore.
  destruct (JS.truthy data) eqn:Ht; cbn [negb].
  2:{ eexists. repeat split. }
  rewrite !(get_truthy _ _ Ht).
  unfold price_positive, volume_large, source_present, timestamp_fresh.
  cbv zeta.
  destruct (JS.gt (News.get_opt data "price") (VNum 0)),
           (JS.gt (News.get_opt data "volume") (VNum 1000)),
           (JS.truthy (News.get_opt data "source")),
           (JS.truthy (News.get_opt data "timestamp") && _);
  eexists; (split; [reflexivity|]); split; vm_compute; reflexivity.
Qed.

End Confidence.

(** C7 as stated fails: the quote with price, volume, source and a fresh
    time stamp scores 0.9999999999999999, not 1. *)
Lemma full_quote_scores_below_one :
  calculateConfidenceScore (H := Example.host) Example.new_year full_quote
  = Ok 0.9999999999999999%float /\
  calculateConfidenceScore (H := Example.host) Example.new_year full_quote <> Ok 1%float.
Proof.
  split; [vm_compute; reflexivity|].
  intros E.
  apply (f_equal (fun o => match o with Ok x => PrimFloat.eqb x 1 | Throw _ => true end)) in E.
  vm_compute in E. discriminate E.
Qed.

Example price_only_scores :
  calculateConfidenceScore (H := Example.host) Example.new_year (VObj [("price", VNum 100)])
  = Ok 0.7%float.
Proof. vm_compute. reflexivity. Qed.

Example absent_data_scores :
  calculateConfidenceScore (H := Example.host) Example.new_year VUndef = Ok 0.1%float.
Proof. vm_compute. reflexivity. Qed.

(* ===================================================================== *)
(** ** The quote chain of the stock client *)
(* ===================================================================== *)

Module StockChain.
Import Stock.

Section Pure.
Context {O : Type}.

Lemma stable_json (R : O * World -> O * World -> Prop) `{!Reflexive R} r : stable R (json r).
Proof. unfold json. destruct (body r); [apply stable_ret|apply stable_throw]; exact _. Qed.

(** The state after a method that sends one request and then only
    computes: the object is untouched and the world moved by one request. *)
Lemma one_request {A} (req : Request) (k : Response -> M (O * World) A)
    (h : Exn -> M (O * World) A) (s : O * World) :
  (forall r, stable eq (k r)) -> (forall e, stable eq (h e)) ->
  snd (try_catch (bind (fetch req) k) h s)
  = (fst s, advance (snd s) (fst (net (snd s) (length (sent (snd s))))) req).
Proof.
  intros Hk Hh. unfold try_catch, bind, fetch.
  destruct (net (snd s) (length (sent (snd s)))) as [d reply]. cbn [fst snd].
  destruct reply as [msg|r].
  - symmetry. apply (Hh _ (fst s, advance (snd s) d req)).
  - pose proof (Hk r (fst s, advance (snd s) d req)) as Hkr.
    destruct (k r (s.1, advance s.2 d req)) as [[a|e] s']; cbn [fst snd] in *.
    + auto.
    + rewrite Hkr. symmetry. apply (Hh e s').
Qed.
End Pure.

Ltac pure_step :=
  first [ stable_step | apply stable_json ].

Section Chain.
Context `{Host}.

Definition AlphaVantage_quote_url (api : Provider) (sym : string) : string :=
  baseUrl api +:+ "?function=GLOBAL_QUOTE&symbol=" +:+ sym
  +:+ "&apikey=" +:+ JS.ToString (apiKey api).

Definition YahooFinance_quote_url (api : Provider) (sym : string) : string :=
  baseUrl api +:+ "/" +:+ sym.

Lemma iso_now_pure {O} : stable eq (@iso_now _ O).
Proof. unfold iso_now. repeat pure_step. Qed.

Lemma AlphaVantage_one_request {O} api sym (s : O * World) :
  snd (AlphaVantage_getStockData api sym s)
  = (fst s, advance (snd s) (fst (net (snd s) (length (sent (snd s)))))
                    (GET (AlphaVantage_quote_url api sym))).
Proof.
  unfold AlphaVantage_getStockData. apply one_request.
  - intros r. repeat first [pure_step | apply iso_now_pure].
  - intros e. repeat pure_step.
Qed.

Lemma YahooFinance_one_request {O} api sym (s : O * World) :
  snd (YahooFinance_getStockData api sym s)
  = (fst s, advance (snd s) (fst (net (snd s) (length (sent (snd s)))))
                    (GET (YahooFinance_quote_url api sym))).
Proof.
  unfold YahooFinance_getStockData. apply one_request.
  - intros r. repeat first [pure_step | apply iso_now_pure].
  - intros e. repeat pure_step.
Qed.

Lemma cached_quote_stale c key now :
  (JSMap.get key (cache c) = None \/ JSMap.get key (lastFetchTime c) = None \/
   exists t, JSMap.get key (lastFetchTime c) = Some t /\ CACHE_DURATION c <= now - t) ->
  cached_quote c key now = None.
Proof.
  unfold cached_quote. intros [->|[Hn|(t & Ht & Hage)]]; [reflexivity| |].
  - rewrite Hn. destruct (JSMap.get key (cache c)); reflexivity.
  - rewrite Ht. destruct (JSMap.get key (cache c)); [|reflexivity].
    destruct (Z.ltb_spec (now - t) (CACHE_DURATION c)); [lia|reflexivity].
Qed.

Lemma getStockPrice_cached sym c w q :
  cached_quote c ("stock_" +:+ sym) (clock w) = Some q ->
  getStockPrice sym (c, w) = (Ok q, (c, w)).
Proof.
  intros Hc. unfold getStockPrice. mstep_with ltac:(cbn [fst snd]).
  rewrite Hc. reflexivity.
Qed.

(** The calls [getStockPrice] makes for a symbol whose cache entry is
    absent or at least 60 seconds old: one to the primary provider
    (Alpha Vantage) and, when that fails, one to the secondary provider
    (Yahoo Finance); the quote of the first that answers is returned and
    stored under [stock_<symbol>] with the time of the call, and when
    both fail an error naming the symbol is raised and nothing is
    stored. *)
Lemma getStockPrice_fallback_chain (sym : string) (c : StockDataClient) (w : World) :
  let key := "stock_" +:+ sym in
  (JSMap.get key (cache c) = None \/ JSMap.get key (lastFetchTime c) = None \/
   exists t, JSMap.get key (lastFetchTime c) = Some t /\ CACHE_DURATION c <= clock w - t) ->
  let av := AlphaVantage_getStockData (alphaVantage (clients c)) sym (c, w) in
  let yh := YahooFinance_getStockData (yahooFinance (clients c)) sym (snd av) in
  getStockPrice sym (c, w)
  = match fst av with
    | Ok q => (Ok q, (remember key q (clock w) c, snd (snd av)))
    | Throw _ =>
        match fst yh with
        | Ok q => (Ok q, (remember key q (clock w) c, snd (snd yh)))
        | Throw _ => (Throw (Error ("Unable to fetch data for " +:+ sym)), (c, snd (snd yh)))
        end
    end /\
  sent (snd (snd av))
  = (sent w ++ [GET (AlphaVantage_quote_url (alphaVantage (clients c)) sym)])%list /\
  sent (snd (snd yh))
  = (sent w ++ [GET (AlphaVantage_quote_url (alphaVantage (clients c)) sym);
               GET (YahooFinance_quote_url (yahooFinance (clients c)) sym)])%list.
Proof.
  intros key Hstale. cbv zeta.
  rewrite !AlphaVantage_one_request. cbn [fst snd].
  rewrite !YahooFinance_one_request. cbn [fst snd].
  split; [|split].
  - unfold getStockPrice. mstep_with ltac:(cbn [fst snd]).
    fold key. rewrite (cached_quote_stale _ _ _ Hstale).
    mstep_with ltac:(cbn [fst snd]).
    rewrite (surjective_pairing (AlphaVantage_getStockData _ sym (c, w))).
    rewrite AlphaVantage_one_request. cbn [fst snd].
    destruct (fst (AlphaVantage_getStockData _ sym (c, w))) as [q|e]; [reflexivity|].
    rewrite (surjective_pairing (YahooFinance_getStockData _ sym _)).
    rewrite YahooFinance_one_request. cbn [fst snd].
    destruct (fst (YahooFinance_getStockData _ sym _)) as [q|e2]; reflexivity.
  - reflexivity.
  - cbn. rewrite <- app_assoc. reflexivity.
Qed.
End Chain.

(** *** Examples *)
Definition stock_client : StockDataClient :=
  {| clients := {| alphaVantage := {| baseUrl := "https://www.alphavantage.co/query";
                                      apiKey := VStr "demo" |};
                   yahooFinance := new_YahooFinanceAPI;
                   finhub := {| baseUrl := "https://finnhub.io/api/v1"; apiKey := VStr "demo" |} |};
     cache := JSMap.empty;
     lastFetchTime := JSMap.empty;
     CACHE_DURATION := 60000 |}.

Example stock_client_is_fresh : Stock.constructor VUndef = Ok stock_client.
Proof. reflexivity. Qed.

Definition server_error : Reply := Example.status_reply 500 "Internal Server Error".

Definition yahoo_body (sym : string) : JSValue :=
  VObj [("chart", VObj [("result", VArr [VObj [("meta", VObj
    [("symbol", VStr sym); ("regularMarketPrice", VNum 150); ("regularMarketOpen", VNum 149);
     ("regularMarketDayHigh", VNum 151); ("regularMarketDayLow", VNum 148);
     ("regularMarketVolume", VNum 1000000); ("previousClose", VNum 148)])]])])].

Definition finnhub_body : JSValue :=
  VObj [("c", VNum 150); ("o", VNum 149); ("h", VNum 151); ("l", VNum 148);
        ("d", VNum 2); ("dp", VNum 1.35)].

Section Spec.
Context `{Host}.
(** The chain as the specification words it, with the third provider
    tried before giving up. *)
Definition getQuote_three_providers (sym : string) : M (StockDataClient * World) Quote :=
  let cacheKey := "stock_" +:+ sym in
  let* now := Date_now in
  let* self := this in
  match cached_quote self cacheKey now with
  | Some cachedData => ret cachedData
  | None =>
      try_catch
        (let* data := AlphaVantage_getStockData (alphaVantage (clients self)) sym in
         modify (remember cacheKey data now) ;;
         ret data)
        (fun error =>
           try_catch
             (let* data := YahooFinance_getStockData (yahooFinance (clients self)) sym in
              modify (remember cacheKey data now) ;;
              ret data)
             (fun error2 =>
                try_catch
                  (let* data := Finnhub_getStockData (finhub (clients self)) sym in
                   modify (remember cacheKey data now) ;;
                   ret data)
                  (fun error3 => throw (Error ("Unable to fetch data for " +:+ sym)))))
  end.
End Spec.

Example getStockPrice_falls_back_once :
  let w := Example.scripted [server_error; Example.json_reply (yahoo_body "AAPL")] in
  exists q w',
    getStockPrice (H := Example.host) "AAPL" (stock_client, w)
    = (Ok q, (remember "stock_AAPL" q Example.new_year stock_client, w')) /\
    source q = VStr "yahoo_finance" /\
    sent w' = [GET "https://www.alphavantage.co/query?function=GLOBAL_QUOTE&symbol=AAPL&apikey=demo";
               GET "https://query1.finance.yahoo.com/v8/finance/chart/AAPL"].
Proof.
  intros w.
  destruct (getStockPrice_fallback_chain (H := Example.host) "AAPL" stock_client w
              (or_introl eq_refl)) as (E & _ & Hsent).
  eexists _, _. split; [exact E|]. split; [reflexivity|exact Hsent].
Qed.

(** C3. The code breaks the claim.  The client holds three providers
    (the third, Finnhub, is built by the constructor and named as a
    stock source by the README), but [getStockPrice] gives up after the
    second: with the first two providers failing and the third able to
    answer, it raises [Unable to fetch data for AAPL] after two
    requests, where the chain over the three providers returns the
    third provider's quote. *)
Theorem third_provider_is_never_tried :
  let w := Example.scripted [server_error; server_error; Example.json_reply finnhub_body] in
  (getStockPrice (H := Example.host) "AAPL" (stock_client, w)).1
  = Throw (Error "Unable to fetch data for AAPL") /\
  sent (getStockPrice (H := Example.host) "AAPL" (stock_client, w)).2.2
  = [GET "https://www.alphavantage.co/query?function=GLOBAL_QUOTE&symbol=AAPL&apikey=demo";
     GET "https://query1.finance.yahoo.com/v8/finance/chart/AAPL"] /\
  exists q,
    (getQuote_three_providers (H := Example.host) "AAPL" (stock_client, w)).1 = Ok q /\
    source q = VStr "finnhub" /\ symbol q = VStr "AAPL" /\ price q = VNum 150 /\
    (Finnhub_getStockData (H := Example.host) (finhub (clients stock_client)) "AAPL"
       (stock_client, Example.scripted [Example.json_reply finnhub_body])).1 = Ok q.
Proof.
  intros w. split; [vm_compute; reflexivity|]. split; [vm_compute; reflexivity|].
  eexists. split; [vm_compute; reflexivity|].
  split; [reflexivity|]. split; [reflexivity|]. split; [reflexivity|].
  vm_compute. reflexivity.
Qed.


(** *** Batches *)

Section Batch.
Context `{Host}.

(** The property name a result is filed under. *)
Definition entry_key (r : Entry) : string := JS.ToString (entry_symbol r).

(** The last of the results filed under [k]. *)
Fixpoint latest (k : string) (results : list Entry) : option Entry :=
  match results with
  | [] => None
  | r :: rest =>
      match latest k rest with
      | Some r' => Some r'
      | None => if String.eqb (entry_key r) k then Some r else None
      end
  end.

Definition file (data : gmap string Entry) (result : Entry) : gmap string Entry :=
  match result with
  | EError s e =>
      if negb (String.eqb e "")
      then assign s (EError s e) data
      else assign s result data
  | EQuote q => assign (JS.ToString (symbol q)) result data
  end.

Lemma file_assign data r : file data r = assign (entry_key r) r data.
Proof. destruct r as [q|s e]; cbn; [reflexivity|]. destruct (negb _); reflexivity. Qed.

Lemma lookup_assign data key r k :
  assign key r data !! k
  = if String.eqb key "__proto__" then data !! k
    else if String.eqb key k then Some r else data !! k.
Proof.
  unfold assign. destruct (String.eqb key "__proto__"); [reflexivity|].
  destruct (String.eqb_spec key k) as [->|Hne].
  - apply lookup_insert_eq.
  - apply lookup_insert_ne. exact Hne.
Qed.

Lemma lookup_filed results : forall data k,
  fold_left file results data !! k
  = if String.eqb k "__proto__" then data !! k
    else match latest k results with
         | Some r => Some r
         | None => data !! k
         end.
Proof.
  induction results as [|r rest IH]; intros data k; cbn [fold_left latest].
  - destruct (String.eqb k "__proto__"); reflexivity.
  - rewrite IH, file_assign, lookup_assign.
    destruct (String.eqb_spec k "__proto__") as [->|Hk].
    + destruct (String.eqb_spec (entry_key r) "__proto__"); [reflexivity|].
      destruct (String.eqb_spec (entry_key r) "__proto__"); [contradiction|reflexivity].
    + destruct (latest k rest); [reflexivity|].
      destruct (String.eqb_spec (entry_key r) k) as [->|Hne].
      * destruct (String.eqb_spec k "__proto__"); [contradiction|reflexivity].
      * destruct (String.eqb (entry_key r) "__proto__"); reflexivity.
Qed.

Lemma latest_Some k results r :
  latest k results = Some r -> r ∈ results /\ entry_key r = k.
Proof.
  induction results as [|r0 rest IH]; cbn; [discriminate|].
  destruct (latest k rest) as [r'|].
  - intros [= ->]. destruct (IH eq_refl). split; [right|]; assumption.
  - destruct (String.eqb_spec (entry_key r0) k); [|discriminate].
    intros [= ->]. split; [left|assumption].
Qed.

Lemma latest_None k results :
  latest k results = None -> forall r, r ∈ results -> entry_key r <> k.
Proof.
  induction results as [|r0 rest IH]; cbn; intros Hl r Hr.
  - inversion Hr.
  - destruct (latest k rest) as [r'|]; [discriminate|].
    destruct (String.eqb_spec (entry_key r0) k); [discriminate|].
    inversion Hr; subst; [assumption|]. apply IH; auto.
Qed.

(** What a method returns, when it returns. *)
Definition returns {S A} (P : A -> Prop) (m : M S A) : Prop :=
  forall s a, fst (m s) = Ok a -> P a.

Lemma returns_ret {S A} (P : A -> Prop) (a : A) : P a -> returns (S := S) P (ret a).
Proof. intros HP s a' [= <-]. exact HP. Qed.

Lemma returns_throw {S A} (P : A -> Prop) e : returns (S := S) P (throw e).
Proof. intros s a. discriminate. Qed.

Lemma returns_bind {S A B} (P : B -> Prop) (m : M S A) (k : A -> M S B) :
  (forall a, returns P (k a)) -> returns P (bind m k).
Proof.
  intros Hk s b. unfold bind. destruct (m s) as [[a|e] s']; [apply Hk|discriminate].
Qed.

Lemma returns_try_catch {S A} (P : A -> Prop) (m : M S A) (h : Exn -> M S A) :
  returns P m -> (forall e, returns P (h e)) -> returns P (try_catch m h).
Proof.
  intros Hm Hh s a. unfold try_catch. specialize (Hm s).
  destruct (m s) as [[a'|e] s']; [exact (Hm a)|apply Hh].
Qed.

Lemma returns_if {S A} (P : A -> Prop) (b : bool) (m1 m2 : M S A) :
  returns P m1 -> returns P m2 -> returns P (if b then m1 else m2).
Proof. destruct b; auto. Qed.

Lemma AlphaVantage_quote_symbol {O} api sym :
  returns (S := O * World) (fun q => symbol q = VStr sym) (AlphaVantage_getStockData api sym).
Proof.
  unfold AlphaVantage_getStockData.
  apply returns_try_catch; [|intros; apply returns_throw].
  repeat first [ apply returns_throw | apply returns_ret; reflexivity
               | apply returns_if | apply returns_bind; intros ].
Qed.

Lemma cached_quote_None c key now :
  cached_quote c key now = None ->
  JSMap.get key (cache c) = None \/ JSMap.get key (lastFetchTime c) = None \/
  exists t, JSMap.get key (lastFetchTime c) = Some t /\ CACHE_DURATION c <= now - t.
Proof.
  unfold cached_quote.
  destruct (JSMap.get key (cache c)); [|auto].
  destruct (JSMap.get key (lastFetchTime c)) as [t|]; [|auto].
  destruct (Z.ltb_spec (now - t) (CACHE_DURATION c)); [discriminate|].
  intros _. right. right. exists t. auto.
Qed.

Lemma getStockPrice_error sym c w e :
  fst (getStockPrice sym (c, w)) = Throw e ->
  e = Error ("Unable to fetch data for " +:+ sym).
Proof.
  destruct (cached_quote c ("stock_" +:+ sym) (clock w)) as [q|] eqn:Hc.
  - rewrite (getStockPrice_cached _ _ _ _ Hc). discriminate.
  - destruct (getStockPrice_fallback_chain sym c w (cached_quote_None _ _ _ Hc)) as [E _].
    rewrite E.
    destruct (fst (AlphaVantage_getStockData _ _ _)); [discriminate|].
    destruct (fst (YahooFinance_getStockData _ _ _)); [discriminate|].
    intros [= <-]. reflexivity.
Qed.

Lemma settle_cases self w nets i sym :
  settle self w nets i sym = EError sym ("Unable to fetch data for " +:+ sym) \/
  exists q, settle self w nets i sym = EQuote q.
Proof.
  unfold settle.
  destruct (fst (getStockPrice sym _)) as [q|e] eqn:E; [right; eauto|left].
  apply getStockPrice_error in E. subst e. reflexivity.
Qed.

(** How [getMultipleStockPrices] builds the object it returns: the
    result for each symbol is a quote, or the marker [{symbol, error}]
    whose message names the symbol, and each result is filed under the
    symbol it carries, the last result filed under a name winning.  When
    every quote carries the symbol it was asked under (and no symbol is
    the accessor name [__proto__]), the keys are exactly the requested
    symbols and each symbol maps to a result of its own. *)
Lemma batch_files_results_by_reported_symbol (symbols : list string)
    (self : StockDataClient) (w : World) (nets : nat -> nat -> N * Reply) :
  let results := imap (settle self w nets) symbols in
  let data := getMultipleStockPrices symbols self w nets in
  (forall i sym, symbols !! i = Some sym ->
     exists r, results !! i = Some r /\
       (r = EError sym ("Unable to fetch data for " +:+ sym) \/ exists q, r = EQuote q)) /\
  (forall k r, data !! k = Some r <-> k <> "__proto__" /\ latest k results = Some r) /\
  ((forall i sym q, symbols !! i = Some sym -> results !! i = Some (EQuote q) ->
                    symbol q = VStr sym) ->
   "__proto__" ∉ symbols ->
   (forall k, is_Some (data !! k) <-> k ∈ symbols) /\
   (forall sym, sym ∈ symbols ->
      exists i r, symbols !! i = Some sym /\ results !! i = Some r /\ data !! sym = Some r)).
Proof.
  intros results data.
  assert (Hres : forall i sym, symbols !! i = Some sym ->
                   results !! i = Some (settle self w nets i sym)).
  { intros i sym Hi. unfold results. rewrite list_lookup_imap, Hi. reflexivity. }
  assert (Hdata : forall k, data !! k
            = if String.eqb k "__proto__" then None else latest k results).
  { intros k. unfold data, getMultipleStockPrices. fold results.
    change (fold_left _ results ∅) with (fold_left file results ∅).
    rewrite lookup_filed, lookup_empty. destruct (String.eqb k "__proto__"); [reflexivity|].
    destruct (latest k results); reflexivity. }
  split; [|split].
  - intros i sym Hi. eexists. split; [apply Hres, Hi|apply settle_cases].
  - intros k r. rewrite Hdata.
    destruct (String.eqb_spec k "__proto__") as [->|Hk].
    + split; [discriminate|intros [Hc _]; contradiction].
    + tauto.
  - intros Hsym Hproto.
    assert (Hkey : forall i sym r, symbols !! i = Some sym -> results !! i = Some r ->
                     entry_key r = sym).
    { intros i sym r Hi Hr. pose proof (Hres i sym Hi) as Hr'.
      destruct (settle_cases self w nets i sym) as [E|[q E]]; rewrite E in Hr'.
      - rewrite Hr' in Hr. injection Hr as <-. reflexivity.
      - rewrite Hr' in Hr. injection Hr as <-. unfold entry_key. cbn.
        rewrite (Hsym i sym q Hi Hr'). reflexivity. }
    assert (Hin : forall r, r ∈ results -> entry_key r ∈ symbols).
    { intros r Hr. apply list_elem_of_lookup in Hr as [i Hi].
      destruct (symbols !! i) as [sym|] eqn:Hs.
      - rewrite (Hkey i sym r Hs Hi). apply list_elem_of_lookup. eauto.
      - unfold results in Hi. rewrite list_lookup_imap, Hs in Hi. discriminate. }
    assert (Hlatest : forall sym, sym ∈ symbols -> exists r, latest sym results = Some r).
    { intros sym Hs. apply list_elem_of_lookup in Hs as [i Hi].
      destruct (latest sym results) as [r|] eqn:Hl; [eauto|].
      exfalso. eapply (latest_None _ _ Hl).
      - apply list_elem_of_lookup. exists i. apply Hres, Hi.
      - apply (Hkey i sym _ Hi). apply Hres, Hi. }
    assert (Hnp : forall sym, sym ∈ symbols -> String.eqb sym "__proto__" = false).
    { intros sym Hs. destruct (String.eqb_spec sym "__proto__"); [subst; contradiction|reflexivity]. }
    split.
    + intros k. rewrite Hdata. split.
      * destruct (String.eqb k "__proto__"); intros [r Hr]; [discriminate|].
        apply latest_Some in Hr as [Hr <-]. apply Hin, Hr.
      * intros Hk. rewrite (Hnp k Hk). destruct (Hlatest k Hk) as [r ->]. eauto.
    + intros sym Hs. destruct (Hlatest sym Hs) as [r Hl].
      pose proof (latest_Some _ _ _ Hl) as [Hr Hk].
      apply list_elem_of_lookup in Hr as [i Hi].
      exists i, r. rewrite Hdata, (Hnp sym Hs). split; [|auto].
      destruct (symbols !! i) as [sym'|] eqn:Hs'.
      * rewrite <- Hk. f_equal. symmetry. apply (Hkey i sym' r Hs' Hi).
      * unfold results in Hi. rewrite list_lookup_imap, Hs' in Hi. discriminate.
Qed.
End Batch.

(** *** Examples *)
Definition answering (replies : list Reply) : nat -> N * Reply :=
  net (Example.scripted replies).

Definition alpha_vantage_body : JSValue :=
  VObj [("Global Quote", VObj
    [("01. symbol", VStr "A"); ("02. open", VStr "149"); ("03. high", VStr "151");
     ("04. low", VStr "148"); ("05. price", VStr "150"); ("06. volume", VStr "1000000");
     ("09. change", VStr "2"); ("10. change percent", VStr "1.35%")])].

Example batch_of_two_symbols :
  let nets := fun i : nat =>
    match i with
    | O => answering [Example.json_reply alpha_vantage_body]
    | _ => answering []
    end in
  let data := getMultipleStockPrices (H := Example.host) ["A"; "B"] stock_client
                Example.offline nets in
  (forall k, is_Some (data !! k) <-> k ∈ ["A"; "B"]) /\
  data !! "B" = Some (EError "B" "Unable to fetch data for B") /\
  exists q, data !! "A" = Some (EQuote q) /\ source q = VStr "alpha_vantage".
Proof.
  intros nets data.
  destruct (batch_files_results_by_reported_symbol (H := Example.host) ["A"; "B"]
              stock_client Example.offline nets) as (_ & _ & Hkeys).
  destruct Hkeys as [Hdom _].
  - intros [|[|i]] sym q Hi Hr; [| |discriminate Hi].
    + injection Hi as <-. vm_compute in Hr. injection Hr as <-. reflexivity.
    + vm_compute in Hr. discriminate Hr.
  - intros Hin. apply elem_of_cons in Hin as [Hin|Hin]; [discriminate|].
    apply elem_of_cons in Hin as [Hin|Hin]; [discriminate|]. inversion Hin.
  - split; [exact Hdom|]. split; [vm_compute; reflexivity|].
    eexists. split; [vm_compute; reflexivity|reflexivity].
Qed.

(** C4. The code breaks the claim.  A request for [aapl] that the
    secondary provider answers is filed under [AAPL], the symbol of the
    answer, and the object has no entry for the requested symbol: the
    adapter of the secondary provider copies the symbol of the answer,
    where the error marker and the adapter of the primary provider carry
    the requested symbol (the same request is filed under [aapl] when
    the primary provider answers, and when both fail). *)
Theorem batch_key_is_the_reported_symbol :
  let batch := fun replies =>
    getMultipleStockPrices (H := Example.host) ["aapl"] stock_client Example.offline
      (fun _ : nat => answering replies) in
  let data := batch [server_error; Example.json_reply (yahoo_body "AAPL")] in
  data !! "aapl" = None /\
  (exists q, data !! "AAPL" = Some (EQuote q) /\ source q = VStr "yahoo_finance") /\
  (exists q, batch [Example.json_reply alpha_vantage_body] !! "aapl" = Some (EQuote q) /\
             source q = VStr "alpha_vantage" /\ symbol q = VStr "aapl") /\
  batch [server_error; server_error] !! "aapl"
  = Some (EError "aapl" "Unable to fetch data for aapl").
Proof.
  intros batch data. split; [vm_compute; reflexivity|]. split; [|split].
  - destruct (data !! "AAPL") as [[q|sym e]|] eqn:E; vm_compute in E; try discriminate E.
    exists q. split; [reflexivity|]. injection E as <-. reflexivity.
  - destruct (batch [Example.json_reply alpha_vantage_body] !! "aapl") as [[q|sym e]|] eqn:E;
      vm_compute in E; try discriminate E.
    exists q. split; [reflexivity|]. injection E as <-. split; reflexivity.
  - vm_compute. reflexivity.
Qed.


(** *** Price history *)

Section History.
Context `{Host}.

Lemma mapM_length {S A B} (f : A -> M S B) (l : list A) :
  forall s bs, fst (mapM f l s) = Ok bs -> length bs = length l.
Proof.
  induction l as [|a l IH]; intros s bs; cbn [mapM].
  - intros [= <-]. reflexivity.
  - unfold bind at 1. destruct (f a s) as [[b|e] s1]; [|discriminate].
    unfold bind at 1. specialize (IH s1).
    destruct (mapM f l s1) as [[bs'|e] s2]; [|discriminate].
    intros [= <-]. cbn. f_equal. apply IH. reflexivity.
Qed.

Lemma mapM_lift {S A B} (f : A -> Outcome B) (l : list A) (bs : list B) (s : S) :
  Forall2 (fun a b => f a = Ok b) l bs ->
  mapM (fun a => lift (f a)) l s = (Ok bs, s).
Proof.
  induction 1 as [|a b l bs Hab _ IH]; cbn [mapM]; [reflexivity|].
  unfold bind at 1. unfold lift at 1. rewrite Hab.
  unfold bind at 1. rewrite IH. reflexivity.
Qed.

(** The request [getHistoricalData] sends. *)
Definition history_url (api : Provider) (sym timeframe : string) : string :=
  baseUrl api +:+ "?function=" +:+ JS.ToString (JS.lookup_prop timeframe functionMap)
  +:+ "&symbol=" +:+ sym +:+ "&apikey=" +:+ JS.ToString (apiKey api) +:+ "&outputsize=compact".

(** The name of the time series in the answer. *)
Definition series_key (timeframe : string) : string :=
  JS.ToString (JS.lookup_prop (JS.ToString (JS.lookup_prop timeframe functionMap)) timeKeyMap).

Lemma stable_mapM_lift {S A B} (f : A -> Outcome B) (l : list A) :
  stable (S := S) eq (mapM (fun a => lift (f a)) l).
Proof. apply stable_mapM; [exact _|exact _|]. intros a. apply stable_lift. exact _. Qed.

Lemma history_one_request {O} api sym timeframe (s : O * World) :
  snd (AlphaVantage_getHistoricalData api sym timeframe s)
  = (fst s, advance (snd s) (fst (net (snd s) (length (sent (snd s)))))
                    (GET (history_url api sym timeframe))).
Proof.
  unfold AlphaVantage_getHistoricalData. apply one_request.
  - intros r. repeat first [pure_step | apply stable_mapM_lift].
  - intros e. repeat pure_step.
Qed.

Lemma history_at_most_ten {O} api sym timeframe :
  returns (S := O * World) (fun bars => (length bars <= 10)%nat)
          (AlphaVantage_getHistoricalData api sym timeframe).
Proof.
  unfold AlphaVantage_getHistoricalData.
  apply returns_try_catch; [|intros; apply returns_throw].
  repeat first [ apply returns_throw | apply returns_if | apply returns_bind; intros ].
  intros s bs Hbs. apply mapM_length in Hbs. rewrite Hbs, length_take. lia.
Qed.

(** C10. [getStockHistory] never raises: it sends one request and
    returns [null] or a sequence of at most 10 bars, leaving the client
    as it was.  When the answer carries a time series under the name of
    the time frame, the bars are those of its first 10 entries, however
    many entries there are; every failure gives [null], and so does a
    time frame that is not one of [1day], [1week], [1month] (the answer
    then has no series to read, unless it has a property named
    [undefined]). *)
Theorem history_is_null_or_at_most_ten_bars (sym timeframe : string)
    (c : StockDataClient) (w : World) :
  let reply := net w (length (sent w)) in
  exists r,
    getStockHistory sym timeframe (c, w)
    = (Ok r, (c, advance w (fst reply)
                   (GET (history_url (alphaVantage (clients c)) sym timeframe)))) /\
    (r = None \/ exists bars, r = Some bars /\ (length bars <= 10)%nat) /\
    (forall resp data note series entries bars,
        snd reply = Respond resp -> body resp = Some data ->
        JS.get data "Note" = Ok note -> JS.truthy note = false ->
        JS.get data (series_key timeframe) = Ok series ->
        JS.entries series = Ok entries ->
        Forall2 (fun e b => bar_of_entry e = Ok b) (take 10 entries) bars ->
        r = Some bars /\ length bars = Nat.min 10 (length entries)) /\
    (JS.lookup_prop timeframe functionMap = VUndef ->
     (forall resp data, snd reply = Respond resp -> body resp = Some data ->
                        News.get_opt data "undefined" = VUndef) ->
     r = None).
Proof.
  intros reply.
  set (api := alphaVantage (clients c)).
  pose proof (history_one_request api sym timeframe (c, w)) as Hstate.
  pose proof (history_at_most_ten (O := StockDataClient) api sym timeframe (c, w)) as Hten.
  cbn [fst snd] in Hstate. fold reply in Hstate.
  destruct (AlphaVantage_getHistoricalData api sym timeframe (c, w)) as [out s1] eqn:E.
  cbn [fst snd] in *. subst s1.
  exists (match out with Ok bars => Some bars | Throw _ => None end).
  split; [|split; [|split]].
  - unfold getStockHistory. mstep_with ltac:(cbn [fst snd]). fold api. rewrite E.
    destruct out; reflexivity.
  - destruct out as [bars|e]; [right|left; reflexivity].
    exists bars. split; [reflexivity|]. apply Hten. reflexivity.
  - intros resp data note series entries bars Hr Hb Hn Hnt Hs He Hbars.
    revert E. unfold AlphaVantage_getHistoricalData, fetch.
    mstep_with ltac:(cbn [fst snd]). fold reply.
    destruct reply as [d rp]. cbn [fst snd] in *. subst rp.
    mstep_with ltac:(cbn [fst snd]). rewrite Hb.
    mstep_with ltac:(cbn [fst snd]). rewrite Hn.
    mstep_with ltac:(cbn [fst snd]). rewrite Hnt.
    mstep_with ltac:(cbn [fst snd]).
    fold (series_key timeframe). rewrite Hs.
    mstep_with ltac:(cbn [fst snd]). rewrite He.
    mstep_with ltac:(cbn [fst snd]).
    change (mapM _ (take 10 entries))
      with (mapM (S := StockDataClient * World) (fun a => lift (bar_of_entry a)) (take 10 entries)).
    rewrite (mapM_lift _ _ _ _ Hbars).
    intros [= <-]. split; [reflexivity|].
    apply Forall2_length in Hbars. rewrite <- Hbars, length_take. reflexivity.
  - intros Hfn Hundef.
    destruct out as [bars|e]; [exfalso|reflexivity].
    revert E. unfold AlphaVantage_getHistoricalData, fetch.
    mstep_with ltac:(cbn [fst snd]). fold reply.
    destruct reply as [d rp]. cbn [fst snd] in *.
    destruct rp as [msg|resp]; mstep_with ltac:(cbn [fst snd]); [discriminate|].
    destruct (body resp) as [data|] eqn:Hb; mstep_with ltac:(cbn [fst snd]); [|discriminate].
    specialize (Hundef resp data eq_refl Hb).
    destruct (JS.get data "Note") as [note|e] eqn:Hn; mstep_with ltac:(cbn [fst snd]);
      [|discriminate].
    destruct (JS.truthy note); mstep_with ltac:(cbn [fst snd]); [discriminate|].
    rewrite Hfn. cbn [JS.ToString JS.lookup_prop timeKeyMap String.eqb Ascii.eqb Bool.eqb].
    replace (JS.get data "undefined") with (Ok (A := JSValue) VUndef).
    2:{ destruct data; try discriminate Hn; cbn in *; congruence. }
    cbn [JS.entries]. mstep_with ltac:(cbn [fst snd]). discriminate.
Qed.
End History.

(** *** Examples *)
Definition day_values : JSValue :=
  VObj [("1. open", VStr "149"); ("2. high", VStr "151"); ("3. low", VStr "148");
        ("4. close", VStr "150"); ("5. volume", VStr "1000000")].

Definition twelve_days : JSValue :=
  VObj (List.map (fun d => (d, day_values))
          ["2024-01-12"; "2024-01-11"; "2024-01-10"; "2024-01-09"; "2024-01-08";
           "2024-01-05"; "2024-01-04"; "2024-01-03"; "2024-01-02"; "2023-12-29";
           "2023-12-28"; "2023-12-27"]).

Definition daily_body : JSValue :=
  VObj [("Meta Data", VObj [("2. Symbol", VStr "A")]); ("Time Series (Daily)", twelve_days)].

Example history_keeps_first_ten_of_twelve :
  exists bars,
    (getStockHistory (H := Example.host) "A" "1day"
       (stock_client, Example.scripted [Example.json_reply daily_body])).1 = Ok (Some bars) /\
    length bars = 10%nat /\
    List.map date bars
    = ["2024-01-12"; "2024-01-11"; "2024-01-10"; "2024-01-09"; "2024-01-08";
       "2024-01-05"; "2024-01-04"; "2024-01-03"; "2024-01-02"; "2023-12-29"].
Proof. eexists. split; [vm_compute; reflexivity|]. split; reflexivity. Qed.

Example history_of_unknown_timeframe_is_null :
  (getStockHistory (H := Example.host) "A" "5min"
     (stock_client, Example.scripted [Example.json_reply daily_body])).1 = Ok None.
Proof. vm_compute. reflexivity. Qed.

End StockChain.

(* ===================================================================== *)
(** ** The three caches *)
(* ===================================================================== *)

(** *** Facts about [Map] *)
Section MapFacts.
Context {V : Type}.
Implicit Types (m : JSMap.t V) (k : string) (v : V).

Lemma size_nonneg m : 0 <= JSMap.size m.
Proof. unfold JSMap.size. lia. Qed.

Lemma size_set m k v :
  JSMap.size (JSMap.set k v m) = if JSMap.has k m then JSMap.size m else JSMap.size m + 1.
Proof.
  unfold JSMap.size, JSMap.has.
  induction m as [|[k' v'] m IH]; cbn [JSMap.set JSMap.get length]; [lia|].
  destruct (String.eqb k k'); cbn [length]; [lia|].
  destruct (JSMap.get k m); lia.
Qed.

Lemma size_set_le m k v : JSMap.size (JSMap.set k v m) <= JSMap.size m + 1.
Proof. rewrite size_set. destruct (JSMap.has k m); lia. Qed.

Lemma size_set_ge m k v : JSMap.size m <= JSMap.size (JSMap.set k v m).
Proof. rewrite size_set. destruct (JSMap.has k m); lia. Qed.

Lemma delete_first_cons (e : string * V) m : JSMap.delete_first (e :: m) = m.
Proof.
  destruct e as [k v]. unfold JSMap.delete_first. cbn.
  rewrite String.eqb_refl. reflexivity.
Qed.

Lemma size_delete_first m :
  JSMap.size (JSMap.delete_first m) = if JSMap.size m =? 0 then 0 else JSMap.size m - 1.
Proof.
  destruct m as [|e m]; [reflexivity|].
  rewrite delete_first_cons. unfold JSMap.size. cbn [length].
  destruct (Z.eqb_spec (Z.of_nat (S (length m))) 0); lia.
Qed.

Lemma get_set_same m k v : JSMap.get k (JSMap.set k v m) = Some v.
Proof.
  induction m as [|[k' v'] m IH]; cbn; [rewrite String.eqb_refl; reflexivity|].
  destruct (String.eqb k k') eqn:E; cbn; [rewrite String.eqb_refl; reflexivity|].
  rewrite E. exact IH.
Qed.

Lemma get_set_other m k k' v : k' <> k -> JSMap.get k' (JSMap.set k v m) = JSMap.get k' m.
Proof.
  intros Hne. induction m as [|[k0 v0] m IH]; cbn.
  - destruct (String.eqb_spec k' k); [contradiction|reflexivity].
  - destruct (String.eqb_spec k k0) as [->|Hk]; cbn.
    + destruct (String.eqb_spec k' k0); [contradiction|reflexivity].
    + destruct (String.eqb k' k0); [reflexivity|exact IH].
Qed.

Lemma has_set_mono m k k' v : JSMap.has k' m = true -> JSMap.has k' (JSMap.set k v m) = true.
Proof.
  unfold JSMap.has. intros Hh.
  destruct (String.eqb_spec k' k) as [->|Hne].
  - rewrite get_set_same. reflexivity.
  - rewrite get_set_other by assumption. exact Hh.
Qed.
End MapFacts.

(** *** The cache of the gateway, purely *)

(** The entry stored for [value] at time [now]: [{...value, cacheTimestamp: now}]. *)
Definition cache_entry (now : Z) (value : JSValue) : JSValue :=
  VObj (JS.set_prop "cacheTimestamp" (VNum (JS.num_of_Z now)) (JS.spread value)).

(** The cache after [storeInCache(key, value)], [e] being the entry stored. *)
Definition store {V : Type} (max : Z) (key : string) (e : V) (c : JSMap.t V) : JSMap.t V :=
  JSMap.set key e (if max <=? JSMap.size c then JSMap.delete_first c else c).

(** Ghost insertion ticks: every entry is paired with the number of the
    put that created it; overwriting a present key keeps its tick, as it
    keeps its place. *)
Definition store_tagged (max : Z) (tick : nat) (key : string) (e : JSValue)
  (c : JSMap.t (JSValue * nat)) : JSMap.t (JSValue * nat) :=
  let c1 := if max <=? JSMap.size c then JSMap.delete_first c else c in
  match JSMap.get key c1 with
  | Some (_, born) => JSMap.set key (e, born) c1
  | None => JSMap.set key (e, tick) c1
  end.

Definition erase (c : JSMap.t (JSValue * nat)) : JSMap.t JSValue :=
  List.map (fun kv => (fst kv, fst (snd kv))) c.

Definition ticks (c : JSMap.t (JSValue * nat)) : list nat :=
  List.map (fun kv => snd (snd kv)) c.

(** The tagged cache after the puts [puts], numbered from [tick] on. *)
Fixpoint replay (max : Z) (tick : nat) (puts : list (string * JSValue))
  (c : JSMap.t (JSValue * nat)) : JSMap.t (JSValue * nat) :=
  match puts with
  | [] => c
  | (k, e) :: rest => replay max (S tick) rest (store_tagged max tick k e c)
  end.

Section Ghost.

Lemma erase_set k e t c : erase (JSMap.set k (e, t) c) = JSMap.set k e (erase c).
Proof.
  induction c as [|[k' [e' t']] c IH]; cbn; [reflexivity|].
  destruct (String.eqb k k'); cbn; [reflexivity|]. f_equal. exact IH.
Qed.

Lemma erase_delete_first c : erase (JSMap.delete_first c) = JSMap.delete_first (erase c).
Proof.
  destruct c as [|[k [e t]] c]; [reflexivity|].
  rewrite delete_first_cons. cbn [erase List.map fst snd].
  rewrite delete_first_cons. reflexivity.
Qed.

Lemma size_erase c : JSMap.size (erase c) = JSMap.size c.
Proof. unfold JSMap.size, erase. rewrite length_map. reflexivity. Qed.

Lemma erase_store_tagged max tick k e c :
  erase (store_tagged max tick k e c) = store max k e (erase c).
Proof.
  unfold store_tagged, store. rewrite size_erase.
  set (c1 := if max <=? JSMap.size c then JSMap.delete_first c else c).
  assert (erase c1 = if max <=? JSMap.size c then JSMap.delete_first (erase c) else erase c) as <-.
  { unfold c1. destruct (max <=? JSMap.size c); [apply erase_delete_first|reflexivity]. }
  destruct (JSMap.get k c1) as [[e0 born]|]; apply erase_set.
Qed.

(** Ticks grow along the cache and stay below the next tick. *)
Definition ordered (tick : nat) (c : JSMap.t (JSValue * nat)) : Prop :=
  StronglySorted lt (ticks c) /\ Forall (fun t => (t < tick)%nat) (ticks c).

Lemma ticks_set_present k e born c e0 :
  JSMap.get k c = Some (e0, born) -> ticks (JSMap.set k (e, born) c) = ticks c.
Proof.
  induction c as [|[k' [e' t']] c IH]; cbn; [discriminate|].
  destruct (String.eqb k k'); cbn.
  - intros [= _ ->]. reflexivity.
  - intros Hg. f_equal. apply IH, Hg.
Qed.

Lemma ticks_set_absent k e t c :
  JSMap.get k c = None -> ticks (JSMap.set k (e, t) c) = (ticks c ++ [t])%list.
Proof.
  induction c as [|[k' [e' t']] c IH]; cbn; [reflexivity|].
  destruct (String.eqb k k'); cbn; [discriminate|].
  intros Hg. f_equal. apply IH, Hg.
Qed.

Lemma ordered_delete_first tick c : ordered tick c -> ordered tick (JSMap.delete_first c).
Proof.
  destruct c as [|e c]; [auto|]. rewrite delete_first_cons.
  unfold ordered. cbn. intros [Hs Hf]. inversion Hs; inversion Hf; subst. auto.
Qed.

Lemma sorted_snoc (l : list nat) (t : nat) :
  StronglySorted lt l -> Forall (fun x => (x < t)%nat) l -> StronglySorted lt (l ++ [t]).
Proof.
  induction 1 as [|x l Hs IH Hx]; cbn; intros Hf.
  - repeat constructor.
  - inversion Hf; subst. constructor; [auto|].
    apply Forall_app. split; [assumption|]. repeat constructor. assumption.
Qed.

Lemma ordered_store_tagged max tick k e c :
  ordered tick c -> ordered (S tick) (store_tagged max tick k e c).
Proof.
  intros Ho. unfold store_tagged.
  set (c1 := if max <=? JSMap.size c then JSMap.delete_first c else c).
  assert (ordered tick c1) as [Hs Hf].
  { unfold c1. destruct (max <=? JSMap.size c); [apply ordered_delete_first|]; exact Ho. }
  assert (Forall (fun t => (t < S tick)%nat) (ticks c1)) as Hf'.
  { eapply Forall_impl; [exact Hf|]. cbn. intros; lia. }
  destruct (JSMap.get k c1) as [[e0 born]|] eqn:Hg; unfold ordered.
  - rewrite (ticks_set_present _ _ _ _ _ Hg). auto.
  - rewrite (ticks_set_absent _ _ _ _ Hg). split.
    + apply sorted_snoc; assumption.
    + apply Forall_app. split; [assumption|]. repeat constructor.
Qed.

Lemma ordered_replay max puts : forall tick c,
  ordered tick c -> ordered (tick + length puts) (replay max tick puts c).
Proof.
  induction puts as [|[k e] puts IH]; intros tick c Ho; cbn [replay length].
  - rewrite Nat.add_0_r. exact Ho.
  - replace (tick + S (length puts))%nat with (S tick + length puts)%nat by lia.
    apply IH, ordered_store_tagged, Ho.
Qed.

Lemma store_bounded {V} max k (e : V) c :
  1 <= max -> JSMap.size c <= max -> JSMap.size (store max k e c) <= max.
Proof.
  intros Hmax Hc. unfold store.
  destruct (Z.leb_spec max (JSMap.size c)).
  - pose proof (size_set_le (JSMap.delete_first c) k e).
    rewrite size_delete_first in H0.
    destruct (Z.eqb_spec (JSMap.size c) 0); lia.
  - pose proof (size_set_le c k e). lia.
Qed.

Lemma replay_bounded max puts : forall tick c,
  1 <= max -> JSMap.size c <= max -> JSMap.size (replay max tick puts c) <= max.
Proof.
  induction puts as [|[k e] puts IH]; intros tick c Hmax Hc; cbn [replay]; [exact Hc|].
  apply IH; [exact Hmax|].
  rewrite <- size_erase, erase_store_tagged. apply store_bounded; [exact Hmax|].
  rewrite size_erase. exact Hc.
Qed.

(** A put at capacity removes the first entry, and that entry is older
    than every entry that stays. *)
Lemma eviction_is_oldest max tick c :
  1 <= max -> ordered tick c -> max <= JSMap.size c ->
  exists k0 e0 t0 rest,
    c = (k0, (e0, t0)) :: rest /\
    JSMap.delete_first c = rest /\
    Forall (fun kv => (t0 < snd (snd kv))%nat) rest.
Proof.
  intros Hmax [Hs _] Hfull.
  destruct c as [|[k0 [e0 t0]] rest]; [unfold JSMap.size in Hfull; cbn in Hfull; lia|].
  exists k0, e0, t0, rest. split; [reflexivity|]. split; [apply delete_first_cons|].
  cbn in Hs. inversion Hs; subst.
  unfold ticks in *. rewrite Forall_map in H2. exact H2.
Qed.
End Ghost.

(** *** The caches of the two clients never evict *)

(** The object is as before. *)
Definition same_object {O : Type} (s s' : O * World) : Prop := fst s' = fst s.

#[local] Instance same_object_refl {O} : Reflexive (@same_object O).
Proof. intros s. reflexivity. Qed.
#[local] Instance same_object_trans {O} : Transitive (@same_object O).
Proof. intros a b c. unfold same_object. congruence. Qed.

Lemma stable_weaken {S A} (R1 R2 : S -> S -> Prop) (m : M S A) :
  (forall s s', R1 s s' -> R2 s s') -> stable R1 m -> stable R2 m.
Proof. intros HR Hm s. apply HR, Hm. Qed.

Lemma fetch_same_object {O} req : stable same_object (fetch (O := O) req).
Proof.
  intros s. unfold fetch, same_object.
  destruct (net (snd s) (length (sent (snd s)))) as [d [msg|r]]; reflexivity.
Qed.

Lemma stable_zoom {O P A} (R : O * World -> O * World -> Prop) (proj : O -> P)
    (upd : P -> O -> O) (m : M (P * World) A) :
  (forall o w p' w', R (o, w) (upd p' o, w')) -> stable R (zoom proj upd m).
Proof.
  intros HR [o w]. unfold zoom. cbn [fst snd].
  destruct (m (proj o, w)) as [r [p' w']]. cbn [snd]. apply HR.
Qed.

Ltac same_step :=
  first [ apply fetch_same_object | apply StockChain.stable_json
        | apply stable_mapM; [| |intros]
        | stable_step
        | match goal with
          | |- stable _ (match ?x with _ => _ end) => destruct x
          end ].

(** Every key of the cache is still there. *)
Definition stock_keeps (s s' : Stock.StockDataClient * World) : Prop :=
  forall k, JSMap.has k (Stock.cache (fst s)) = true -> JSMap.has k (Stock.cache (fst s')) = true.

Definition news_keeps (s s' : News.NewsDataClient * World) : Prop :=
  forall k, JSMap.has k (News.cache (fst s)) = true -> JSMap.has k (News.cache (fst s')) = true.

#[local] Instance stock_keeps_refl : Reflexive stock_keeps.
Proof. intros s k Hk. exact Hk. Qed.
#[local] Instance stock_keeps_trans : Transitive stock_keeps.
Proof. intros a b c Hab Hbc k Hk. auto. Qed.
#[local] Instance news_keeps_refl : Reflexive news_keeps.
Proof. intros s k Hk. exact Hk. Qed.
#[local] Instance news_keeps_trans : Transitive news_keeps.
Proof. intros a b c Hab Hbc k Hk. auto. Qed.

(** The cache of the news client is as before. *)
Definition same_news_cache (s s' : News.NewsDataClient * World) : Prop :=
  News.cache (fst s') = News.cache (fst s).

#[local] Instance same_news_cache_refl : Reflexive same_news_cache.
Proof. intros s. reflexivity. Qed.
#[local] Instance same_news_cache_trans : Transitive same_news_cache.
Proof. intros a b c. unfold same_news_cache. congruence. Qed.

(** From a cache [c0], [m] leaves [c0] with the list it returns stored
    under [key] at the instant it ends, and [c0] as it was when it raises. *)
Definition stores_result (key : string) (c0 : JSMap.t News.Cached)
    (m : M (News.NewsDataClient * World) (list News.Article)) : Prop :=
  forall s, News.cache (fst s) = c0 ->
    match m s with
    | (Ok articles, s') =>
        News.cache (fst s')
        = JSMap.set key {| News.data := articles; News.cached_at := clock (snd s') |} c0
    | (Throw _, s') => News.cache (fst s') = c0
    end.

Section Clients.
Context `{Host}.

Lemma getStockPrice_keeps sym : stable stock_keeps (Stock.getStockPrice sym).
Proof.
  assert (Hav : forall api, stable stock_keeps
            (Stock.AlphaVantage_getStockData (O := Stock.StockDataClient) api sym)).
  { intros api s k Hk. rewrite StockChain.AlphaVantage_one_request. exact Hk. }
  assert (Hyh : forall api, stable stock_keeps
            (Stock.YahooFinance_getStockData (O := Stock.StockDataClient) api sym)).
  { intros api s k Hk. rewrite StockChain.YahooFinance_one_request. exact Hk. }
  assert (Hrem : forall key q now, stable stock_keeps (modify (Stock.remember key q now))).
  { intros key q now. apply stable_modify. intros o w k Hk. cbn. apply has_set_mono, Hk. }
  unfold Stock.getStockPrice.
  apply stable_bind; [exact _|apply stable_Date_now; exact _|intros now].
  apply stable_bind; [exact _|apply stable_this; exact _|intros self].
  destruct (Stock.cached_quote self _ now); [apply stable_ret; exact _|].
  repeat first [ apply Hav | apply Hyh | apply Hrem | stable_step ].
Qed.

Lemma Currents_same_object {O} api query options :
  stable same_object (News.Currents_getNews (O := O) api query options).
Proof.
  unfold News.Currents_getNews. repeat same_step.
Qed.

Lemma Rss_same_object {O} query options :
  stable same_object (News.getNewsFromGoogleRss (O := O) query options).
Proof. unfold News.getNewsFromGoogleRss. repeat same_step. Qed.

Lemma same_object_keeps {A} (m : M (News.NewsDataClient * World) A) :
  stable same_object m -> stable news_keeps m.
Proof.
  apply stable_weaken. intros s s' E k Hk. unfold same_object in E. rewrite E. exact Hk.
Qed.

Lemma fallback_tiers_keeps cacheKey query options :
  stable news_keeps (News.fallback_tiers cacheKey query options).
Proof.
  assert (Hset : forall key e, stable news_keeps
            (modify (fun c => News.set_cache (JSMap.set key e (News.cache c)) c))).
  { intros key e. apply stable_modify. intros o w k Hk. cbn. apply has_set_mono, Hk. }
  unfold News.fallback_tiers.
  repeat first [ apply Hset
               | apply same_object_keeps, Currents_same_object
               | apply same_object_keeps, Rss_same_object
               | stable_step ].
Qed.

Lemma getNews_keeps query options : stable news_keeps (News.getNews query options).
Proof.
  assert (Hset : forall key e, stable news_keeps
            (modify (fun c => News.set_cache (JSMap.set key e (News.cache c)) c))).
  { intros key e. apply stable_modify. intros o w k Hk. cbn. apply has_set_mono, Hk. }
  assert (Hzoom : forall A (m : M (News.NewsAPIClient * World) A),
            stable news_keeps (zoom News.newsApi News.set_newsApi m)).
  { intros A m. apply stable_zoom. intros o w p' w' k Hk. exact Hk. }
  assert (Hwarn : forall t, stable news_keeps (modify (News.set_warned_at t))).
  { intros t. apply stable_modify. intros o w k Hk. exact Hk. }
  unfold News.getNews.
  apply stable_bind; [exact _|apply stable_this; exact _|intros self].
  apply stable_bind; [exact _|apply stable_Date_now; exact _|intros t0].
  destruct (match JSMap.get _ (News.cache self) with Some _ => _ | None => _ end);
    [apply stable_ret; exact _|].
  repeat first [ apply Hset | apply Hzoom | apply Hwarn | apply fallback_tiers_keeps
               | stable_step ].
Qed.

Lemma stores_result_bind {A} key c0 (m : M (News.NewsDataClient * World) A) k :
  stable same_news_cache m -> (forall a, stores_result key c0 (k a)) ->
  stores_result key c0 (bind m k).
Proof.
  intros Hm Hk s Hs. unfold bind. specialize (Hm s). unfold same_news_cache in Hm.
  destruct (m s) as [[a|e] s1]; cbn [fst snd] in Hm.
  - apply Hk. congruence.
  - congruence.
Qed.

Lemma stores_result_try_catch key c0 m h :
  stores_result key c0 m -> (forall e, stores_result key c0 (h e)) ->
  stores_result key c0 (try_catch m h).
Proof.
  intros Hm Hh s Hs. unfold try_catch. specialize (Hm s Hs).
  destruct (m s) as [[a|e] s1]; [exact Hm|]. apply Hh, Hm.
Qed.

Lemma stores_result_if key c0 (b : bool) m1 m2 :
  stores_result key c0 m1 -> stores_result key c0 m2 ->
  stores_result key c0 (if b then m1 else m2).
Proof. destruct b; auto. Qed.

Lemma stores_result_commit key c0 articles :
  stores_result key c0
    (let* t := Date_now in
     modify (fun c => News.set_cache
                        (JSMap.set key {| News.data := articles; News.cached_at := t |}
                                   (News.cache c)) c) ;;
     ret articles).
Proof. intros [c w] Hs. cbn in *. rewrite Hs. reflexivity. Qed.

Lemma same_object_same_cache {A} (m : M (News.NewsDataClient * World) A) :
  stable same_object m -> stable same_news_cache m.
Proof.
  apply stable_weaken. intros s s' E. unfold same_object in E. unfold same_news_cache.
  rewrite E. reflexivity.
Qed.

Lemma fallback_tiers_stores_result key c0 query options :
  stores_result key c0 (News.fallback_tiers key query options).
Proof.
  unfold News.fallback_tiers.
  apply stores_result_bind; [apply stable_this; exact _|intros self].
  apply stores_result_bind.
  { apply same_object_same_cache.
    apply stable_try_catch; try exact _;
      [apply Currents_same_object|intros e; apply stable_ret; exact _]. }
  intros alt. apply stores_result_if; [apply stores_result_commit|].
  apply stores_result_bind; [|intros rss; apply stores_result_commit].
  apply same_object_same_cache.
  apply stable_try_catch; try exact _;
    [apply Rss_same_object|intros e; apply stable_ret; exact _].
Qed.

Lemma zoom_newsApi_same_cache {A} (m : M (News.NewsAPIClient * World) A) :
  stable same_news_cache (zoom News.newsApi News.set_newsApi m).
Proof. apply stable_zoom. intros o w p' w'. reflexivity. Qed.

(** [getNews] on a query that is not freshly cached. *)
Lemma getNews_miss_stores_result query options c w :
  (forall e, JSMap.get ("news_" +:+ query +:+ "_" +:+ JSON_stringify options) (News.cache c)
             = Some e -> 300000 <= clock w - News.cached_at e) ->
  match News.getNews query options (c, w) with
  | (Ok articles, s') =>
      News.cache (fst s')
      = JSMap.set ("news_" +:+ query +:+ "_" +:+ JSON_stringify options)
          {| News.data := articles; News.cached_at := clock (snd s') |} (News.cache c)
  | (Throw _, s') => News.cache (fst s') = News.cache c
  end.
Proof.
  intros Hmiss. unfold News.getNews.
  unfold bind at 1, this at 1. cbn [fst snd]. unfold bind at 1, Date_now at 1. cbn [fst snd].
  set (key := "news_" +:+ query +:+ "_" +:+ JSON_stringify options) in *.
  assert (Hgo : stores_result key (News.cache c)
            (try_catch
               (let* found := zoom News.newsApi News.set_newsApi
                                (News.NewsAPI_getNews query options) in
                let* limited :=
                  if Z.of_nat (length found) =? 0
                  then zoom News.newsApi News.set_newsApi News.isRateLimited
                  else ret false in
                if limited then News.fallback_tiers key query options
                else
                  let* t := Date_now in
                  modify (fun c => News.set_cache
                            (JSMap.set key {| News.data := found; News.cached_at := t |}
                                       (News.cache c)) c) ;;
                  ret found)
               (fun error =>
                  let* now := Date_now in
                  let* self' := this in
                  when (5 * 60 * 1000 <? now - News.warned_at self')
                       (modify (News.set_warned_at now)) ;;
                  News.fallback_tiers key query options))).
  { apply stores_result_try_catch.
    - apply stores_result_bind; [apply zoom_newsApi_same_cache|intros found].
      apply stores_result_bind.
      { destruct (_ =? 0); [apply zoom_newsApi_same_cache|apply stable_ret; exact _]. }
      intros limited. apply stores_result_if;
        [apply fallback_tiers_stores_result|apply stores_result_commit].
    - intros error.
      apply stores_result_bind; [apply stable_Date_now; exact _|intros now].
      apply stores_result_bind; [apply stable_this; exact _|intros self'].
      apply stores_result_bind; [|intros; apply fallback_tiers_stores_result].
      apply stable_when; [exact _|]. apply stable_modify. intros o w0. reflexivity. }
  specialize (Hgo (c, w) eq_refl).
  destruct (JSMap.get key (News.cache c)) as [e|] eqn:Eg; [|exact Hgo].
  specialize (Hmiss e eq_refl).
  destruct (Z.ltb_spec (clock w - News.cached_at e) 300000); [lia|exact Hgo].
Qed.

(** [getStockPrice] on a symbol that is not freshly cached. *)
Lemma getStockPrice_miss_state sym c w :
  Stock.cached_quote c ("stock_" +:+ sym) (clock w) = None ->
  fst (snd (Stock.getStockPrice sym (c, w)))
  = match fst (Stock.getStockPrice sym (c, w)) with
    | Ok q => Stock.remember ("stock_" +:+ sym) q (clock w) c
    | Throw _ => c
    end.
Proof.
  intros Hmiss. unfold Stock.getStockPrice. mstep_with ltac:(cbn [fst snd]).
  rewrite Hmiss. mstep_with ltac:(cbn [fst snd]).
  rewrite (surjective_pairing (Stock.AlphaVantage_getStockData _ sym (c, w))).
  rewrite StockChain.AlphaVantage_one_request. cbn [fst snd].
  destruct (fst (Stock.AlphaVantage_getStockData _ sym (c, w))) as [q1|e]; [reflexivity|].
  rewrite (surjective_pairing (Stock.YahooFinance_getStockData _ sym _)).
  rewrite StockChain.YahooFinance_one_request. cbn [fst snd].
  destruct (fst (Stock.YahooFinance_getStockData _ sym _)) as [q2|e2]; reflexivity.
Qed.


(** [getNews] never raises. *)
Lemma getNews_total query options : succeeds (News.getNews query options).
Proof.
  assert (Htiers : forall key, succeeds (News.fallback_tiers key query options)).
  { intros key. unfold News.fallback_tiers.
    repeat first [ apply succeeds_try_catch; intros | succeeds_step ]. }
  unfold News.getNews.
  apply succeeds_bind; [apply succeeds_this|intros self].
  apply succeeds_bind; [apply succeeds_Date_now|intros t0].
  destruct (match JSMap.get _ (News.cache self) with Some _ => _ | None => _ end);
    [apply succeeds_ret|].
  apply succeeds_try_catch. intros e.
  repeat first [ apply Htiers | succeeds_step ].
Qed.
End Clients.

(** A sequence of [storeInCache] calls. *)
Section StoreAll.
Context `{Host}.

Fixpoint store_all (puts : list (string * JSValue)) : M (LLMProcessor * World) unit :=
  match puts with
  | [] => ret tt
  | (k, v) :: rest => storeInCache k v ;; store_all rest
  end.

Lemma storeInCache_eq p w k v :
  storeInCache k v (p, w)
  = (Ok tt, (set_cache (store (maxCacheSize p) k (cache_entry (clock w) v) (cache p)) p, w)).
Proof.
  unfold storeInCache, store, cache_entry. msimpl.
  destruct (maxCacheSize p <=? JSMap.size (cache p)); msimpl; reflexivity.
Qed.

Lemma set_cache_twice c1 c2 p : set_cache c2 (set_cache c1 p) = set_cache c2 p.
Proof. reflexivity. Qed.

Lemma store_all_replay (w : World) puts : forall tick g p,
  cache p = erase g ->
  store_all puts (p, w)
  = (Ok tt,
     (set_cache (erase (replay (maxCacheSize p) tick
                          (List.map (fun kv => (fst kv, cache_entry (clock w) (snd kv))) puts)
                          g)) p, w)).
Proof.
  induction puts as [|[k v] puts IH]; intros tick g p Hc; cbn [store_all List.map replay fst snd].
  - unfold ret. rewrite <- Hc. destruct p; reflexivity.
  - unfold bind at 1. rewrite storeInCache_eq.
    rewrite (IH (S tick) (store_tagged (maxCacheSize p) tick k (cache_entry (clock w) v) g)).
    + reflexivity.
    + cbn [cache set_cache]. rewrite erase_store_tagged, Hc. reflexivity.
Qed.

(** C5, as the code has it. Only the cache of the LLM gateway has a
    maximum size.  For every sequence of [storeInCache] calls on a fresh
    gateway the cache never holds more than [maxCacheSize] = 100
    entries; its entries stand in the order of their insertion (an
    overwritten key keeps its place and its age), and a put at capacity
    evicts exactly the first entry, which was inserted before every
    entry that stays.  The caches of the stock client and of the news
    client have no maximum size and never evict.  A [getStockPrice] that
    is not answered from the cache stores the quote it returns under
    [stock_<symbol>] and stores nothing when it fails; a [getNews] that
    is not answered from the cache stores the list it returns under the
    key of the query.  Every other entry stays as it was, so the cache
    gains one entry when the key was not yet present and none otherwise. *)
Theorem llm_cache_is_bounded_and_evicts_oldest (puts : list (string * JSValue)) (w : World) :
  let entries := List.map (fun kv => (fst kv, cache_entry (clock w) (snd kv))) puts in
  let ghost := replay 100 0 entries [] in
  store_all puts (constructor, w) = (Ok tt, (set_cache (erase ghost) constructor, w)) /\
  JSMap.size (erase ghost) <= 100 /\
  ordered (length puts) ghost /\
  (forall key value,
      100 <= JSMap.size ghost ->
      exists k0 e0 born rest,
        ghost = (k0, (e0, born)) :: rest /\
        Forall (fun kv => (born < snd (snd kv))%nat) rest /\
        store_all [(key, value)] (set_cache (erase ghost) constructor, w)
        = (Ok tt, (set_cache (JSMap.set key (cache_entry (clock w) value) (erase rest))
                             constructor, w))) /\
  (forall sym c w', stock_keeps (c, w') (snd (Stock.getStockPrice sym (c, w')))) /\
  (forall query options c w', news_keeps (c, w') (snd (News.getNews query options (c, w')))) /\
  (forall sym c w',
      let key := "stock_" +:+ sym in
      let r := Stock.getStockPrice sym (c, w') in
      Stock.cached_quote c key (clock w') = None ->
      match fst r with
      | Ok q =>
          Stock.cache (fst (snd r)) = JSMap.set key q (Stock.cache c) /\
          JSMap.size (Stock.cache (fst (snd r)))
          = (if JSMap.has key (Stock.cache c) then JSMap.size (Stock.cache c)
             else JSMap.size (Stock.cache c) + 1)
      | Throw _ => Stock.cache (fst (snd r)) = Stock.cache c
      end) /\
  (forall query options c w',
      let key := "news_" +:+ query +:+ "_" +:+ JSON_stringify options in
      let r := News.getNews query options (c, w') in
      (forall e, JSMap.get key (News.cache c) = Some e ->
                 300000 <= clock w' - News.cached_at e) ->
      exists articles,
        fst r = Ok articles /\
        News.cache (fst (snd r))
        = JSMap.set key {| News.data := articles; News.cached_at := clock (snd (snd r)) |}
            (News.cache c) /\
        JSMap.size (News.cache (fst (snd r)))
        = (if JSMap.has key (News.cache c) then JSMap.size (News.cache c)
           else JSMap.size (News.cache c) + 1)).
Proof.
  intros entries ghost.
  assert (Hord : ordered (length puts) ghost).
  { replace (length puts) with (0 + length entries)%nat
      by (unfold entries; rewrite length_map; reflexivity).
    apply ordered_replay. split; constructor. }
  split; [|split; [|split; [|split; [|split; [|split; [|split]]]]]].
  - apply (store_all_replay w puts 0%nat [] constructor). reflexivity.
  - rewrite size_erase. apply replay_bounded; [lia|]. unfold JSMap.size. cbn. lia.
  - exact Hord.
  - intros key value Hfull.
    destruct (eviction_is_oldest 100 _ ghost ltac:(lia) Hord Hfull)
      as (k0 & e0 & born & rest & Hg & Hdel & Hold).
    exists k0, e0, born, rest. split; [exact Hg|]. split; [exact Hold|].
    cbn [store_all]. unfold bind at 1. rewrite storeInCache_eq. unfold ret.
    cbn [cache set_cache maxCacheSize constructor]. unfold store.
    rewrite size_erase.
    destruct (Z.leb_spec 100 (JSMap.size ghost)); [|lia].
    rewrite <- erase_delete_first, Hdel. reflexivity.
  - intros sym c w'. apply getStockPrice_keeps.
  - intros query options c w'. apply getNews_keeps.
  - intros sym c w' key r Hmiss.
    pose proof (getStockPrice_miss_state sym c w' Hmiss) as Hstate. fold r in Hstate.
    rewrite Hstate. destruct (fst r) as [q|e]; [|reflexivity].
    cbn [Stock.remember Stock.cache]. split; [reflexivity|apply size_set].
  - intros query options c w' key r Hmiss.
    pose proof (getNews_miss_stores_result query options c w' Hmiss) as Hstate.
    fold key in Hstate. fold r in Hstate.
    destruct (getNews_total query options (c, w')) as [articles Ha]. fold r in Ha.
    exists articles. split; [exact Ha|].
    destruct r as [o s']. cbn [fst snd] in *. subst o.
    rewrite Hstate. split; [reflexivity|apply size_set].
Qed.
End StoreAll.

(** *** Examples *)

(** A world in which every request is answered with a quote of Alpha Vantage. *)
Definition quoting : World :=
  {| clock := Example.new_year;
     net := fun _ => (0%N, Example.json_reply StockChain.alpha_vantage_body);
     sent := [];
     storage := VUndef;
     CONFIG := VUndef |}.

(** The names S0, S1, ..., S100. *)
Definition many_symbols : list string :=
  List.map (fun i => "S" +:+ pretty (Z.of_nat i)) (seq 0 101).

Section Quotes.
Context `{Host}.
Fixpoint quote_all (symbols : list string) : M (Stock.StockDataClient * World) unit :=
  match symbols with
  | [] => ret tt
  | s :: rest => Stock.getStockPrice s ;; quote_all rest
  end.
End Quotes.

(** C5 as stated fails for the cache of the stock client: after quotes
    for 101 symbols it holds 101 entries, the first one still there. *)
Lemma stock_cache_grows_past_any_limit :
  let c := fst (snd (quote_all (H := Example.host) many_symbols (StockChain.stock_client, quoting))) in
  JSMap.size (Stock.cache c) = 101 /\
  JSMap.first_key (Stock.cache c) = Some "stock_S0" /\
  maxCacheSize constructor = 100.
Proof. vm_compute. repeat split; reflexivity. Qed.

Example llm_cache_evicts_first_of_101 :
  let puts := List.map (fun i => ("task_input_" +:+ pretty (Z.of_nat i), VObj [])) (seq 0 101) in
  let p := fst (snd (store_all puts (constructor, Example.offline))) in
  JSMap.size (cache p) = 100 /\
  JSMap.first_key (cache p) = Some "task_input_1" /\
  JSMap.has "task_input_0" (cache p) = false.
Proof. vm_compute. repeat split; reflexivity. Qed.

(* ===================================================================== *)
(** ** The news client *)
(* ===================================================================== *)

Module NewsFeed.
Import News.

(** *** The cooldown of the primary provider *)

(** The log of requests is as before. *)
Definition same_sent {O : Type} (s s' : O * World) : Prop := sent (snd s') = sent (snd s).

#[local] Instance same_sent_refl {O} : Reflexive (@same_sent O).
Proof. intros s. reflexivity. Qed.
#[local] Instance same_sent_trans {O} : Transitive (@same_sent O).
Proof. intros a b c. unfold same_sent. congruence. Qed.

Lemma modify_same_sent {O} (f : O -> O) : stable same_sent (modify f).
Proof. intros s. reflexivity. Qed.

(** A method that sends one request and then sends no other. *)
Lemma one_request_sent {O A} (req : Request) (k : Response -> M (O * World) A)
    (h : Exn -> M (O * World) A) (s : O * World) :
  (forall r, stable same_sent (k r)) -> (forall e, stable same_sent (h e)) ->
  sent (snd (snd (try_catch (bind (fetch req) k) h s))) = (sent (snd s) ++ [req])%list.
Proof.
  intros Hk Hh. unfold try_catch, bind, fetch.
  destruct (net (snd s) (length (sent (snd s)))) as [d reply]. cbn [fst snd].
  destruct reply as [msg|r].
  - rewrite (Hh _ (fst s, advance (snd s) d req)). reflexivity.
  - pose proof (Hk r (fst s, advance (snd s) d req)) as Hkr.
    destruct (k r (s.1, advance s.2 d req)) as [[a|e] s']; unfold same_sent in Hkr;
      cbn [fst snd] in *.
    + rewrite Hkr. reflexivity.
    + rewrite (Hh e s'), Hkr. reflexivity.
Qed.

Ltac sent_step :=
  first [ apply modify_same_sent | apply StockChain.stable_json
        | apply stable_mapM; [| |intros]
        | stable_step
        | match goal with
          | |- stable _ (match ?x with _ => _ end) => destruct x
          end ].

Ltac nsimpl :=
  mstep_with
    ltac:(cbn beta iota zeta delta
            [fst snd negb orb andb
             baseUrl apiKey _rateLimitedUntil _lastWarnAt set_rateLimitedUntil set_lastWarnAt]).

Section Cooldown.
Context `{Host}.

Lemma NewsAPI_cooling query options c w :
  clock w < _rateLimitedUntil c ->
  NewsAPI_getNews query options (c, w) = (Ok [], (c, w)).
Proof.
  intros Hc. unfold NewsAPI_getNews. nsimpl.
  destruct (Z.ltb_spec (clock w) (_rateLimitedUntil c)); [reflexivity|lia].
Qed.

Lemma NewsAPI_attempt query props c w :
  _rateLimitedUntil c <= clock w ->
  sent (snd (snd (NewsAPI_getNews query (VObj props) (c, w))))
  = (sent w ++ [NewsAPI_request c query (JS.lookup_prop "sortBy" props)
                  (JS.lookup_prop "pageSize" props) (JS.lookup_prop "language" props)])%list.
Proof.
  intros Hc. unfold NewsAPI_getNews.
  unfold bind at 1. unfold Date_now at 1. cbn [fst snd].
  unfold bind at 1. unfold this at 1. cbn [fst snd].
  destruct (Z.ltb_spec (clock w) (_rateLimitedUntil c)); [lia|].
  cbn [JS.get]. unfold bind at 1, lift at 1. unfold bind at 1, lift at 1.
  unfold bind at 1, lift at 1.
  rewrite one_request_sent; [reflexivity| |].
  - intros r. repeat sent_step.
  - intros e. repeat sent_step.
Qed.

(** C9. When the answer to a request of the primary news provider is
    not ok and its message tells of throttling (it contains, in lower
    case, [too many requests], [rate] or [limit]), [getNews] returns the
    empty list and sets [_rateLimitedUntil] to six hours after the
    arrival of the answer.  Every call before that instant returns the
    empty list, sends no request and changes nothing ([isRateLimited]
    says [true]); a call at or after that instant sends a request again. *)
Theorem throttling_starts_a_six_hour_cooldown (query : string)
    (props : list (string * JSValue)) (c : NewsAPIClient) (w : World)
    (resp : Response) (b st m : JSValue) :
  _rateLimitedUntil c <= clock w ->
  snd (net w (length (sent w))) = Respond resp ->
  body resp = Some b ->
  JS.get b "status" = Ok st ->
  is_ok st = false ->
  JS.get b "message" = Ok m ->
  signals_throttling m = true ->
  let arrival := clock w + Z.of_N (fst (net w (length (sent w)))) in
  exists c1 w1,
    NewsAPI_getNews query (VObj props) (c, w) = (Ok [], (c1, w1)) /\
    clock w1 = arrival /\
    _rateLimitedUntil c1 = arrival + 6 * 60 * 60 * 1000 /\
    (forall q o w2,
        clock w2 < _rateLimitedUntil c1 ->
        NewsAPI_getNews q o (c1, w2) = (Ok [], (c1, w2)) /\
        isRateLimited (c1, w2) = (Ok true, (c1, w2))) /\
    (forall q props' w2,
        _rateLimitedUntil c1 <= clock w2 ->
        sent (snd (snd (NewsAPI_getNews q (VObj props') (c1, w2))))
        = (sent w2 ++ [NewsAPI_request c1 q (JS.lookup_prop "sortBy" props')
                         (JS.lookup_prop "pageSize" props')
                         (JS.lookup_prop "language" props')])%list).
Proof.
  intros Hc Hr Hb Hst Hok Hm Hsig arrival.
  assert (exists c1,
            NewsAPI_getNews query (VObj props) (c, w)
            = (Ok [], (c1, advance w (fst (net w (length (sent w))))
                             (NewsAPI_request c query (JS.lookup_prop "sortBy" props)
                                (JS.lookup_prop "pageSize" props)
                                (JS.lookup_prop "language" props)))) /\
            _rateLimitedUntil c1 = arrival + 6 * 60 * 60 * 1000) as (c1 & E & Huntil).
  { unfold NewsAPI_getNews, fetch. nsimpl.
    destruct (Z.ltb_spec (clock w) (_rateLimitedUntil c)); [lia|].
    cbn [JS.get]. nsimpl. unfold arrival.
    destruct (net w (length (sent w))) as [d reply]. cbn [fst snd] in *. subst reply.
    nsimpl. rewrite Hb. nsimpl. rewrite Hst. nsimpl. rewrite Hok. nsimpl.
    rewrite Hm. nsimpl. rewrite Hsig. nsimpl.
    destruct (5 * 60 * 1000 <? clock w - _lastWarnAt c); nsimpl;
      (eexists; split; [reflexivity|reflexivity]). }
  eexists c1, _. split; [exact E|]. split; [reflexivity|]. split; [exact Huntil|].
  split.
  - intros q o w2 Hcool. split; [apply NewsAPI_cooling, Hcool|].
    unfold isRateLimited. nsimpl.
    destruct (Z.ltb_spec (clock w2) (_rateLimitedUntil c1)); [reflexivity|lia].
  - intros q props' w2 Hafter. apply NewsAPI_attempt, Hafter.
Qed.
End Cooldown.

(** *** Examples *)
Definition news_api : NewsAPIClient :=
  {| baseUrl := "https://newsapi.org/v2"; apiKey := VStr "demo";
     _rateLimitedUntil := 0; _lastWarnAt := 0 |}.

Example news_api_is_fresh : new_NewsAPIClient VUndef = Ok news_api.
Proof. reflexivity. Qed.

Definition throttled_body : JSValue :=
  VObj [("status", VStr "error"); ("code", VStr "rateLimited");
        ("message", VStr "You have made too many requests recently.")].

Definition throttled_reply : Reply :=
  Respond {| status := 429; statusText := "Too Many Requests"; body := Some throttled_body |}.

Lemma throttling_starts_a_six_hour_cooldown_witness :
  let w := Example.scripted [throttled_reply] in
  exists c1 w1,
    NewsAPI_getNews (H := Example.host) "AAPL" (VObj []) (news_api, w) = (Ok [], (c1, w1)) /\
    _rateLimitedUntil c1 = Example.new_year + 21600000 /\
    length (sent w1) = 1%nat /\
    (forall q o w2,
        clock w2 < Example.new_year + 21600000 ->
        NewsAPI_getNews (H := Example.host) q o (c1, w2) = (Ok [], (c1, w2))).
Proof.
  intros w.
  destruct (throttling_starts_a_six_hour_cooldown (H := Example.host) "AAPL" [] news_api w
              {| status := 429; statusText := "Too Many Requests"; body := Some throttled_body |}
              throttled_body (VStr "error")
              (VStr "You have made too many requests recently."))
    as (c1 & w1 & E & Hclock & Huntil & Hcool & _).
  - vm_compute. discriminate.
  - reflexivity.
  - reflexivity.
  - reflexivity.
  - reflexivity.
  - reflexivity.
  - vm_compute. reflexivity.
  - exists c1, w1. split; [exact E|]. split; [exact Huntil|].
    split.
    + vm_compute in E. injection E as <- <-. reflexivity.
    + intros q o w2 Hw2. apply Hcool. rewrite Huntil. exact Hw2.
Defined.

(** *** Searching news for a symbol *)

(** What the standard promises of [Array.prototype.sort]: the result
    holds the elements of the array, and for a consistent comparison
    function it is in the order the function gives -- here for the
    comparison functions that are the difference of an integer key,
    which are consistent.  For an inconsistent comparison function the
    order is left to the engine. *)
Definition engine_sorts `{Host} : Prop :=
  (forall (A : Type) (cmp : A -> A -> Z) (l : list A), Array_sort cmp l ≡ₚ l) /\
  (forall (A : Type) (cmp : A -> A -> Z) (key : A -> Z) (l : list A),
      (forall a b, a ∈ l -> b ∈ l -> cmp a b = key b - key a) ->
      StronglySorted (fun a b => key b <= key a) (Array_sort cmp l)).

Section SortFacts.
Context {A : Type} (cmp : A -> A -> Z).

Lemma sort_insert_permutation x l : Example.sort_insert cmp x l ≡ₚ x :: l.
Proof.
  induction l as [|z l IH]; cbn [Example.sort_insert]; [reflexivity|].
  destruct (cmp x z <=? 0); [reflexivity|].
  rewrite IH. apply Permutation_swap.
Qed.

Lemma insertion_sort_permutation l : Example.insertion_sort cmp l ≡ₚ l.
Proof.
  induction l as [|x l IH]; cbn [Example.insertion_sort fold_right]; [reflexivity|].
  fold (Example.insertion_sort cmp l). rewrite sort_insert_permutation, IH. reflexivity.
Qed.

(** With a comparison function that is the difference of a key, the
    result is in descending order of the key. *)
Context (key : A -> Z) (valid : A -> Prop).
Hypothesis cmp_key : forall a b, valid a -> valid b -> cmp a b = key b - key a.

Definition descending (a b : A) : Prop := key b <= key a.

Lemma sort_insert_descending x l :
  valid x -> Forall valid l ->
  StronglySorted descending l -> StronglySorted descending (Example.sort_insert cmp x l).
Proof.
  intros Hx Hl Hs. induction Hs as [|z l Hs IH Hz]; cbn [Example.sort_insert].
  - repeat constructor.
  - inversion Hl as [|? ? Hvz Hvl]; subst.
    rewrite (cmp_key x z Hx Hvz).
    destruct (Z.leb_spec (key z - key x) 0) as [Hle|Hgt].
    + constructor; [constructor; assumption|].
      constructor; [unfold descending; lia|].
      eapply Forall_impl; [exact Hz|]. unfold descending. cbn. intros; lia.
    + constructor; [apply IH, Hvl|].
      apply Forall_forall. intros y Hy.
      rewrite sort_insert_permutation in Hy. apply elem_of_cons in Hy as [->|Hy].
      * unfold descending. lia.
      * rewrite Forall_forall in Hz. apply Hz, Hy.
Qed.

Lemma insertion_sort_descending l :
  Forall valid l -> StronglySorted descending (Example.insertion_sort cmp l).
Proof.
  induction 1 as [|x l Hx Hl IH]; cbn [Example.insertion_sort fold_right]; [constructor|].
  fold (Example.insertion_sort cmp l). apply sort_insert_descending; [exact Hx| |exact IH].
  apply Forall_forall. intros y Hy. rewrite insertion_sort_permutation in Hy.
  rewrite Forall_forall in Hl. apply Hl, Hy.
Qed.

Lemma StronglySorted_take {R : A -> A -> Prop} n l :
  StronglySorted R l -> StronglySorted R (take n l).
Proof.
  intros Hs. revert n. induction Hs as [|x l Hs IH Hx]; intros [|n]; cbn [take]; try constructor.
  - apply IH.
  - apply Forall_take, Hx.
Qed.

Lemma StronglySorted_after {R : A -> A -> Prop} l1 x l2 :
  StronglySorted R (l1 ++ x :: l2) -> Forall (R x) l2.
Proof.
  induction l1 as [|y l1 IH]; cbn [app]; intros Hs; inversion Hs; subst; auto.
Qed.
End SortFacts.

(** The engine of the examples sorts as the standard asks. *)
Lemma example_engine_sorts : engine_sorts (H := Example.host).
Proof.
  split.
  - intros A cmp l. apply insertion_sort_permutation.
  - intros A cmp key l Hkey.
    apply (insertion_sort_descending cmp key (fun a => a ∈ l) Hkey).
    apply Forall_forall. auto.
Qed.

Section TitleFacts.

(** Later articles do not repeat the title of an earlier one. *)
Definition fresh_title (a b : Article) : Prop := same_value_zero (title b) (title a) = false.

Lemma unique_titles_elem_of seen l a : a ∈ unique_titles seen l -> a ∈ l.
Proof.
  revert seen. induction l as [|x l IH]; intros seen; cbn [unique_titles]; [auto|].
  destruct (existsb _ seen).
  - intros Ha. right. eapply IH, Ha.
  - intros Ha. apply elem_of_cons in Ha as [->|Ha]; [left|right; eapply IH, Ha].
Qed.

Lemma unique_titles_Forall (P : Article -> Prop) seen l :
  Forall P l -> Forall P (unique_titles seen l).
Proof.
  intros Hl. apply Forall_forall. intros a Ha. rewrite Forall_forall in Hl.
  eapply Hl, unique_titles_elem_of, Ha.
Qed.

Lemma unique_titles_sorted (R : Article -> Article -> Prop) seen l :
  StronglySorted R l -> StronglySorted R (unique_titles seen l).
Proof.
  intros Hs. revert seen. induction Hs as [|x l Hs IH Hx]; intros seen; cbn [unique_titles].
  - constructor.
  - destruct (existsb _ seen); [apply IH|].
    constructor; [apply IH|]. apply unique_titles_Forall, Hx.
Qed.

Lemma unique_titles_fresh l : forall seen,
  StronglySorted fresh_title (unique_titles seen l) /\
  Forall (fun b => Forall (fun t => same_value_zero (title b) t = false) seen)
         (unique_titles seen l).
Proof.
  induction l as [|x l IH]; intros seen; cbn [unique_titles].
  - split; constructor.
  - destruct (existsb (same_value_zero (title x)) seen) eqn:Hx; [apply IH|].
    destruct (IH (title x :: seen)) as [Hs Hf]. split.
    + constructor; [exact Hs|].
      eapply Forall_impl; [exact Hf|]. cbn. intros b Hb. inversion Hb; subst. assumption.
    + constructor.
      * apply Forall_forall. intros t Ht.
        destruct (same_value_zero (title x) t) eqn:E; [|reflexivity].
        assert (existsb (same_value_zero (title x)) seen = true) as Hex.
        { apply existsb_exists. exists t. split; [apply list_elem_of_In, Ht|exact E]. }
        congruence.
      * eapply Forall_impl; [exact Hf|]. cbn. intros b Hb. inversion Hb; subst. assumption.
Qed.

Lemma unique_titles_covers l : forall seen a,
  a ∈ l -> same_value_zero (title a) (title a) = true ->
  (exists b, b ∈ unique_titles seen l /\ same_value_zero (title a) (title b) = true) \/
  (exists t, t ∈ seen /\ same_value_zero (title a) t = true).
Proof.
  induction l as [|x l IH]; intros seen a Ha Hrefl; [inversion Ha|].
  cbn [unique_titles].
  destruct (existsb (same_value_zero (title x)) seen) eqn:Hx.
  - apply elem_of_cons in Ha as [->|Ha].
    + right. apply existsb_exists in Hx as (t & Ht & E). exists t.
      split; [apply list_elem_of_In, Ht|exact E].
    + apply IH; assumption.
  - apply elem_of_cons in Ha as [->|Ha].
    + left. exists x. split; [left|exact Hrefl].
    + destruct (IH (title x :: seen) a Ha Hrefl) as [(b & Hb & E)|(t & Ht & E)].
      * left. exists b. split; [right; exact Hb|exact E].
      * apply elem_of_cons in Ht as [->|Ht].
        -- left. exists x. split; [left|exact E].
        -- right. exists t. auto.
Qed.

(** A kept article is the first of its title. *)
Lemma unique_titles_first l : forall seen a,
  a ∈ unique_titles seen l ->
  same_value_zero (title a) (title a) = true ->
  exists l1 l2, l = (l1 ++ a :: l2)%list /\ Forall (fun x => title x <> title a) l1.
Proof.
  induction l as [|x l IH]; intros seen a Ha Hrefl; [inversion Ha|].
  cbn [unique_titles] in Ha.
  destruct (existsb (same_value_zero (title x)) seen) eqn:Hx.
  - destruct (IH seen a Ha Hrefl) as (l1 & l2 & -> & Hl1).
    exists (x :: l1), l2. split; [reflexivity|]. constructor; [|exact Hl1].
    intros Et. rewrite Et in Hx.
    destruct (unique_titles_fresh (l1 ++ a :: l2) seen) as [_ Hf].
    rewrite Forall_forall in Hf. specialize (Hf a Ha).
    apply existsb_exists in Hx as (t & Ht & E).
    rewrite Forall_forall in Hf. rewrite (Hf t) in E; [discriminate|].
    apply list_elem_of_In, Ht.
  - apply elem_of_cons in Ha as [->|Ha].
    + exists [], l. split; [reflexivity|constructor].
    + destruct (IH (title x :: seen) a Ha Hrefl) as (l1 & l2 & -> & Hl1).
      exists (x :: l1), l2. split; [reflexivity|]. constructor; [|exact Hl1].
      intros Et.
      destruct (unique_titles_fresh (l1 ++ a :: l2) (title x :: seen)) as [_ Hf].
      rewrite Forall_forall in Hf. specialize (Hf a Ha).
      inversion Hf as [|? ? Hax _]; subst. rewrite Et in Hax. congruence.
Qed.
End TitleFacts.

Section Search.
Context `{Host}.

(** The time of publication; 0 stands in for an invalid date. *)
Definition published_time (a : Article) : Z :=
  match JS.Date_getTime (publishedAt a) with
  | Some t => t
  | None => 0
  end.

Definition dated (a : Article) : Prop := is_Some (JS.Date_getTime (publishedAt a)).

Lemma sort_compare_dated a b :
  dated a -> dated b -> sort_compare a b = published_time b - published_time a.
Proof.
  unfold dated, sort_compare, compare_published, published_time.
  intros [ta ->] [tb ->]. reflexivity.
Qed.

Lemma fallback_tiers_succeeds cacheKey query options :
  succeeds (fallback_tiers cacheKey query options).
Proof.
  unfold fallback_tiers.
  repeat first [ apply succeeds_try_catch; intros | succeeds_step ].
Qed.

Lemma getNews_succeeds query options : succeeds (getNews query options).
Proof.
  unfold getNews.
  apply succeeds_bind; [apply succeeds_this|intros self].
  apply succeeds_bind; [apply succeeds_Date_now|intros t0].
  destruct (match JSMap.get _ (cache self) with Some _ => _ | None => _ end);
    [apply succeeds_ret|].
  apply succeeds_try_catch. intros e.
  repeat first [ apply fallback_tiers_succeeds | succeeds_step ].
Qed.

Lemma collect_in_sequence qs : forall acc s,
  exists rs s',
    mapM (fun q => getNews q search_options) qs s = (Ok rs, s') /\
    length rs = length qs /\
    collect qs acc s = (Ok (acc ++ concat rs)%list, s').
Proof.
  induction qs as [|q qs IH]; intros acc s; cbn [mapM collect].
  - exists [], s. cbn. rewrite app_nil_r. auto.
  - destruct (getNews_succeeds q search_options s) as [r Hr].
    destruct (getNews q search_options s) as [o s1] eqn:E. cbn [fst] in Hr. subst o.
    destruct (IH (acc ++ r)%list s1) as (rs & s' & Hm & Hl & Hc).
    exists (r :: rs), s'. unfold bind at 1. rewrite E. unfold bind at 1. rewrite Hm.
    split; [reflexivity|]. split; [cbn; congruence|].
    unfold bind at 1, try_catch at 1, bind at 1. rewrite E. unfold ret at 1.
    rewrite Hc. cbn [concat]. rewrite app_assoc. reflexivity.
Qed.

(** C8, as the code has it. [searchForStockNews] runs [getNews] for the
    five queries [symbol], [symbol stock], [symbol price], [symbol
    market], [symbol trading], one after the other, each from the state
    the one before left, and appends their results.  It sorts the
    collected articles by [publishedAt] with the engine's sort, then
    keeps of each title the first article in the sorted order, and
    returns the first 20 of those: at most 20 articles, no two with the
    same title.  With an engine that sorts as the standard asks, every
    article returned was collected, and when no more than 20 titles are
    distinct every collected title is in the result.  When, besides,
    every collected article has a valid date, the result is in
    descending order of [publishedAt] -- not strictly: articles
    published at the same instant under different titles all stay --
    and the article kept for a title is at least as recent as every
    collected article of that title.  (Titles are compared as a [Set]
    compares its members: exactly and with regard to case for strings;
    a title that is an object is equal to no title, and the last two
    statements are for the others.)  Where an article has no valid date
    the comparison function is inconsistent and the order is the
    engine's: nothing is said of it. *)
Theorem searchForStockNews_collects_sorts_and_dedups (sym : string)
    (c : NewsDataClient) (w : World) :
  queries sym = [sym; sym +:+ " stock"; sym +:+ " price"; sym +:+ " market";
                 sym +:+ " trading"] /\
  exists rs s',
    mapM (fun q => getNews q search_options) (queries sym) (c, w) = (Ok rs, s') /\
    length rs = 5%nat /\
    let collected := concat rs in
    let out := take 20 (unique_titles [] (Array_sort sort_compare collected)) in
    searchForStockNews sym (c, w) = (Ok out, s') /\
    (length out <= 20)%nat /\
    StronglySorted fresh_title out /\
    (engine_sorts ->
     (forall a, a ∈ out -> a ∈ collected) /\
     ((length (unique_titles [] (Array_sort sort_compare collected)) <= 20)%nat ->
      forall a, a ∈ collected -> same_value_zero (title a) (title a) = true ->
                exists b, b ∈ out /\ same_value_zero (title a) (title b) = true) /\
     (Forall dated collected ->
      StronglySorted (fun a b => published_time b <= published_time a) out /\
      forall a b, a ∈ out -> b ∈ collected ->
                  title b = title a -> same_value_zero (title a) (title a) = true ->
                  published_time b <= published_time a)).
Proof.
  split; [reflexivity|].
  destruct (collect_in_sequence (queries sym) [] (c, w)) as (rs & s' & Hm & Hl & Hc).
  exists rs, s'. split; [exact Hm|]. split; [exact Hl|].
  cbv zeta. cbn [app] in Hc.
  split; [|split; [|split]].
  - unfold searchForStockNews, most_recent_unique. unfold bind. rewrite Hc. reflexivity.
  - rewrite length_take. lia.
  - apply StronglySorted_take, unique_titles_fresh.
  - intros [Hperm Hsorted].
    assert (Hin : forall a, a ∈ take 20 (unique_titles []
                                 (Array_sort sort_compare (concat rs))) ->
                            a ∈ unique_titles [] (Array_sort sort_compare (concat rs))).
    { intros a Ha. apply elem_of_take in Ha as (i & Ha & _).
      apply list_elem_of_lookup_2 in Ha. exact Ha. }
    split; [|split].
    + intros a Ha. apply Hin, unique_titles_elem_of in Ha.
      rewrite Hperm in Ha. exact Ha.
    + intros Hfew a Ha Hrefl. rewrite take_ge by exact Hfew.
      destruct (unique_titles_covers (Array_sort sort_compare (concat rs)) [] a) as
        [Hb|(t & Ht & _)]; [rewrite Hperm; exact Ha|exact Hrefl|exact Hb|inversion Ht].
    + intros Hd.
      assert (Hs : StronglySorted (fun a b => published_time b <= published_time a)
                     (Array_sort sort_compare (concat rs))).
      { apply Hsorted. intros a b Ha Hb. rewrite Forall_forall in Hd.
        apply sort_compare_dated; auto. }
      split; [apply StronglySorted_take, unique_titles_sorted, Hs|].
      intros a b Ha Hb Et Hrefl. apply Hin in Ha.
      destruct (unique_titles_first _ _ _ Ha Hrefl) as (l1 & l2 & El & Hl1).
      rewrite <- (Hperm _ sort_compare (concat rs)), El in Hb.
      rewrite El in Hs. apply StronglySorted_after in Hs.
      apply elem_of_app in Hb as [Hb|Hb].
      * rewrite Forall_forall in Hl1. destruct (Hl1 b Hb Et).
      * apply elem_of_cons in Hb as [->|Hb]; [lia|].
        rewrite Forall_forall in Hs. apply Hs, Hb.
Qed.
End Search.

(** *** Examples *)
Definition news_client : NewsDataClient :=
  {| newsApi := news_api;
     currentApi := {| currents_baseUrl := "https://api.currentsapi.services/v1";
                      currents_apiKey := VStr "demo" |};
     cache := JSMap.empty;
     warned_at := 0 |}.

Example news_client_is_fresh : News.constructor VUndef = Ok news_client.
Proof. reflexivity. Qed.

Definition wire_article (headline published : string) : JSValue :=
  VObj [("source", VObj [("id", VNull); ("name", VStr "Wire")]);
        ("title", VStr headline);
        ("description", VStr "Shares of Apple moved today.");
        ("url", VStr "https://example.com/story");
        ("urlToImage", VNull);
        ("publishedAt", VStr published);
        ("content", VStr "Shares of Apple moved today.")].

Definition articles_reply (articles : list JSValue) : Reply :=
  Example.json_reply (VObj [("status", VStr "ok"); ("articles", VArr articles)]).

(** Two answers: a headline, and a day later the headline again with another. *)
Definition two_days : World :=
  Example.scripted
    [articles_reply [wire_article "Apple rises" "2024-01-01T00:00:00.000Z"];
     articles_reply [wire_article "Apple rises" "2024-01-02T00:00:00.000Z";
                     wire_article "Apple falls" "2024-01-01T00:00:00.000Z"]].

Lemma two_days_collected rs s' :
  mapM (fun q => getNews (H := Example.host) q search_options) (queries "AAPL")
    (news_client, two_days) = (Ok rs, s') ->
  Forall (dated (H := Example.host)) (concat rs) /\ length (concat rs) = 3%nat.
Proof.
  intros Hm. vm_compute in Hm. injection Hm as <- _. split; [|reflexivity].
  cbn [concat app].
  repeat (apply List.Forall_cons; [apply is_Some_alt; vm_compute; exact I|]).
  apply List.Forall_nil.
Qed.

Lemma searchForStockNews_collects_sorts_and_dedups_witness :
  exists out,
    fst (searchForStockNews (H := Example.host) "AAPL" (news_client, two_days)) = Ok out /\
    StronglySorted (fun a b => published_time (H := Example.host) b
                               <= published_time (H := Example.host) a) out /\
    (forall a, a ∈ out -> exists rs s',
        mapM (fun q => getNews (H := Example.host) q search_options) (queries "AAPL")
          (news_client, two_days) = (Ok rs, s') /\ a ∈ concat rs).
Proof.
  destruct (searchForStockNews_collects_sorts_and_dedups (H := Example.host) "AAPL"
              news_client two_days) as (_ & rs & s' & Hm & _ & Hout & _ & _ & Hengine).
  destruct (Hengine example_engine_sorts) as (Hfrom & _ & Hdated).
  destruct (Hdated (proj1 (two_days_collected rs s' Hm))) as [Hsorted _].
  eexists. split; [rewrite Hout; reflexivity|]. split; [exact Hsorted|].
  intros a Ha. exists rs, s'. split; [exact Hm|]. apply Hfrom, Ha.
Defined.

(** C8 as stated fails: two articles with different titles and the same
    time of publication both stay, so the order is not strict. *)
Lemma same_instant_articles_both_stay :
  let w := Example.scripted
             [articles_reply [wire_article "Apple rises" "2024-01-01T00:00:00.000Z";
                              wire_article "Apple falls" "2024-01-01T00:00:00.000Z"]] in
  exists a b,
    (searchForStockNews (H := Example.host) "AAPL" (news_client, w)).1 = Ok [a; b] /\
    title a = VStr "Apple rises" /\ title b = VStr "Apple falls" /\
    published_time (H := Example.host) a = published_time (H := Example.host) b /\
    ~ published_time (H := Example.host) b < published_time (H := Example.host) a.
Proof.
  intros w. eexists _, _. split; [vm_compute; reflexivity|].
  repeat split. vm_compute. discriminate.
Qed.

Example repeated_title_keeps_most_recent :
  let w := Example.scripted
             [articles_reply [wire_article "Apple rises" "2024-01-01T00:00:00.000Z"];
              articles_reply [wire_article "Apple rises" "2024-01-02T00:00:00.000Z";
                              wire_article "Apple falls" "2024-01-01T00:00:00.000Z"]] in
  List.map (fun a => (title a, publishedAt a))
    match (searchForStockNews (H := Example.host) "AAPL" (news_client, w)).1 with
    | Ok out => out
    | Throw _ => []
    end
  = [(VStr "Apple rises", VStr "2024-01-02T00:00:00.000Z");
     (VStr "Apple falls", VStr "2024-01-01T00:00:00.000Z")].
Proof. vm_compute. reflexivity. Qed.

End NewsFeed.

(* ===================================================================== *)
(** ** The gateway as a whole *)
(* ===================================================================== *)

#[local] Existing Instance NewsFeed.same_sent_refl.
#[local] Existing Instance NewsFeed.same_sent_trans.

Section Gateway.
Context `{Host}.

Lemma makeLLMCall_succeeds prompt t : succeeds (makeLLMCall prompt t).
Proof.
  unfold makeLLMCall.
  apply succeeds_bind; [apply succeeds_this|intros self].
  apply succeeds_if; [apply succeeds_ret|].
  apply succeeds_try_catch. intros e. repeat succeeds_step.
Qed.






End Gateway.

(** *** What every session keeps *)

(** The cache and its bound are as before. *)
Definition same_cache (s s' : LLMProcessor * World) : Prop :=
  cache (fst s') = cache (fst s) /\ maxCacheSize (fst s') = maxCacheSize (fst s).

#[local] Instance same_cache_refl : Reflexive same_cache.
Proof. intros s. unfold same_cache. tauto. Qed.

#[local] Instance same_cache_trans : Transitive same_cache.
Proof. intros a b c. unfold same_cache. intuition congruence. Qed.



Section Invariant.
Context `{Host}.












End Invariant.


(** *** [healthCheck] *)

Section Health.
Context `{Host}.

(** X4. With a key configured, [healthCheck] reports [healthy] whatever
    the endpoint answers, since [makeLLMCall] absorbs every failure.  On
    a gateway that was enabled, a check whose request fails disables the
    gateway and clears the key, so the next check reports [no_key]. *)
Theorem health_check_reports_healthy_whatever_the_answer (p : LLMProcessor) (w : World) :
  JS.truthy (apiKey p) = true ->
  exists p' w',
    healthCheck (p, w)
    = (Ok (VObj [("status", VStr "healthy");
                 ("responseTime", VNum (JS.num_of_Z (clock w')))]), (p', w')) /\
    (remoteDisabled p = false ->
     reply_fails (net w (length (sent w))).2 = true ->
     0 <= failureCount p ->
     remoteDisabled p' = true /\
     healthCheck (p', w')
     = (Ok (VObj [("status", VStr "no_key"); ("message", VStr "No API key configured")]),
        (p', w'))).
Proof.
  intros Hk. unfold healthCheck at 1. msimpl. rewrite Hk. msimpl.
  destruct (makeLLMCall_succeeds "Test connection" task_understanding (p, w)) as [r Hr].
  destruct (makeLLMCall _ _ (p, w)) as [[r1|e] [p1 w1]] eqn:Em; [|discriminate].
  msimpl. exists p1, w1. split; [reflexivity|].
  intros Hd Hf Hc.
  destruct (makeLLMCall_failure p w "Test connection" task_understanding Hk Hd)
    as (p2 & E & Hd2 & Hk2 & _); [right; auto|].
  rewrite E in Em. injection Em as _ <- <-.
  split; [exact Hd2|]. unfold healthCheck. msimpl. rewrite Hk2. reflexivity.
Qed.

End Health.

Lemma health_check_reports_healthy_whatever_the_answer_witness :
  exists p' w',
    healthCheck (H := Example.host) (keyed_gateway, Example.offline)
    = (Ok (VObj [("status", VStr "healthy");
                 ("responseTime", VNum (JS.num_of_Z Example.new_year))]), (p', w')) /\
    remoteDisabled p' = true /\
    length (sent w') = 1%nat /\
    healthCheck (H := Example.host) (p', w')
    = (Ok (VObj [("status", VStr "no_key"); ("message", VStr "No API key configured")]),
       (p', w')).
Proof.
  destruct (health_check_reports_healthy_whatever_the_answer (H := Example.host)
              keyed_gateway Example.offline) as (p' & w' & E & Hfail); [reflexivity|].
  destruct Hfail as [Hd Hnext]; [reflexivity|reflexivity|cbn; lia|].
  exists p', w'.
  assert (Hw : clock w' = Example.new_year /\ length (sent w') = 1%nat).
  { vm_compute in E. injection E as _ _ <-. split; reflexivity. }
  destruct Hw as [Hc Hs]. rewrite Hc in E. auto.
Defined.

(** *** Settings *)

Section Settings.
Context `{Host}.

(** X5. Without a configuration script, what [updateConfig] saves is
    what [initialize] restores: [updateConfig] stores the key it is
    given and the base URL and model when they are truthy, and a later
    [initialize] on any gateway takes over each saved setting that is
    truthy and keeps its own otherwise, leaving breaker, counter and
    cache alone. *)
Theorem saved_settings_are_restored (p : LLMProcessor) (w : World) (k u m : JSValue) :
  CONFIG w = VUndef ->
  exists p1 w1,
    updateConfig k u m (p, w) = (Ok tt, (p1, w1)) /\
    apiKey p1 = k /\
    baseUrl p1 = (if JS.truthy u then u else baseUrl p) /\
    model p1 = (if JS.truthy m then m else model p) /\
    forall q, exists q',
      initialize (q, w1) = (Ok tt, (q', w1)) /\
      apiKey q' = (if JS.truthy (apiKey p1) then apiKey p1 else apiKey q) /\
      baseUrl q' = (if JS.truthy (baseUrl p1) then baseUrl p1 else baseUrl q) /\
      model q' = (if JS.truthy (model p1) then model p1 else model q) /\
      remoteDisabled q' = remoteDisabled q /\
      failureCount q' = failureCount q /\
      cache q' = cache q.
Proof.
  intros Hc.
  set (p1 := (if JS.truthy m then set_model m else id)
               ((if JS.truthy u then set_baseUrl u else id) (set_apiKey k p))).
  set (w1 := {| clock := clock w; net := net w; sent := sent w;
                storage := VObj [("apiKey", apiKey p1); ("llmBaseUrl", baseUrl p1);
                                 ("llmModel", model p1)];
                CONFIG := CONFIG w |}).
  exists p1, w1. split; [|split; [|split; [|split]]].
  - unfold updateConfig, storage_set, p1, w1. msimpl.
    destruct (JS.truthy u), (JS.truthy m); msimpl; reflexivity.
  - unfold p1. destruct (JS.truthy u), (JS.truthy m); reflexivity.
  - unfold p1. destruct (JS.truthy u), (JS.truthy m); reflexivity.
  - unfold p1. destruct (JS.truthy u), (JS.truthy m); reflexivity.
  - intros q.
    assert (Hs : storage w1 = VObj [("apiKey", apiKey p1); ("llmBaseUrl", baseUrl p1);
                                    ("llmModel", model p1)]) by reflexivity.
    assert (Hc1 : CONFIG w1 = VUndef) by exact Hc.
    clearbody w1 p1.
    unfold initialize. msimpl. rewrite Hc1, Hs. msimpl.
    cbn [JS.truthy JS.get JS.lookup_prop String.eqb Ascii.eqb Bool.eqb]. msimpl.
    destruct (JS.truthy (apiKey p1)); msimpl;
      destruct (JS.truthy (baseUrl p1)); msimpl;
      destruct (JS.truthy (model p1)); msimpl;
      (eexists; split; [reflexivity|]); cbn; auto 10.
Qed.

End Settings.

(** A world without configuration script. *)
Lemma saved_settings_are_restored_witness :
  exists p1 w1 q',
    updateConfig (VStr "sk-live") VNull (VStr "grok-2")
      (constructor, Example.offline) = (Ok tt, (p1, w1)) /\
    initialize (constructor, w1) = (Ok tt, (q', w1)) /\
    apiKey q' = VStr "sk-live" /\
    baseUrl q' = VStr "https://api.openai.com/v1/chat/completions" /\
    model q' = VStr "grok-2".
Proof.
  destruct (saved_settings_are_restored constructor Example.offline
              (VStr "sk-live") VNull (VStr "grok-2"))
    as (p1 & w1 & E & Hk & Hu & Hm & Hrestore); [reflexivity|].
  destruct (Hrestore constructor) as (q' & Ei & Hk' & Hu' & Hm' & _).
  exists p1, w1, q'. split; [exact E|]. split; [exact Ei|].
  rewrite Hk', Hu', Hm', Hk, Hu, Hm. cbn. auto.
Defined.

Definition is_update (op : Op) : bool :=
  match op with UpdateConfig _ _ _ => true | _ => false end.

Section Hard.
Context `{Host}.

Lemma initialize_hard_coded p w cfg llm :
  CONFIG w = VObj cfg ->
  JS.truthy (JS.lookup_prop "USE_HARDCODED_CONFIG" cfg) = true ->
  JS.lookup_prop "LLM" cfg = VObj llm ->
  initialize (p, w)
  = (Ok tt,
     (set_model (js_or (JS.lookup_prop "model" llm) (model p))
        (set_baseUrl (js_or (JS.lookup_prop "baseUrl" llm) (baseUrl p))
           (set_apiKey (js_or (JS.lookup_prop "apiKey" llm) (apiKey p)) p)), w)).
Proof.
  intros Hc Hf Hl. unfold initialize. msimpl. rewrite Hc. msimpl.
  cbn [JS.get]. rewrite Hf. msimpl. rewrite Hl. cbn [JS.truthy JS.get]. msimpl.
  reflexivity.
Qed.

Lemma step_offline cfg llm op p w :
  CONFIG w = VObj cfg ->
  JS.truthy (JS.lookup_prop "USE_HARDCODED_CONFIG" cfg) = true ->
  JS.lookup_prop "LLM" cfg = VObj llm ->
  JS.truthy (JS.lookup_prop "apiKey" llm) = false ->
  is_update op = false ->
  JS.truthy (apiKey p) = false ->
  exists out p',
    step op (p, w) = (Ok out, (p', w)) /\ apiKey p' = apiKey p /\
    forall prompt t, op = Call prompt t -> out = fallbackProcessing t prompt.
Proof.
  intros Hc Hf Hl Hk Hop Hp. destruct op as [prompt t|k u m| |u]; cbn [step]; [| discriminate | |].
  - rewrite (makeLLMCall_no_key _ _ _ _ Hp). eexists _, p. split; [reflexivity|].
    split; [reflexivity|]. intros ? ? [= <- <-]. reflexivity.
  - unfold bind. rewrite (initialize_hard_coded p w cfg llm Hc Hf Hl).
    eexists _, _. split; [reflexivity|]. split; [|discriminate].
    cbn. unfold js_or. rewrite Hk. reflexivity.
  - unfold processTaskInput. msimpl.
    destruct (JSMap.get _ (cache p)).
    { eexists _, p. split; [reflexivity|]. split; [reflexivity|discriminate]. }
    rewrite (makeLLMCall_no_key _ _ _ _ Hp). msimpl.
    destruct (JS.truthy (fallbackProcessing _ _)); msimpl.
    + rewrite storeInCache_eq. msimpl. eexists _, _. split; [reflexivity|].
      split; [reflexivity|discriminate].
    + eexists _, p. split; [reflexivity|]. split; [reflexivity|discriminate].
Qed.

Lemma run_offline cfg llm w ops :
  CONFIG w = VObj cfg ->
  JS.truthy (JS.lookup_prop "USE_HARDCODED_CONFIG" cfg) = true ->
  JS.lookup_prop "LLM" cfg = VObj llm ->
  JS.truthy (JS.lookup_prop "apiKey" llm) = false ->
  forallb (fun op => negb (is_update op)) ops = true ->
  forall p, JS.truthy (apiKey p) = false ->
  exists outs p',
    run ops (p, w) = (Ok outs, (p', w)) /\ apiKey p' = apiKey p /\
    forall i prompt t, ops !! i = Some (Call prompt t) ->
                       outs !! i = Some (fallbackProcessing t prompt).
Proof.
  intros Hc Hf Hl Hk. induction ops as [|op ops IH]; intros Hops p Hp.
  - exists [], p. split; [reflexivity|]. split; [reflexivity|]. intros i ? ? Hi. discriminate.
  - cbn [forallb] in Hops. apply andb_prop in Hops as [Hop Hops].
    apply negb_true_iff in Hop.
    destruct (step_offline cfg llm op p w Hc Hf Hl Hk Hop Hp) as (out & p1 & E1 & Hk1 & Hout).
    destruct (IH Hops p1) as (outs & p2 & E2 & Hk2 & Houts); [rewrite Hk1; exact Hp|].
    exists (out :: outs), p2. split; [|split; [congruence|]].
    + unfold run in *. cbn [mapM]. unfold bind at 1. rewrite E1.
      unfold bind at 1. rewrite E2. reflexivity.
    + intros [|i] prompt t Hi; cbn in Hi |- *.
      * injection Hi as ->. f_equal. eauto.
      * eauto.
Qed.

(** X6. When the configuration script is loaded with
    [USE_HARDCODED_CONFIG] and an [LLM] group whose [apiKey] is empty
    (as in the script the repository ships), [initialize] never reads
    the saved settings: a fresh gateway stays without key, and in every
    session without [updateConfig] it sends no request and answers each
    call by the fallback routine, whatever was saved. *)
Theorem hard_coded_config_without_key_keeps_the_gateway_offline
    (cfg llm : list (string * JSValue)) (w : World) (ops : list Op) :
  CONFIG w = VObj cfg ->
  JS.truthy (JS.lookup_prop "USE_HARDCODED_CONFIG" cfg) = true ->
  JS.lookup_prop "LLM" cfg = VObj llm ->
  JS.truthy (JS.lookup_prop "apiKey" llm) = false ->
  forallb (fun op => negb (is_update op)) ops = true ->
  exists outs p,
    run (Initialize :: ops) (constructor, w) = (Ok outs, (p, w)) /\
    apiKey p = VNull /\
    forall i prompt t, ops !! i = Some (Call prompt t) ->
                       outs !! S i = Some (fallbackProcessing t prompt).
Proof.
  intros Hc Hf Hl Hk Hops.
  destruct (run_offline cfg llm w (Initialize :: ops) Hc Hf Hl Hk) with (p := constructor)
    as (outs & p & E & Hkey & Houts); [exact Hops|reflexivity|].
  exists outs, p. split; [exact E|]. split; [exact Hkey|].
  intros i prompt t Hi. apply (Houts (S i)). exact Hi.
Qed.

End Hard.

(** A world in which the shipped configuration is loaded and the user
    has saved a key. *)
Definition shipped_world : World :=
  {| clock := Example.new_year;
     net := fun _ => (0%N, NetworkError "Failed to fetch");
     sent := [];
     storage := VObj [("apiKey", VStr "sk-live")];
     CONFIG := shipped_CONFIG |}.

Lemma hard_coded_config_without_key_keeps_the_gateway_offline_witness :
  exists outs p,
    run (H := Example.host)
      [Initialize; Call "ping" condition_analysis; Initialize; Call "again" decision_making]
      (constructor, shipped_world) = (Ok outs, (p, shipped_world)) /\
    apiKey p = VNull /\
    outs !! 1%nat = Some (fallbackProcessing (H := Example.host) condition_analysis "ping") /\
    outs !! 3%nat = Some (fallbackProcessing (H := Example.host) decision_making "again").
Proof.
  destruct (hard_coded_config_without_key_keeps_the_gateway_offline (H := Example.host)
              [("USE_HARDCODED_CONFIG", VBool true);
               ("COUNTRY", VStr "IN");
               ("LLM", VObj [("baseUrl", VStr "https://api.x.ai/v1/chat/completions");
                             ("model", VStr "grok-beta");
                             ("apiKey", VStr "")]);
               ("STOCK", VObj [("alphaVantageKey", VStr "demo"); ("finnhubKey", VStr "")]);
               ("NEWS", VObj [("newsApiKey", VStr ""); ("currentsApiKey", VStr "")]);
               ("TELEGRAM", VObj [("botToken", VStr ""); ("chatId", VStr "")])]
              [("baseUrl", VStr "https://api.x.ai/v1/chat/completions");
               ("model", VStr "grok-beta");
               ("apiKey", VStr "")]
              shipped_world
              [Call "ping" condition_analysis; Initialize; Call "again" decision_making])
    as (outs & p & E & Hk & Houts); try reflexivity.
  exists outs, p. split; [exact E|]. split; [exact Hk|].
  split; [apply (Houts 0%nat)|apply (Houts 2%nat)]; reflexivity.
Defined.

(** *** [interpretMarketData] *)

Section Market.
Context `{Host}.

Lemma get_raises_TypeError v k e : JS.get v k = Throw e -> exists msg, e = TypeError msg.
Proof. destruct v; cbn; intros [= <-]; eauto. Qed.

Lemma news_line_needs_description a :
  (forall d, JS.get a "description" <> Ok (VStr d)) ->
  exists msg, news_line a = Throw (TypeError msg).
Proof.
  intros Hd. unfold news_line.
  destruct (JS.get a "title") as [t|e] eqn:Et.
  - destruct (JS.get a "description") as [[| | | |d| |]|e] eqn:Ed; eauto.
    + exfalso. apply (Hd d). reflexivity.
    + destruct (get_raises_TypeError _ _ _ Ed) as [msg ->]. eauto.
  - destruct (get_raises_TypeError _ _ _ Et) as [msg ->]. eauto.
Qed.

Lemma news_line_raises_TypeError a e : news_line a = Throw e -> exists msg, e = TypeError msg.
Proof.
  unfold news_line.
  destruct (JS.get a "title") as [t|e1] eqn:Et.
  - destruct (JS.get a "description") as [[| | | |d| |]|e2] eqn:Ed; intros [= <-]; eauto.
    apply (get_raises_TypeError _ _ _ Ed).
  - intros [= <-]. apply (get_raises_TypeError _ _ _ Et).
Qed.

Lemma news_lines_raise l : forall i a,
  l !! i = Some a ->
  (forall d, JS.get a "description" <> Ok (VStr d)) ->
  exists msg, news_lines l = Throw (TypeError msg).
Proof.
  induction l as [|b l IH]; intros i a Hi Ha; [discriminate|].
  cbn [news_lines]. destruct (news_line b) as [line|e] eqn:Eb.
  - destruct i as [|i]; cbn in Hi.
    + injection Hi as ->. destruct (news_line_needs_description a Ha) as [msg E]. congruence.
    + destruct (IH i a Hi Ha) as [msg ->]. eauto.
  - destruct (news_line_raises_TypeError _ _ Eb) as [msg ->]. eauto.
Qed.

(** X7. [interpretMarketData] raises a [TypeError], before any request
    and without touching the gateway, when one of the first five
    articles of the news context has no string as [description] (a
    missing or [null] description, for one). *)
Theorem interpretMarketData_rejects_an_article_without_description
    (symbol data : JSValue) (articles : list JSValue) (i : nat) (article : JSValue)
    (p : LLMProcessor) (w : World) :
  articles !! i = Some article ->
  (i < 5)%nat ->
  (forall d, JS.get article "description" <> Ok (VStr d)) ->
  exists msg,
    interpretMarketData symbol data (VArr articles) (p, w) = (Throw (TypeError msg), (p, w)).
Proof.
  intros Hi Hlt Hd.
  destruct (news_lines_raise (take 5 articles) i article) as [msg E]; [|exact Hd|].
  { rewrite lookup_take_lt by exact Hlt. exact Hi. }
  exists msg. unfold interpretMarketData, buildMarketDataPrompt. rewrite E. reflexivity.
Qed.

(** X8. On a gateway without key or disabled, the analysis
    [interpretMarketData] returns does not depend on the data: it is the
    fixed answer of the fallback routine (neutral, stable, medium).
    Nothing is sent and the gateway is untouched; only [confidence] is
    computed from the data. *)
Theorem offline_market_analysis_ignores_the_data
    (symbol data newsContext : JSValue) (p : LLMProcessor) (w : World)
    (r : JSValue) (s' : LLMProcessor * World) :
  JS.truthy (apiKey p) = false \/ remoteDisabled p = true ->
  interpretMarketData symbol data newsContext (p, w) = (Ok r, s') ->
  s' = (p, w) /\
  exists confidence,
    calculateConfidenceScore (clock w) data = Ok confidence /\
    r = VObj [("symbol", symbol);
              ("analysis",
               VObj [("sentiment", VStr "neutral");
                     ("trend", VStr "stable");
                     ("riskLevel", VStr "medium");
                     ("recommendations", VArr [VStr "Continue monitoring"]);
                     ("fallback", VBool true)]);
              ("timestamp", VNum (JS.num_of_Z (clock w)));
              ("confidence", VNum confidence)].
Proof.
  intros Hoff. unfold interpretMarketData. msimpl.
  destruct (buildMarketDataPrompt _ _ _) as [prompt|e]; [|discriminate].
  assert (E : makeLLMCall prompt data_interpretation (p, w)
              = (Ok (fallbackProcessing data_interpretation prompt), (p, w))).
  { destruct Hoff as [Hk|Hd]; [apply makeLLMCall_no_key|apply makeLLMCall_disabled]; assumption. }
  rewrite E. msimpl. cbn [fallbackProcessing fallbackDataInterpretation JS.truthy]. msimpl.
  destruct (calculateConfidenceScore (clock w) data) as [c|e]; [|discriminate].
  intros [= <- <-]. split; [reflexivity|]. exists c. split; reflexivity.
Qed.

(** X9. [getDefaultMarketAnalysis] is used only when the remote model
    answered and its answer decodes to a falsy value: then
    [interpretMarketData] returns the default analysis, after one
    request, with the gateway as it was. *)
Theorem default_market_analysis_replaces_a_falsy_answer
    (symbol data newsContext : JSValue) (p : LLMProcessor) (w : World)
    (resp : Response) (v : JSValue) (prompt : string) (confidence : float) :
  JS.truthy (apiKey p) = true -> remoteDisabled p = false ->
  snd (net w (length (sent w))) = Respond resp -> ok resp = true -> body resp = Some v ->
  let arrival := clock w + Z.of_N (fst (net w (length (sent w)))) in
  JS.truthy (parseLLMResponse arrival v) = false ->
  buildMarketDataPrompt symbol data
    (match newsContext with VUndef => VArr [] | _ => newsContext end) = Ok prompt ->
  calculateConfidenceScore arrival data = Ok confidence ->
  exists analysis w',
    getDefaultMarketAnalysis data = Ok analysis /\
    interpretMarketData symbol data newsContext (p, w)
    = (Ok (VObj [("symbol", symbol);
                 ("analysis", analysis);
                 ("timestamp", VNum (JS.num_of_Z arrival));
                 ("confidence", VNum confidence)]), (p, w')) /\
    sent w' = (sent w ++ [completion_request p prompt data_interpretation])%list.
Proof.
  intros Hk Hd Hr Hok Hb arrival Hfalsy Hprompt Hconf.
  assert (Hdata : exists analysis, getDefaultMarketAnalysis data = Ok analysis).
  { unfold getDefaultMarketAnalysis.
    unfold buildMarketDataPrompt in Hprompt.
    destruct (match newsContext with VUndef => VArr [] | _ => newsContext end);
      try discriminate.
    destruct (news_lines _); [|discriminate].
    destruct (JS.get data "price"); [|discriminate].
    destruct (JS.get data "change"); [|discriminate].
    destruct (JS.get data "changePercent"); [|destruct (JS.get data "volume"); discriminate].
    eexists. reflexivity. }
  destruct Hdata as [analysis Ha]. exists analysis. eexists. split; [exact Ha|].
  unfold interpretMarketData. rewrite Hprompt. msimpl.
  rewrite (makeLLMCall_success p w prompt data_interpretation resp v Hk Hd Hr Hok Hb).
  fold arrival. msimpl. rewrite Hfalsy. msimpl. rewrite Ha. msimpl.
  cbn [clock advance]. fold arrival. rewrite Hconf. msimpl.
  split; reflexivity.
Qed.

End Market.

Lemma interpretMarketData_rejects_an_article_without_description_witness :
  exists msg,
    interpretMarketData (H := Example.host) (VStr "AAPL") full_quote
      (VArr [VObj [("title", VStr "Apple rises")]]) (keyed_gateway, chatty)
    = (Throw (TypeError msg), (keyed_gateway, chatty)).
Proof.
  apply (interpretMarketData_rejects_an_article_without_description (H := Example.host)
           (VStr "AAPL") full_quote [VObj [("title", VStr "Apple rises")]] 0
           (VObj [("title", VStr "Apple rises")])).
  - reflexivity.
  - lia.
  - intros d. cbn. discriminate.
Defined.

Lemma offline_market_analysis_ignores_the_data_witness :
  exists confidence analysis,
    interpretMarketData (H := Example.host) (VStr "AAPL") full_quote VUndef
      (constructor, Example.offline)
    = (Ok (VObj [("symbol", VStr "AAPL");
                 ("analysis", analysis);
                 ("timestamp", VNum (JS.num_of_Z Example.new_year));
                 ("confidence", VNum confidence)]), (constructor, Example.offline)) /\
    JS.get analysis "sentiment" = Ok (VStr "neutral").
Proof.
  destruct (interpretMarketData (H := Example.host) (VStr "AAPL") full_quote VUndef
              (constructor, Example.offline)) as [[r|e] s'] eqn:E;
    [|vm_compute in E; discriminate E].
  destruct (offline_market_analysis_ignores_the_data (H := Example.host) (VStr "AAPL")
              full_quote VUndef constructor Example.offline r s' (or_introl eq_refl) E)
    as (-> & confidence & _ & ->).
  eexists confidence, _. split; reflexivity.
Defined.

(** A world whose first answer is a completion that is the JSON text [null]. *)
Definition laconic : World :=
  Example.scripted [Example.json_reply (completion (VStr "null"))].

Lemma default_market_analysis_replaces_a_falsy_answer_witness :
  exists analysis confidence w',
    interpretMarketData (H := Example.host) (VStr "AAPL") full_quote VUndef
      (keyed_gateway, laconic)
    = (Ok (VObj [("symbol", VStr "AAPL");
                 ("analysis", analysis);
                 ("timestamp", VNum (JS.num_of_Z Example.new_year));
                 ("confidence", VNum confidence)]), (keyed_gateway, w')) /\
    JS.get analysis "sentiment" = Ok (VStr "neutral") /\
    JS.get analysis "confidence" = Ok (VNum 0.6) /\
    length (sent w') = 1%nat.
Proof.
  destruct (buildMarketDataPrompt (H := Example.host) (VStr "AAPL") full_quote (VArr []))
    as [prompt|e] eqn:Ep; [|vm_compute in Ep; discriminate Ep].
  destruct (calculateConfidenceScore (H := Example.host) Example.new_year full_quote)
    as [confidence|e] eqn:Ec; [|vm_compute in Ec; discriminate Ec].
  destruct (default_market_analysis_replaces_a_falsy_answer (H := Example.host)
              (VStr "AAPL") full_quote VUndef keyed_gateway laconic
              {| status := 200; statusText := "OK"; body := Some (completion (VStr "null")) |}
              (completion (VStr "null")) prompt confidence)
    as (analysis & w' & Ha & E & Hs); try reflexivity; try assumption.
  exists analysis, confidence, w'. split; [exact E|].
  vm_compute in Ha. injection Ha as <-.
  split; [reflexivity|]. split; [reflexivity|]. rewrite Hs. reflexivity.
Defined.

(** *** The fallback routine for task understanding *)

Section Symbols.
Context `{Host}.

(* the word JSON *)
Lemma includes_app_r t s1 s2 : JS.includes t s2 = true -> JS.includes t (s1 +:+ s2) = true.
Proof.
  intros Hs. induction s1 as [|c s1 IH]; [exact Hs|].
  change (JS.includes t (String c s1 +:+ s2))
    with (String.prefix t (String c (s1 +:+ s2)) || JS.includes t (s1 +:+ s2)).
  rewrite IH. apply orb_true_r.
Qed.

Lemma prompt_names_JSON userInput :
  JS.includes " JSON " (buildTaskAnalysisPrompt userInput) = true.
Proof.
  unfold buildTaskAnalysisPrompt.
  do 4 apply includes_app_r. vm_compute. reflexivity.
Qed.

(** X10. The fallback routine of [processTaskInput] is run on the
    prompt, not on the user's input, and the prompt ends with [Return as
    JSON with the extracted information.]  So when the pattern of ticker
    symbols finds a match in every text that holds the word [JSON]
    between spaces (as a regular expression engine does), an input that
    is not cached is classified [stock_monitor] whatever it says, on a
    gateway without key or disabled. *)
Theorem rule_based_task_analysis_always_finds_a_symbol (userInput : string)
    (p : LLMProcessor) (w : World) :
  (forall s, JS.includes " JSON " s = true -> RegExp_matchAll "\b[A-Z]{2,5}\b" "g" s <> []) ->
  JS.truthy (apiKey p) = false \/ remoteDisabled p = true ->
  JSMap.get ("task_input_" +:+ userInput) (cache p) = None ->
  exists r s',
    processTaskInput userInput (p, w) = (Ok r, s') /\
    JS.get r "taskType" = Ok (VStr "stock_monitor").
Proof.
  intros Hre Hoff Hmiss. unfold processTaskInput. msimpl. rewrite Hmiss.
  assert (E : makeLLMCall (buildTaskAnalysisPrompt userInput) task_understanding (p, w)
              = (Ok (fallbackProcessing task_understanding (buildTaskAnalysisPrompt userInput)),
                 (p, w))).
  { destruct Hoff as [Hk|Hd]; [apply makeLLMCall_no_key|apply makeLLMCall_disabled]; assumption. }
  rewrite E. msimpl.
  cbn [fallbackProcessing]. unfold fallbackTaskUnderstanding.
  specialize (Hre _ (prompt_names_JSON userInput)).
  destruct (RegExp_matchAll "\b[A-Z]{2,5}\b" "g" (buildTaskAnalysisPrompt userInput))
    as [|m ms]; [congruence|].
  cbn [JS.truthy]. msimpl. rewrite storeInCache_eq. msimpl.
  eexists _, _. split; [reflexivity|]. reflexivity.
Qed.

End Symbols.

Lemma rule_based_task_analysis_always_finds_a_symbol_witness :
  exists r s',
    processTaskInput (H := thorough_host) "tell me when rain stops"
      (constructor, Example.offline) = (Ok r, s') /\
    JS.get r "taskType" = Ok (VStr "stock_monitor").
Proof.
  apply (rule_based_task_analysis_always_finds_a_symbol (H := thorough_host)).
  - intros s Hs. cbn. rewrite Hs. discriminate.
  - left. reflexivity.
  - reflexivity.
Defined.

(* ===================================================================== *)
(** ** The caches of the clients *)
(* ===================================================================== *)

Module StockCache.
Import Stock.

Section Quotes.
Context `{Host}.





End Quotes.
End StockCache.


Lemma configured_key_truthy config group key v :
  configured_key config group key = Ok v -> JS.truthy v = true.
Proof.
  unfold configured_key.
  assert (Hd : JS.truthy (VStr "demo") = true) by reflexivity.
  destruct config; try (intros [= <-]; exact Hd);
    (destruct (JS.get _ "USE_HARDCODED_CONFIG") as [flag|e]; [|discriminate];
     destruct (JS.truthy flag); [|intros [= <-]; exact Hd];
     destruct (JS.get _ group) as [g|e]; [|discriminate];
     match goal with
     | |- Ok (if JS.truthy ?k then _ else _) = _ -> _ =>
         destruct (JS.truthy k) eqn:Ek; intros [= <-]; [exact Ek|exact Hd]
     end).
Qed.

Lemma configured_key_default config group key :
  config = VUndef \/
  (exists flag, JS.get config "USE_HARDCODED_CONFIG" = Ok flag /\ JS.truthy flag = false) ->
  configured_key config group key = Ok (VStr "demo").
Proof.
  intros [->|(flag & Hf & Ht)]; [reflexivity|].
  unfold configured_key. rewrite Hf, Ht. destruct config; reflexivity.
Qed.

(** X12. No provider is ever built with an empty key: the key of the
    two stock providers that take one and of the two news providers is
    truthy whenever the client could be built, and it is [demo] when
    there is no configuration script or [USE_HARDCODED_CONFIG] is off. *)
Theorem provider_keys_are_never_empty (config : JSValue) :
  (forall c, Stock.constructor config = Ok c ->
     JS.truthy (Stock.apiKey (Stock.alphaVantage (Stock.clients c))) = true /\
     JS.truthy (Stock.apiKey (Stock.finhub (Stock.clients c))) = true) /\
  (forall c, News.constructor config = Ok c ->
     JS.truthy (News.apiKey (News.newsApi c)) = true /\
     JS.truthy (News.currents_apiKey (News.currentApi c)) = true) /\
  (config = VUndef \/
   (exists flag, JS.get config "USE_HARDCODED_CONFIG" = Ok flag /\ JS.truthy flag = false) ->
   exists s n,
     Stock.constructor config = Ok s /\ News.constructor config = Ok n /\
     Stock.apiKey (Stock.alphaVantage (Stock.clients s)) = VStr "demo" /\
     Stock.apiKey (Stock.finhub (Stock.clients s)) = VStr "demo" /\
     News.apiKey (News.newsApi n) = VStr "demo" /\
     News.currents_apiKey (News.currentApi n) = VStr "demo").
Proof.
  split; [|split].
  - intros c. unfold Stock.constructor, Stock.new_AlphaVantageAPI, Stock.new_FinnhubAPI.
    destruct (configured_key config "STOCK" "alphaVantageKey") as [k1|e] eqn:E1; [|discriminate].
    destruct (configured_key config "STOCK" "finnhubKey") as [k2|e] eqn:E2; [|discriminate].
    intros [= <-]. cbn. split; eapply configured_key_truthy; eassumption.
  - intros c. unfold News.constructor, News.new_NewsAPIClient, News.new_CurrentNewsAPIClient.
    destruct (configured_key config "NEWS" "newsApiKey") as [k1|e] eqn:E1; [|discriminate].
    destruct (configured_key config "NEWS" "currentsApiKey") as [k2|e] eqn:E2; [|discriminate].
    intros [= <-]. cbn. split; eapply configured_key_truthy; eassumption.
  - intros Hc.
    unfold Stock.constructor, Stock.new_AlphaVantageAPI, Stock.new_FinnhubAPI,
      News.constructor, News.new_NewsAPIClient, News.new_CurrentNewsAPIClient.
    rewrite !(configured_key_default _ _ _ Hc).
    eexists _, _. repeat split.
Qed.

Module NewsCache.
Import News.

Section Caching.
Context `{Host}.

Lemma getNews_cached query options c w e :
  JSMap.get ("news_" +:+ query +:+ "_" +:+ JSON_stringify options) (cache c) = Some e ->
  clock w - cached_at e < 300000 ->
  getNews query options (c, w) = (Ok (data e), (c, w)).
Proof.
  intros Hg Hage. unfold getNews.
  unfold bind at 1, this at 1. cbn [fst snd]. unfold bind at 1, Date_now at 1. cbn [fst snd].
  rewrite Hg. destruct (Z.ltb_spec (clock w - cached_at e) 300000); [reflexivity|lia].
Qed.

(** X13. What [getNews] returned for a query that was not freshly
    cached -- the articles of whichever provider answered, or the empty
    list when none did -- is served again to every call with the same
    query and options made less than 5 minutes (300000 ms) after that
    call ended: the same list, no request, nothing changed. *)
Theorem news_result_is_served_from_the_cache_for_five_minutes (query : string)
    (options : JSValue) (c : NewsDataClient) (w : World)
    (articles : list Article) (c' : NewsDataClient) (w' : World) :
  (forall e, JSMap.get ("news_" +:+ query +:+ "_" +:+ JSON_stringify options) (cache c) = Some e ->
             300000 <= clock w - cached_at e) ->
  getNews query options (c, w) = (Ok articles, (c', w')) ->
  forall w2, clock w2 - clock w' < 300000 ->
             getNews query options (c', w2) = (Ok articles, (c', w2)).
Proof.
  intros Hmiss E w2 Hage.
  pose proof (getNews_miss_stores_result query options c w Hmiss) as Hc.
  rewrite E in Hc. cbn [fst snd] in Hc.
  apply (getNews_cached query options c' w2 {| data := articles; cached_at := clock w' |});
    [rewrite Hc; apply get_set_same|exact Hage].
Qed.

End Caching.
End NewsCache.

Module NewsCacheExample.
Import News.

Lemma news_result_is_served_from_the_cache_for_five_minutes_witness :
  let w := Example.scripted
             [NewsFeed.articles_reply
                [NewsFeed.wire_article "Apple rises" "2024-01-01T00:00:00.000Z"]] in
  exists a c' w',
    getNews (H := Example.host) "AAPL" search_options (NewsFeed.news_client, w)
    = (Ok [a], (c', w')) /\
    title a = VStr "Apple rises" /\
    forall w2, clock w2 - Example.new_year < 300000 ->
               getNews (H := Example.host) "AAPL" search_options (c', w2) = (Ok [a], (c', w2)).
Proof.
  intros w.
  destruct (getNews (H := Example.host) "AAPL" search_options (NewsFeed.news_client, w))
    as [[articles|e] [c' w']] eqn:E; [|vm_compute in E; discriminate E].
  assert (Hrepeat := NewsCache.news_result_is_served_from_the_cache_for_five_minutes
                       (H := Example.host) "AAPL" search_options NewsFeed.news_client w
                       articles c' w').
  assert (Hshape : exists a, articles = [a] /\ title a = VStr "Apple rises" /\
                             clock w' = Example.new_year).
  { vm_compute in E. injection E as <- _ <-. eexists. split; [reflexivity|]. split; reflexivity. }
  destruct Hshape as (a & -> & Ht & Hc).
  exists a, c', w'. split; [reflexivity|]. split; [exact Ht|].
  intros w2 Hage. apply Hrepeat.
  - intros e He. discriminate He.
  - exact E.
  - rewrite Hc. exact Hage.
Defined.

End NewsCacheExample.

(* ===================================================================== *)
(** ** The tiers of the news client *)
(* ===================================================================== *)

Module NewsTiers.
Import News.

(** The deadline of the cooldown is as before. *)
Definition same_deadline (s s' : NewsAPIClient * World) : Prop :=
  _rateLimitedUntil (fst s') = _rateLimitedUntil (fst s).

#[local] Instance same_deadline_refl : Reflexive same_deadline.
Proof. intros s. reflexivity. Qed.
#[local] Instance same_deadline_trans : Transitive same_deadline.
Proof. intros a b c. unfold same_deadline. congruence. Qed.

Ltac deadline_step :=
  first [ apply StockChain.stable_json
        | apply stable_mapM; [| |intros]
        | stable_step
        | apply stable_modify; intros; reflexivity
        | match goal with
          | |- stable _ (match ?x with _ => _ end) => destruct x
          end ].

Ltac news_simpl :=
  mstep_with
    ltac:(cbn beta iota zeta delta
            [fst snd negb orb andb length Z.of_nat Z.eqb
             baseUrl apiKey _rateLimitedUntil _lastWarnAt set_rateLimitedUntil set_lastWarnAt
             newsApi currentApi cache warned_at set_newsApi set_cache set_warned_at
             clock net sent storage CONFIG advance]).

Section Tiers.
Context `{Host}.

(** X14. Only a throttling answer starts the cooldown of the primary
    news provider: [NewsAPIClient.getNews] leaves [_rateLimitedUntil] as
    it was unless the answer to its request is a body whose status is
    not [ok] and whose message tells of throttling.  A network failure,
    a body that is not JSON, another error message and a success all
    leave it alone. *)
Theorem cooldown_starts_only_on_a_throttling_answer (query : string) (options : JSValue)
    (c : NewsAPIClient) (w : World) :
  _rateLimitedUntil (fst (snd (NewsAPI_getNews query options (c, w)))) = _rateLimitedUntil c \/
  exists resp b st m,
    snd (net w (length (sent w))) = Respond resp /\
    body resp = Some b /\
    JS.get b "status" = Ok st /\ is_ok st = false /\
    JS.get b "message" = Ok m /\ signals_throttling m = true.
Proof.
  unfold NewsAPI_getNews. NewsFeed.nsimpl.
  destruct (clock w <? _rateLimitedUntil c); [left; reflexivity|].
  destruct (JS.get options "sortBy") as [sortBy|e]; NewsFeed.nsimpl; [|left; reflexivity].
  destruct (JS.get options "pageSize") as [pageSize|e]; NewsFeed.nsimpl; [|left; reflexivity].
  destruct (JS.get options "language") as [language|e]; NewsFeed.nsimpl; [|left; reflexivity].
  unfold fetch. NewsFeed.nsimpl.
  destruct (net w (length (sent w))) as [d [msg|resp]]; NewsFeed.nsimpl.
  { left. destruct (_ <? _); reflexivity. }
  destruct (body resp) as [b|] eqn:Eb; NewsFeed.nsimpl.
  2:{ left. destruct (_ <? _); reflexivity. }
  destruct (JS.get b "status") as [st|e] eqn:Est; NewsFeed.nsimpl.
  2:{ left. destruct (_ <? _); reflexivity. }
  destruct (is_ok st) eqn:Eok; NewsFeed.nsimpl.
  - left.
    destruct (JS.get b "articles") as [articles|e]; NewsFeed.nsimpl.
    2:{ destruct (_ <? _); reflexivity. }
    set (s1 := (c, advance w d _)).
    assert (Hm : forall l, stable same_deadline
              (mapM (S := NewsAPIClient * World) (fun a => lift (NewsAPI_article a)) l)).
    { intros l. repeat deadline_step. }
    destruct articles as [| | | | |l|]; NewsFeed.nsimpl;
      try (destruct (_ <? _); reflexivity).
    specialize (Hm l s1). unfold same_deadline in Hm.
    destruct (mapM _ l s1) as [[a|e] [c1 w1]]; cbn [fst snd] in *.
    + exact Hm.
    + destruct (_ <? _); cbn; exact Hm.
  - destruct (JS.get b "message") as [m|e] eqn:Em; NewsFeed.nsimpl.
    2:{ left. destruct (_ <? _); reflexivity. }
    destruct (signals_throttling m) eqn:Es; NewsFeed.nsimpl.
    + right. exists resp, b, st, m. auto 10.
    + left. destruct (_ <? _); reflexivity.
Qed.

(** X15. When the primary news provider cannot be reached (the request
    fails at the network, or the answer is not JSON) and no cooldown is
    running, [getNews] returns the empty list after that one request:
    the secondary provider and the feed are not consulted, and the empty
    list is cached under the key of the query. *)
Theorem unreachable_primary_provider_gives_no_news (query : string)
    (props : list (string * JSValue)) (c : NewsDataClient) (w : World) :
  let key := "news_" +:+ query +:+ "_" +:+ JSON_stringify (VObj props) in
  (forall e, JSMap.get key (cache c) = Some e -> 300000 <= clock w - cached_at e) ->
  _rateLimitedUntil (newsApi c) <= clock w ->
  match snd (net w (length (sent w))) with
  | NetworkError _ => True
  | Respond r => body r = None
  end ->
  exists c' w',
    getNews query (VObj props) (c, w) = (Ok [], (c', w')) /\
    sent w' = (sent w ++ [NewsAPI_request (newsApi c) query (JS.lookup_prop "sortBy" props)
                            (JS.lookup_prop "pageSize" props)
                            (JS.lookup_prop "language" props)])%list /\
    JSMap.get key (cache c') = Some {| data := []; cached_at := clock w' |}.
Proof.
  intros key Hmiss Hcool Hdown.
  unfold getNews. fold key. news_simpl.
  destruct (JSMap.get key (cache c)) as [e|] eqn:Eg;
    [specialize (Hmiss e eq_refl);
     destruct (Z.ltb_spec (clock w - cached_at e) 300000); [lia|] |].
  all: unfold zoom, NewsAPI_getNews, isRateLimited, fetch; news_simpl.
  all: destruct (Z.ltb_spec (clock w) (_rateLimitedUntil (newsApi c))); [lia|].
  all: cbn [JS.get]; news_simpl.
  all: destruct (net w (length (sent w))) as [d reply]; cbn [snd] in Hdown.
  all: destruct reply as [msg|resp]; news_simpl; try rewrite Hdown; news_simpl.
  all: destruct (5 * 60 * 1000 <? clock w + Z.of_N d - _lastWarnAt (newsApi c)); news_simpl.
  all: change (Z.of_nat 0 =? 0) with true; news_simpl.
  all: destruct (Z.ltb_spec (clock w + Z.of_N d) (_rateLimitedUntil (newsApi c))); [lia|].
  all: news_simpl; eexists _, _; (split; [reflexivity|]); (split; [reflexivity|]).
  all: cbn; apply get_set_same.
Qed.

End Tiers.
End NewsTiers.

Module NewsTiersExample.
Import News.

Lemma unreachable_primary_provider_gives_no_news_witness :
  exists c' w',
    getNews (H := Example.host) "AAPL" (VObj []) (NewsFeed.news_client, Example.offline)
    = (Ok [], (c', w')) /\
    sent w' = [GET_query "https://newsapi.org/v2/everything"
                 [("q", VStr "AAPL"); ("apiKey", VStr "demo");
                  ("sortBy", VStr "publishedAt"); ("pageSize", VNum 10);
                  ("language", VStr "en")]] /\
    JSMap.get "news_AAPL_{}" (cache c') = Some {| data := []; cached_at := clock w' |}.
Proof.
  destruct (NewsTiers.unreachable_primary_provider_gives_no_news (H := Example.host)
              "AAPL" [] NewsFeed.news_client Example.offline)
    as (c' & w' & E & Hs & Hc).
  - intros e He. discriminate He.
  - vm_compute. discriminate.
  - exact I.
  - exists c', w'. split; [exact E|]. split; [exact Hs|exact Hc].
Defined.

End NewsTiersExample.

(** *** Counting requests *)

Section Within.
Context {O : Type}.

(** [m] sends at most [n] requests. *)
Definition within {A : Type} (n : nat) (m : M (O * World) A) : Prop :=
  forall s, (length (sent (snd (snd (m s)))) <= length (sent (snd s)) + n)%nat.

Lemma within_silent {A} (m : M (O * World) A) n : stable NewsFeed.same_sent m -> within n m.
Proof. intros Hm s. rewrite (Hm s). lia. Qed.

Lemma within_weaken {A} (m : M (O * World) A) n n' : (n <= n')%nat -> within n m -> within n' m.
Proof. intros Hn Hm s. specialize (Hm s). lia. Qed.

Lemma within_fetch req : within 1 (fetch (O := O) req).
Proof.
  intros [o w]. unfold fetch. cbn [fst snd].
  destruct (net w (length (sent w))) as [d [msg|r]]; cbn; rewrite length_app; cbn; lia.
Qed.

Lemma within_bind {A B} n1 n2 (m : M (O * World) A) (k : A -> M (O * World) B) :
  within n1 m -> (forall a, within n2 (k a)) -> within (n1 + n2) (bind m k).
Proof.
  intros Hm Hk s. unfold bind. specialize (Hm s).
  destruct (m s) as [[a|e] s1]; cbn [fst snd] in *; [|lia].
  specialize (Hk a s1). lia.
Qed.

Lemma within_try_catch {A} n1 n2 (m : M (O * World) A) (h : Exn -> M (O * World) A) :
  within n1 m -> (forall e, within n2 (h e)) -> within (n1 + n2) (try_catch m h).
Proof.
  intros Hm Hh s. unfold try_catch. specialize (Hm s).
  destruct (m s) as [[a|e] s1]; cbn [fst snd] in *; [lia|].
  specialize (Hh e s1). lia.
Qed.

Lemma within_if {A} n (b : bool) (m1 m2 : M (O * World) A) :
  within n m1 -> within n m2 -> within n (if b then m1 else m2).
Proof. destruct b; auto. Qed.

End Within.

Lemma within_zoom {O P A} n (proj : O -> P) (upd : P -> O -> O) (m : M (P * World) A) :
  within n m -> within n (zoom proj upd m).
Proof.
  intros Hm [o w]. unfold zoom. cbn [fst snd]. specialize (Hm (proj o, w)).
  destruct (m (proj o, w)) as [r [p' w']]. exact Hm.
Qed.

(** [m] raises only when it has changed nothing. *)
Definition early {S A : Type} (m : M S A) : Prop :=
  forall s, (exists a, fst (m s) = Ok a) \/ snd (m s) = s.

Lemma early_succeeds {S A} (m : M S A) : succeeds m -> early m.
Proof. intros Hm s. left. apply Hm. Qed.

Lemma early_bind {S A B} (m : M S A) (k : A -> M S B) :
  stable eq m -> (forall a, early (k a)) -> early (bind m k).
Proof.
  intros Hm Hk s. unfold bind. specialize (Hm s).
  destruct (m s) as [[a|e] s1]; cbn [snd] in Hm; subst s1; [apply Hk|right; reflexivity].
Qed.

Ltac silent := apply within_silent; repeat NewsFeed.sent_step.

Module NewsBudget.
Import News.

Section Budget.
Context `{Host}.

Lemma NewsAPI_within query options : within 1 (NewsAPI_getNews query options).
Proof.
  unfold NewsAPI_getNews.
  apply (within_bind 0 1); [silent|intros now].
  apply (within_bind 0 1); [silent|intros self].
  apply within_if; [silent|].
  do 3 (apply (within_bind 0 1); [silent|intros]).
  apply (within_try_catch 1 0); [|intros; silent].
  apply (within_bind 1 0); [apply within_fetch|intros; silent].
Qed.

Lemma Currents_within {O} api query options :
  within 1 (Currents_getNews (O := O) api query options).
Proof.
  unfold Currents_getNews.
  apply (within_bind 0 1); [silent|intros pageSize].
  apply (within_try_catch 1 0); [|intros; silent].
  apply (within_bind 1 0); [apply within_fetch|intros; silent].
Qed.

Lemma Rss_within {O} query options : within 1 (getNewsFromGoogleRss (O := O) query options).
Proof.
  unfold getNewsFromGoogleRss.
  do 3 (apply (within_bind 0 1); [silent|intros]).
  apply (within_try_catch 1 0); [|intros; silent].
  apply (within_bind 1 0); [apply within_fetch|intros; silent].
Qed.

Lemma fallback_tiers_within key query options : within 2 (fallback_tiers key query options).
Proof.
  unfold fallback_tiers.
  apply (within_bind 0 2); [silent|intros self].
  apply (within_bind 1 1).
  { apply (within_try_catch 1 0); [apply Currents_within|intros; silent]. }
  intros alt. apply within_if; [silent|].
  apply (within_bind 1 0); [|intros; silent].
  apply (within_try_catch 1 0); [apply Rss_within|intros; silent].
Qed.

(** The primary provider raises only before it has done anything. *)
Lemma NewsAPI_raises_early query options : early (NewsAPI_getNews query options).
Proof.
  unfold NewsAPI_getNews.
  apply early_bind; [apply stable_Date_now; exact _|intros now].
  apply early_bind; [apply stable_this; exact _|intros self].
  destruct (now <? _rateLimitedUntil self); [apply early_succeeds, succeeds_ret|].
  do 3 (apply early_bind; [apply stable_lift; exact _|intros]).
  apply early_succeeds, succeeds_try_catch. intros e. repeat succeeds_step.
Qed.

Lemma getNews_within query options : within 3 (getNews query options).
Proof.
  unfold getNews.
  apply (within_bind 0 3); [silent|intros self].
  apply (within_bind 0 3); [silent|intros t0].
  destruct (match JSMap.get _ (cache self) with Some _ => _ | None => _ end); [silent|].
  intros s. unfold try_catch, bind at 1.
  pose proof (within_zoom 1 newsApi set_newsApi _ (NewsAPI_within query options) s) as Hp.
  assert (He : early (zoom newsApi set_newsApi (NewsAPI_getNews query options))).
  { intros [c w]. unfold zoom. cbn [fst snd].
    destruct (NewsAPI_raises_early query options (newsApi c, w)) as [[a Ha]|Hs].
    - left. exists a. destruct (NewsAPI_getNews _ _ _) as [r [p' w']]. exact Ha.
    - right. destruct (NewsAPI_getNews _ _ _) as [r [p' w']]. cbn [snd] in Hs.
      injection Hs as -> ->. destruct c; reflexivity. }
  specialize (He s).
  destruct (zoom newsApi set_newsApi (NewsAPI_getNews query options) s) as [[found'|e] s1];
    cbn [fst snd] in *.
  - (* the primary provider answered *)
    assert (Hk : within 2
              (let* limited := if Z.of_nat (length found') =? 0
                               then zoom newsApi set_newsApi isRateLimited else ret false in
               if limited
               then fallback_tiers ("news_" +:+ query +:+ "_" +:+ JSON_stringify options)
                      query options
               else
                 let* t := Date_now in
                 modify (fun c => set_cache
                           (JSMap.set ("news_" +:+ query +:+ "_" +:+ JSON_stringify options)
                              {| data := found'; cached_at := t |} (cache c)) c) ;;
                 ret found')).
    { apply (within_bind 0 2).
      - destruct (_ =? 0); [|silent].
        apply within_zoom. unfold isRateLimited. silent.
      - intros limited. apply within_if; [apply fallback_tiers_within|silent]. }
    assert (Hs : succeeds
              (let* limited := if Z.of_nat (length found') =? 0
                               then zoom newsApi set_newsApi isRateLimited else ret false in
               if limited
               then fallback_tiers ("news_" +:+ query +:+ "_" +:+ JSON_stringify options)
                      query options
               else
                 let* t := Date_now in
                 modify (fun c => set_cache
                           (JSMap.set ("news_" +:+ query +:+ "_" +:+ JSON_stringify options)
                              {| data := found'; cached_at := t |} (cache c)) c) ;;
                 ret found')).
    { apply succeeds_bind.
      - destruct (_ =? 0); [|apply succeeds_ret].
        intros [c w]. unfold zoom, isRateLimited. cbn. eexists. reflexivity.
      - intros limited. apply succeeds_if; [apply NewsFeed.fallback_tiers_succeeds|].
        repeat succeeds_step. }
    specialize (Hk s1). destruct (Hs s1) as [a Ha].
    match goal with |- context [let (_, _) := ?x in _] => destruct x as [[a'|e] s2] end;
      cbn [fst snd] in *; [lia|discriminate].
  - (* it raised at once *)
    destruct He as [[a Ha]|Hs]; [discriminate|]. subst s1.
    assert (Hh : within 2
              (let* now := Date_now in
               let* self' := this in
               when (5 * 60 * 1000 <? now - warned_at self') (modify (set_warned_at now)) ;;
               fallback_tiers ("news_" +:+ query +:+ "_" +:+ JSON_stringify options)
                 query options)).
    { do 3 (apply (within_bind 0 2); [silent|intros]). apply fallback_tiers_within. }
    etransitivity; [apply (Hh s)|lia].
Qed.

Lemma collect_within qs : forall acc, within (3 * length qs) (collect qs acc).
Proof.
  induction qs as [|q qs IH]; intros acc; cbn [collect].
  - silent.
  - replace (3 * length (q :: qs))%nat with (3 + 3 * length qs)%nat by (cbn; lia).
    apply within_bind; [|intros; apply IH].
    apply (within_try_catch 3 0); [|intros; silent].
    apply (within_bind 3 0); [apply getNews_within|intros; silent].
Qed.

(** X16. [getNews] always returns a list, whatever the options and the
    answers of the network, and sends at most 3 requests (one per tier);
    [searchForStockNews] sends at most 15. *)
Theorem news_requests_are_bounded :
  (forall query options s,
      (exists articles, fst (getNews query options s) = Ok articles) /\
      (length (sent (snd (snd (getNews query options s)))) <= length (sent (snd s)) + 3)%nat) /\
  (forall sym s,
      (length (sent (snd (snd (searchForStockNews sym s)))) <= length (sent (snd s)) + 15)%nat).
Proof.
  split.
  - intros query options s. split; [apply NewsFeed.getNews_succeeds|apply getNews_within].
  - intros sym s. unfold searchForStockNews.
    apply (within_bind 15 0); [apply (collect_within (queries sym) [])|intros; silent].
Qed.

(* feed *)
Lemma slice0_sublist {A} (l : list A) n : sublist (slice0 l n) l.
Proof.
  unfold slice0. destruct (JS.trunc _) as [k|].
  - destruct (k <? 0); apply sublist_take.
  - destruct (PrimFloat.ltb _ _); [reflexivity|apply sublist_nil_l].
Qed.

Lemma slice0_default {A} (l : list A) : slice0 l (VNum 10) = take 10 l.
Proof. unfold slice0. cbn [JS.ToNumber]. vm_compute (JS.trunc 10). reflexivity. Qed.

(** X17. Every article [getNewsFromGoogleRss] returns has a truthy title
    and a truthy link, whatever the feed holds; and when the options give
    no page size there are at most 10 of them. *)
Theorem feed_articles_have_a_title_and_a_link {O : Type} (query : string) (options : JSValue)
    (s : O * World) (articles : list Article) :
  fst (getNewsFromGoogleRss query options s) = Ok articles ->
  Forall (fun a => JS.truthy (title a) = true /\ JS.truthy (url a) = true) articles /\
  (forall props, options = VObj props -> JS.truthy (JS.lookup_prop "pageSize" props) = false ->
                 (length articles <= 10)%nat).
Proof.
  unfold getNewsFromGoogleRss.
  mstep_with ltac:(cbn [fst snd]).
  destruct (JS.get options "hl") as [hl|e]; [|discriminate].
  destruct (JS.get options "gl") as [gl|e]; [|discriminate].
  destruct (JS.get options "ceid") as [ceid|e]; [|discriminate].
  unfold fetch. mstep_with ltac:(cbn [fst snd]).
  destruct (net s.2 (length (sent s.2))) as [d [msg|res]]; mstep_with ltac:(cbn [fst snd]).
  { intros [= <-]. split; [constructor|]. intros; cbn; lia. }
  destruct (negb (ok res)).
  { intros [= <-]. split; [constructor|]. intros; cbn; lia. }
  destruct (body res) as [b|]; mstep_with ltac:(cbn [fst snd]).
  2:{ intros [= <-]. split; [constructor|]. intros; cbn; lia. }
  destruct (mapM _ _ _) as [[mapped|e] s1]; mstep_with ltac:(cbn [fst snd]).
  2:{ intros [= <-]. split; [constructor|]. intros; cbn; lia. }
  destruct (JS.get options "pageSize") as [pageSize|e] eqn:Ep; mstep_with ltac:(cbn [fst snd]).
  2:{ intros [= <-]. split; [constructor|]. intros; cbn; lia. }
  intros [= <-]. split.
  - apply Forall_forall. intros a Ha.
    pose proof (elem_of_sublist _ _ _ Ha (slice0_sublist _ _)) as Hk. clear Ha.
    apply list_elem_of_In, filter_In in Hk as [_ Hk].
    apply andb_prop in Hk. exact Hk.
  - intros props -> Hp. cbn in Ep. injection Ep as <-.
    unfold js_or. rewrite Hp. rewrite slice0_default. rewrite length_take. lia.
Qed.

End Budget.
End NewsBudget.

Module NewsBudgetExample.
Import News.

Definition feed_body : JSValue :=
  VObj [("status", VStr "ok");
        ("feed", VObj [("title", VStr "AAPL - Google News")]);
        ("items",
         VArr [VObj [("title", VStr "Apple rises");
                     ("link", VStr "https://example.com/a");
                     ("pubDate", VStr "2024-01-01T00:00:00.000Z")];
               VObj [("title", VStr "A headline without a link")]])].

Lemma feed_articles_have_a_title_and_a_link_witness :
  let run := getNewsFromGoogleRss (H := thorough_host) (O := unit) "AAPL" (VObj [])
               (tt, Example.scripted [Example.json_reply feed_body]) in
  exists a,
    fst run = Ok [a] /\
    title a = VStr "Apple rises" /\ url a = VStr "https://example.com/a" /\
    Forall (fun a => JS.truthy (title a) = true /\ JS.truthy (url a) = true) [a].
Proof.
  intros run.
  destruct (fst run) as [articles|e] eqn:E; [|vm_compute in E; discriminate E].
  destruct (NewsBudget.feed_articles_have_a_title_and_a_link (H := thorough_host)
              "AAPL" (VObj []) (tt, Example.scripted [Example.json_reply feed_body])
              articles E) as [Hall _].
  vm_compute in E. injection E as <-.
  eexists. split; [reflexivity|]. split; [reflexivity|]. split; [reflexivity|exact Hall].
Defined.

End NewsBudgetExample.

(* ===================================================================== *)
(** ** The labels of the sidebar *)
(* ===================================================================== *)

Section Labels.
Context `{Host}.
Variable toLocaleDateString : option Z -> string.
Variable toLocaleTimeString : option Z -> string.

(** X18. [formatTimestamp] labels a valid time stamp by its age: [Just
    now] under a minute (a time stamp in the future included), the
    number of whole minutes from 1 to 59 under an hour, the number of
    whole hours from 1 to 23 under a day, and the date and time in the
    locale's form from one day on. *)
Theorem formatTimestamp_labels_by_age (now : Z) (timestamp : JSValue) (t : Z) :
  JS.Date_getTime timestamp = Some t ->
  let label := Sidebar.formatTimestamp toLocaleDateString toLocaleTimeString now timestamp in
  let age := now - t in
  (age < 60000 -> label = "Just now") /\
  (60000 <= age < 3600000 ->
     exists m, 1 <= m <= 59 /\ 60000 * m <= age < 60000 * (m + 1) /\
               label = pretty m +:+ "m ago") /\
  (3600000 <= age < 86400000 ->
     exists h, 1 <= h <= 23 /\ 3600000 * h <= age < 3600000 * (h + 1) /\
               label = pretty h +:+ "h ago") /\
  (86400000 <= age ->
     label = toLocaleDateString (Some t) +:+ " " +:+ toLocaleTimeString (Some t)).
Proof.
  intros Ht label age. unfold label, Sidebar.formatTimestamp. rewrite Ht. fold age.
  pose proof (Z.div_mod age 60000 ltac:(lia)) as Hdm.
  pose proof (Z.mod_pos_bound age 60000 ltac:(lia)) as Hmod.
  set (m := age / 60000) in *.
  pose proof (Z.div_mod m 60 ltac:(lia)) as Hdm2.
  pose proof (Z.mod_pos_bound m 60 ltac:(lia)) as Hmod2.
  set (h := m / 60) in *.
  repeat split.
  - intros Hage. destruct (Z.ltb_spec m 1); [reflexivity|lia].
  - intros Hage. exists m.
    destruct (Z.ltb_spec m 1); [lia|]. destruct (Z.ltb_spec m 60); [|lia].
    repeat split; lia.
  - intros Hage. exists h.
    destruct (Z.ltb_spec m 1); [lia|]. destruct (Z.ltb_spec m 60); [lia|].
    destruct (Z.ltb_spec m 1440); [|lia].
    repeat split; lia.
  - intros Hage.
    destruct (Z.ltb_spec m 1); [lia|]. destruct (Z.ltb_spec m 60); [lia|].
    destruct (Z.ltb_spec m 1440); [lia|]. reflexivity.
Qed.

End Labels.

Lemma formatTimestamp_labels_by_age_witness :
  Sidebar.formatTimestamp (H := Example.host) (fun _ => "1/1/2024") (fun _ => "12:00:00 AM")
    Example.new_year (VStr "2024-01-01T00:00:00.000Z") = "Just now" /\
  Sidebar.formatTimestamp (H := Example.host) (fun _ => "1/1/2024") (fun _ => "12:00:00 AM")
    (Example.new_year + 7500000) (VStr "2024-01-01T00:00:00.000Z") = "2h ago".
Proof.
  destruct (formatTimestamp_labels_by_age (H := Example.host) (fun _ => "1/1/2024")
              (fun _ => "12:00:00 AM") Example.new_year (VStr "2024-01-01T00:00:00.000Z")
              Example.new_year eq_refl) as (Hnow & _).
  split; [apply Hnow; lia|]. vm_compute. reflexivity.
Defined.
